(** * The automation job orchestration subsystem (app [otomasyon])

    A shallow embedding of the code that submits, approves, schedules,
    runs and polls automation jobs:

    - [otomasyon/models.py], [otomasyon/ansible_models.py]: the records;
    - [otomasyon/services.py]: [AnsibleService] (local runner),
      [PlaybookValidator], [ScheduleManager], [AnsibleTowerService];
    - [otomasyon/tasks.py], [otomasyon/api_views.py], [otomasyon/views.py]:
      the operations that create, approve, cancel and dispatch executions.

    The database, the task queue, the temporary files and the clock are
    an explicit [World] that every operation threads through.  What the
    outside does (the external process, the remote orchestrator's
    answers, uuid4) is an argument of the operation that consumes it. *)

From stdpp Require Import gmap strings list fin_maps pretty.
From Stdlib Require Import ZArith Lia.

Set Warnings "-register-all".

(** ** Python values *)

(** What a [JSONField] or a decoded request body holds.  Numbers are kept
    as integers: no operation below computes with them. *)
Inductive json :=
  | JNull
  | JBool (b : bool)
  | JNum (n : Z)
  | JStr (s : string)
  | JArr (l : list json)
  | JObj (m : gmap string json).

(** Python truthiness ([if x:], [x or y], [not x]). *)
Definition truthy (v : json) : bool :=
  match v with
  | JNull => false
  | JBool b => b
  | JNum n => negb (n =? 0)%Z
  | JStr s => negb (String.eqb s "")
  | JArr l => match l with [] => false | _ => true end
  | JObj m => negb (bool_decide (m = ∅))
  end.

Definition str_truthy (s : string) : bool := negb (String.eqb s "").

(** Library functions of Python the code calls and whose text is not part
    of the repository: [json.loads] ([None] for [JSONDecodeError]),
    [json.dumps], [dict.update] applied to something that is not a
    mapping ([None] when it raises),
    [datetime.fromisoformat(s.replace('Z', '+00:00'))] ([None] for
    [ValueError]), and [float(s)] of a string ([None] for [ValueError]). *)
Record Python := {
  json_loads : string -> option json;
  json_dumps : gmap string json -> string;
  dict_update_iterable : gmap string json -> json -> option (gmap string json);
  fromisoformat : string -> option Z;
  float_of_string : string -> option Z
}.

(** [{**a, **b}] and [a.update(b)]: the keys of [b] win. *)
Definition dict_merge {V} (a b : gmap string V) : gmap string V := b ∪ a.

(** [x or {}] for an optional dict argument. *)
Definition or_empty {V} (x : option (gmap string V)) : gmap string V :=
  match x with
  | Some d => d
  | None => ∅
  end.

(** [' '.join(l)], [', '.join(l)] *)
Fixpoint str_join (sep : string) (l : list string) : string :=
  match l with
  | [] => ""
  | [x] => x
  | x :: rest => x +:+ sep +:+ str_join sep rest
  end.

(** ** Time *)

Module Datetime.
Local Open Scope Z_scope.

(** An aware UTC [datetime] is an instant; it is kept as the number of
    microseconds since 0001-01-01T00:00:00 and its calendar fields are
    computed the way CPython's [datetime] does ([_ord2ymd], [_ymd2ord]).
    The range check of years 1..9999 is not modelled. *)
Definition datetime := Z.

Record time := mk_time { t_hour : Z; t_minute : Z; t_second : Z; t_microsecond : Z }.
Record date := mk_date { d_year : Z; d_month : Z; d_day : Z }.

Definition us_per_second : Z := 1000000.
Definition us_per_minute : Z := 60 * us_per_second.
Definition us_per_hour : Z := 60 * us_per_minute.
Definition us_per_day : Z := 24 * us_per_hour.

Definition is_leap (y : Z) : bool :=
  (y mod 4 =? 0) && (negb (y mod 100 =? 0) || (y mod 400 =? 0)).

Definition days_before_year (year : Z) : Z :=
  let y := year - 1 in y * 365 + y / 4 - y / 100 + y / 400.

Definition DAYS_IN_MONTH : list Z := [0; 31; 28; 31; 30; 31; 30; 31; 31; 30; 31; 30; 31].
Definition DAYS_BEFORE_MONTH : list Z :=
  [0; 0; 31; 59; 90; 120; 151; 181; 212; 243; 273; 304; 334].

Definition b2z (b : bool) : Z := if b then 1 else 0.

Definition days_in_month (year month : Z) : Z :=
  if (month =? 2) && is_leap year then 29
  else nth (Z.to_nat month) DAYS_IN_MONTH 0.

Definition days_before_month (year month : Z) : Z :=
  nth (Z.to_nat month) DAYS_BEFORE_MONTH 0 + b2z ((2 <? month) && is_leap year).

Definition ymd2ord (year month day : Z) : Z :=
  days_before_year year + days_before_month year month + day.

Definition DI400Y : Z := 146097.
Definition DI100Y : Z := 36524.
Definition DI4Y : Z := 1461.

Definition ord2ymd (ordinal : Z) : date :=
  let n := ordinal - 1 in
  let n400 := n / DI400Y in
  let n := n mod DI400Y in
  let year := n400 * 400 + 1 in
  let n100 := n / DI100Y in
  let n := n mod DI100Y in
  let n4 := n / DI4Y in
  let n := n mod DI4Y in
  let n1 := n / 365 in
  let n := n mod 365 in
  let year := year + n100 * 100 + n4 * 4 + n1 in
  if (n1 =? 4) || (n100 =? 4) then mk_date (year - 1) 12 31
  else
    let leapyear := (n1 =? 3) && (negb (n4 =? 24) || (n100 =? 3)) in
    let month := Z.shiftr (n + 50) 5 in
    let preceding :=
      nth (Z.to_nat month) DAYS_BEFORE_MONTH 0 + b2z ((2 <? month) && leapyear) in
    if n <? preceding then
      let month := month - 1 in
      let preceding :=
        preceding - (nth (Z.to_nat month) DAYS_IN_MONTH 0 + b2z ((month =? 2) && leapyear)) in
      mk_date year month (n - preceding + 1)
    else mk_date year month (n - preceding + 1).

Definition toordinal (t : datetime) : Z := t / us_per_day + 1.
Definition time_of_day (t : datetime) : Z := t mod us_per_day.

Definition year (t : datetime) : Z := d_year (ord2ymd (toordinal t)).
Definition month (t : datetime) : Z := d_month (ord2ymd (toordinal t)).
Definition day (t : datetime) : Z := d_day (ord2ymd (toordinal t)).
Definition hour (t : datetime) : Z := time_of_day t / us_per_hour.
Definition minute (t : datetime) : Z := (time_of_day t mod us_per_hour) / us_per_minute.
Definition second (t : datetime) : Z := (time_of_day t mod us_per_minute) / us_per_second.

(** [(self.toordinal() + 6) % 7]: Monday is 0. *)
Definition weekday (t : datetime) : Z := (toordinal t + 6) mod 7.

Definition time_us (tm : time) : Z :=
  t_hour tm * us_per_hour + t_minute tm * us_per_minute
  + t_second tm * us_per_second + t_microsecond tm.

Definition of_fields (y m d : Z) (tod : Z) : datetime :=
  (ymd2ord y m d - 1) * us_per_day + tod.

(** [dt.replace(hour=h, minute=m, second=0, microsecond=0)] *)
Definition replace_hm (t : datetime) (h m : Z) : datetime :=
  (toordinal t - 1) * us_per_day + h * us_per_hour + m * us_per_minute.

(** [dt.replace(year=y, month=m, day=d)] *)
Definition replace_ymd (t : datetime) (y m d : Z) : datetime :=
  of_fields y m d (time_of_day t).

(** [datetime.combine(d, tm)], a naive datetime. *)
Definition combine (d : date) (tm : time) : datetime :=
  of_fields (d_year d) (d_month d) (d_day d) (time_us tm).

Definition timedelta_days (n : Z) : Z := n * us_per_day.
Definition timedelta_hours (n : Z) : Z := n * us_per_hour.

(** Zero-padded decimal, for [strftime]. *)
Definition pad (width : nat) (n : Z) : string :=
  let s := pretty n in
  String.concat "" (replicate (width - String.length s) "0"%string) +:+ s.

(** [dt.strftime('%Y%m%d_%H%M%S')] *)
Definition strftime_Ymd_HMS (t : datetime) : string :=
  pad 4 (year t) +:+ pad 2 (month t) +:+ pad 2 (day t) +:+ "_"
  +:+ pad 2 (hour t) +:+ pad 2 (minute t) +:+ pad 2 (second t).

End Datetime.

Abbreviation datetime := Datetime.datetime.

(** ** The records of [otomasyon/models.py]

    One module per model class, so that fields keep their names.  A row's
    primary key is its position in the table (rows are never deleted by
    the operations modelled here). *)

Record User := { user_id : nat; is_staff : bool }.

(** [envanter.Server]: only the field the runner reads. *)
Record Server := { hostname : string }.

(** [PlaybookExecution.status] choices. *)
Inductive Status :=
  | Pending | Approved | Running | Completed | Failed | Cancelled | Timeout.

#[global] Instance Status_eq_dec : EqDecision Status.
Proof. solve_decision. Defined.

Module AnsiblePlaybook.
Record t := {
  name : string;
  playbook_path : string;
  requires_approval : bool;
  timeout_minutes : nat;
  target_servers : list Server;
  default_variables : gmap string json;
  required_variables : list string;
  allowed_users : list nat;
  execution_count : nat;
  success_count : nat;
  last_execution : option datetime
}.
Definition set_execution_count (v : nat) (x : t) : t :=
  {| name := name x; playbook_path := playbook_path x;
     requires_approval := requires_approval x; timeout_minutes := timeout_minutes x;
     target_servers := target_servers x; default_variables := default_variables x;
     required_variables := required_variables x; allowed_users := allowed_users x;
     execution_count := v; success_count := success_count x;
     last_execution := last_execution x |}.
Definition set_success_count (v : nat) (x : t) : t :=
  {| name := name x; playbook_path := playbook_path x;
     requires_approval := requires_approval x; timeout_minutes := timeout_minutes x;
     target_servers := target_servers x; default_variables := default_variables x;
     required_variables := required_variables x; allowed_users := allowed_users x;
     execution_count := execution_count x; success_count := v;
     last_execution := last_execution x |}.
Definition set_last_execution (v : option datetime) (x : t) : t :=
  {| name := name x; playbook_path := playbook_path x;
     requires_approval := requires_approval x; timeout_minutes := timeout_minutes x;
     target_servers := target_servers x; default_variables := default_variables x;
     required_variables := required_variables x; allowed_users := allowed_users x;
     execution_count := execution_count x; success_count := success_count x;
     last_execution := v |}.
End AnsiblePlaybook.

Module PlaybookExecution.
Record t := {
  playbook : nat;
  executor : nat;
  execution_id : string;
  variables : json;
  target_hosts : option (list string);
  status : Status;
  started_at : option datetime;
  completed_at : option datetime;
  return_code : option Z;
  stdout : string;
  stderr : string;
  approved_by : option nat;
  approved_at : option datetime;
  approval_notes : string
}.
Definition set_status (v : Status) (x : t) : t :=
  {| playbook := playbook x; executor := executor x; execution_id := execution_id x;
     variables := variables x; target_hosts := target_hosts x; status := v;
     started_at := started_at x; completed_at := completed_at x;
     return_code := return_code x; stdout := stdout x; stderr := stderr x;
     approved_by := approved_by x; approved_at := approved_at x;
     approval_notes := approval_notes x |}.
Definition set_started_at (v : option datetime) (x : t) : t :=
  {| playbook := playbook x; executor := executor x; execution_id := execution_id x;
     variables := variables x; target_hosts := target_hosts x; status := status x;
     started_at := v; completed_at := completed_at x; return_code := return_code x;
     stdout := stdout x; stderr := stderr x; approved_by := approved_by x;
     approved_at := approved_at x; approval_notes := approval_notes x |}.
Definition set_completed_at (v : option datetime) (x : t) : t :=
  {| playbook := playbook x; executor := executor x; execution_id := execution_id x;
     variables := variables x; target_hosts := target_hosts x; status := status x;
     started_at := started_at x; completed_at := v; return_code := return_code x;
     stdout := stdout x; stderr := stderr x; approved_by := approved_by x;
     approved_at := approved_at x; approval_notes := approval_notes x |}.
Definition set_return_code (v : option Z) (x : t) : t :=
  {| playbook := playbook x; executor := executor x; execution_id := execution_id x;
     variables := variables x; target_hosts := target_hosts x; status := status x;
     started_at := started_at x; completed_at := completed_at x; return_code := v;
     stdout := stdout x; stderr := stderr x; approved_by := approved_by x;
     approved_at := approved_at x; approval_notes := approval_notes x |}.
Definition set_stdout (v : string) (x : t) : t :=
  {| playbook := playbook x; executor := executor x; execution_id := execution_id x;
     variables := variables x; target_hosts := target_hosts x; status := status x;
     started_at := started_at x; completed_at := completed_at x;
     return_code := return_code x; stdout := v; stderr := stderr x;
     approved_by := approved_by x; approved_at := approved_at x;
     approval_notes := approval_notes x |}.
Definition set_stderr (v : string) (x : t) : t :=
  {| playbook := playbook x; executor := executor x; execution_id := execution_id x;
     variables := variables x; target_hosts := target_hosts x; status := status x;
     started_at := started_at x; completed_at := completed_at x;
     return_code := return_code x; stdout := stdout x; stderr := v;
     approved_by := approved_by x; approved_at := approved_at x;
     approval_notes := approval_notes x |}.
Definition set_approved_by (v : option nat) (x : t) : t :=
  {| playbook := playbook x; executor := executor x; execution_id := execution_id x;
     variables := variables x; target_hosts := target_hosts x; status := status x;
     started_at := started_at x; completed_at := completed_at x;
     return_code := return_code x; stdout := stdout x; stderr := stderr x;
     approved_by := v; approved_at := approved_at x;
     approval_notes := approval_notes x |}.
Definition set_approved_at (v : option datetime) (x : t) : t :=
  {| playbook := playbook x; executor := executor x; execution_id := execution_id x;
     variables := variables x; target_hosts := target_hosts x; status := status x;
     started_at := started_at x; completed_at := completed_at x;
     return_code := return_code x; stdout := stdout x; stderr := stderr x;
     approved_by := approved_by x; approved_at := v;
     approval_notes := approval_notes x |}.
Definition set_approval_notes (v : string) (x : t) : t :=
  {| playbook := playbook x; executor := executor x; execution_id := execution_id x;
     variables := variables x; target_hosts := target_hosts x; status := status x;
     started_at := started_at x; completed_at := completed_at x;
     return_code := return_code x; stdout := stdout x; stderr := stderr x;
     approved_by := approved_by x; approved_at := approved_at x; approval_notes := v |}.

(** [is_successful] property *)
Definition is_successful (x : t) : bool :=
  bool_decide (status x = Completed) && bool_decide (return_code x = Some 0%Z).
End PlaybookExecution.

Module AutomationSchedule.
Record t := {
  name : string;
  playbook : nat;
  is_enabled : bool;
  schedule_type : string;
  scheduled_time : Datetime.time;
  scheduled_date : option Datetime.date;
  cron_expression : string;
  variables : json;
  last_run : option datetime;
  next_run : option datetime;
  run_count : nat
}.
Definition set_last_run (v : option datetime) (x : t) : t :=
  {| name := name x; playbook := playbook x; is_enabled := is_enabled x;
     schedule_type := schedule_type x; scheduled_time := scheduled_time x;
     scheduled_date := scheduled_date x; cron_expression := cron_expression x;
     variables := variables x; last_run := v; next_run := next_run x;
     run_count := run_count x |}.
Definition set_next_run (v : option datetime) (x : t) : t :=
  {| name := name x; playbook := playbook x; is_enabled := is_enabled x;
     schedule_type := schedule_type x; scheduled_time := scheduled_time x;
     scheduled_date := scheduled_date x; cron_expression := cron_expression x;
     variables := variables x; last_run := last_run x; next_run := v;
     run_count := run_count x |}.
Definition set_run_count (v : nat) (x : t) : t :=
  {| name := name x; playbook := playbook x; is_enabled := is_enabled x;
     schedule_type := schedule_type x; scheduled_time := scheduled_time x;
     scheduled_date := scheduled_date x; cron_expression := cron_expression x;
     variables := variables x; last_run := last_run x; next_run := next_run x;
     run_count := v |}.
End AutomationSchedule.

Module AutomationLog.
Record t := { level : string; message : string; playbook_execution : option nat }.
End AutomationLog.

(** ** The world the operations run in *)

(** One call of [subprocess.run(cmd, cwd=..., timeout=...)], and whether
    the call ended its child by force: when the timeout expires
    [subprocess.run] kills the child and waits for it before it raises
    [TimeoutExpired]. *)
Record SubprocessCall := {
  sp_cmd : list string;
  sp_cwd : string;
  sp_timeout : Z;
  sp_killed : bool
}.

(** The tables, the celery queue of [execute_ansible_playbook.delay(id)]
    messages, the history of execution rows written ([saved], newest
    first), the subprocess calls made, the temporary directories and
    files on disk, and the clock read by [timezone.now()]. *)
Record World := {
  playbooks : list AnsiblePlaybook.t;
  executions : list PlaybookExecution.t;
  schedules : list AutomationSchedule.t;
  logs : list AutomationLog.t;
  queue : list nat;
  saved : list (nat * PlaybookExecution.t);
  spawned : list SubprocessCall;
  dirs : gset string;
  files : gmap string string;
  clock : datetime
}.
Definition set_playbooks (v : list AnsiblePlaybook.t) (x : World) : World :=
  {| playbooks := v; executions := executions x; schedules := schedules x;
     logs := logs x; queue := queue x; saved := saved x; spawned := spawned x;
     dirs := dirs x; files := files x; clock := clock x |}.
Definition set_executions (v : list PlaybookExecution.t) (x : World) : World :=
  {| playbooks := playbooks x; executions := v; schedules := schedules x;
     logs := logs x; queue := queue x; saved := saved x; spawned := spawned x;
     dirs := dirs x; files := files x; clock := clock x |}.
Definition set_schedules (v : list AutomationSchedule.t) (x : World) : World :=
  {| playbooks := playbooks x; executions := executions x; schedules := v;
     logs := logs x; queue := queue x; saved := saved x; spawned := spawned x;
     dirs := dirs x; files := files x; clock := clock x |}.
Definition set_logs (v : list AutomationLog.t) (x : World) : World :=
  {| playbooks := playbooks x; executions := executions x; schedules := schedules x;
     logs := v; queue := queue x; saved := saved x; spawned := spawned x;
     dirs := dirs x; files := files x; clock := clock x |}.
Definition set_queue (v : list nat) (x : World) : World :=
  {| playbooks := playbooks x; executions := executions x; schedules := schedules x;
     logs := logs x; queue := v; saved := saved x; spawned := spawned x;
     dirs := dirs x; files := files x; clock := clock x |}.
Definition set_saved (v : list (nat * PlaybookExecution.t)) (x : World) : World :=
  {| playbooks := playbooks x; executions := executions x; schedules := schedules x;
     logs := logs x; queue := queue x; saved := v; spawned := spawned x;
     dirs := dirs x; files := files x; clock := clock x |}.
Definition set_spawned (v : list SubprocessCall) (x : World) : World :=
  {| playbooks := playbooks x; executions := executions x; schedules := schedules x;
     logs := logs x; queue := queue x; saved := saved x; spawned := v; dirs := dirs x;
     files := files x; clock := clock x |}.
Definition set_dirs (v : gset string) (x : World) : World :=
  {| playbooks := playbooks x; executions := executions x; schedules := schedules x;
     logs := logs x; queue := queue x; saved := saved x; spawned := spawned x;
     dirs := v; files := files x; clock := clock x |}.
Definition set_files (v : gmap string string) (x : World) : World :=
  {| playbooks := playbooks x; executions := executions x; schedules := schedules x;
     logs := logs x; queue := queue x; saved := saved x; spawned := spawned x;
     dirs := dirs x; files := v; clock := clock x |}.
Definition set_clock (v : datetime) (x : World) : World :=
  {| playbooks := playbooks x; executions := executions x; schedules := schedules x;
     logs := logs x; queue := queue x; saved := saved x; spawned := spawned x;
     dirs := dirs x; files := files x; clock := v |}.

(** Row access.  [objects.create] appends a row and its key is the old
    length of the table; [save()] overwrites the row with the in-memory
    object. *)
Definition create_execution (e : PlaybookExecution.t) (w : World) : nat * World :=
  let pk := length (executions w) in
  (pk, set_saved ((pk, e) :: saved w) (set_executions (executions w ++ [e]) w)).

Definition save_execution (pk : nat) (e : PlaybookExecution.t) (w : World) : World :=
  set_saved ((pk, e) :: saved w) (set_executions (<[pk := e]> (executions w)) w).

Definition save_playbook (pk : nat) (p : AnsiblePlaybook.t) (w : World) : World :=
  set_playbooks (<[pk := p]> (playbooks w)) w.

Definition save_schedule (pk : nat) (s : AutomationSchedule.t) (w : World) : World :=
  set_schedules (<[pk := s]> (schedules w)) w.

Definition create_log (level message : string) (execution : option nat) (w : World)
  : World :=
  set_logs (logs w ++ [{| AutomationLog.level := level;
                          AutomationLog.message := message;
                          AutomationLog.playbook_execution := execution |}]) w.

(** [execute_ansible_playbook.delay(id)] *)
Definition delay (pk : nat) (w : World) : World := set_queue (queue w ++ [pk]) w.

(** [timezone.now()] *)
Definition now (w : World) : datetime := clock w.

(** ** Exceptions *)

Inductive exn :=
  | TimeoutExpired
  | Exception (msg : string).

Inductive result (A : Type) :=
  | Ok (a : A)
  | Raise (e : exn).
Arguments Ok {A} a.
Arguments Raise {A} e.

(** Code that reads and writes the world and may raise. *)
Definition M (A : Type) : Type := World -> World * result A.

Definition ret {A} (a : A) : M A := fun w => (w, Ok a).
Definition raise {A} (e : exn) : M A := fun w => (w, Raise e).
Definition bind {A B} (m : M A) (k : A -> M B) : M B :=
  fun w => match m w with
           | (w', Ok a) => k a w'
           | (w', Raise e) => (w', Raise e)
           end.
Definition lift (f : World -> World) : M unit := fun w => (f w, Ok tt).

Notation "x <- m ;; k" := (bind m (fun x => k))
  (at level 100, m at next level, right associativity).
Notation "m ;;; k" := (bind m (fun _ => k))
  (at level 100, right associativity).

(** ** [services.py]: PlaybookValidator *)

Module PlaybookValidator.
Section WithPython.
Variable py : Python.

(** [validate_variables(variables, required_vars)] returns
    [(is_valid, message)]. *)
Definition validate_variables (variables : json) (required_vars : list string)
  : bool * string :=
  match required_vars with
  | [] => (true, "Zorunlu değişken yok")
  | _ =>
    let decoded :=
      match variables with
      | JStr s => json_loads py s
      | v => Some v
      end in
    match decoded with
    | None => (false, "Değişkenler JSON formatında olmalı")
    | Some (JObj d) =>
      let missing_vars := filter (fun var => d !! var = None) required_vars in
      match missing_vars with
      | [] => (true, "Tüm zorunlu değişkenler mevcut")
      | _ => (false, "Eksik zorunlu değişkenler: " +:+ str_join ", " missing_vars)
      end
    | Some _ => (false, "Değişkenler dict formatında olmalı")
    end
  end.

End WithPython.
End PlaybookValidator.

(** ** [services.py]: AnsibleService, the local runner *)

Module AnsibleService.

(** The three optional entries of [django.conf.settings] read by
    [__init__]. *)
Record Settings := {
  ANSIBLE_PATH : option string;
  ANSIBLE_WORKING_DIR : option string;
  ANSIBLE_TIMEOUT : option Z
}.

Record t := { ansible_path : string; working_dir : string; timeout : Z }.

Definition __init__ (settings : Settings) : t :=
  {| ansible_path := default "ansible-playbook" (ANSIBLE_PATH settings);
     working_dir := default "/tmp/ansible" (ANSIBLE_WORKING_DIR settings);
     timeout := default 1800%Z (ANSIBLE_TIMEOUT settings) |}.

(** What the external process does once started: it either cannot be
    started ([OSError], for instance a missing binary) or needs
    [duration_us] microseconds and then exits with a return code and
    its captured output. *)
Inductive Process :=
  | SpawnError (msg : string)
  | Exits (duration_us : Z) (returncode : Z) (out err : string).

(** What the operating system does during one run: the random suffix
    [tempfile.mkdtemp] picks ([None]: it raises), whether writing a file
    raises, the process, and what [shutil.rmtree] does ([None]: it
    removes the tree; [Some kept]: it raises, after it removed the files
    of the tree that are not in [kept]; the directory itself stays). *)
Record RunEnv := {
  mkdtemp_suffix : option string;
  write_error : option string;
  process : Process;
  rmtree_left : option (gset string)
}.

Record CompletedProcess := { returncode : Z; cp_stdout : string; cp_stderr : string }.

Section WithPython.
Variable py : Python.
Variable self : t.
Variable env : RunEnv.

Definition _log_info (message : string) (execution : option nat) : M unit :=
  lift (create_log "info" message execution).

Definition _log_error (message : string) (execution : option nat) : M unit :=
  lift (create_log "error" message execution).

(** [tempfile.mkdtemp(prefix='ansible_')] *)
Definition _create_temp_directory : M string :=
  fun w =>
    match mkdtemp_suffix env with
    | None => (w, Raise (Exception "mkdtemp"))
    | Some suffix =>
      let temp_dir := "/tmp/ansible_" +:+ suffix in
      if bool_decide (temp_dir ∈ dirs w)
      then (w, Raise (Exception "mkdtemp"))
      else (set_dirs ({[temp_dir]} ∪ dirs w) w, Ok temp_dir)
    end.

(** [with open(path, 'w') as f: f.write(content)] *)
Definition write_file (path content : string) : M unit :=
  fun w =>
    match write_error env with
    | Some msg => (w, Raise (Exception msg))
    | None => (set_files (<[path := content]> (files w)) w, Ok tt)
    end.

(** [os.path.join(temp_dir, name)] *)
Definition path_join (temp_dir name : string) : string := temp_dir +:+ "/" +:+ name.

(** Lines 114-122 of [_create_inventory_file]: the hosts to target. *)
Definition inventory_hosts (execution : PlaybookExecution.t) (playbook : AnsiblePlaybook.t)
  : list string :=
  let hosts := default [] (PlaybookExecution.target_hosts execution) in
  let hosts :=
    match hosts, AnsiblePlaybook.target_servers playbook with
    | [], _ :: _ => map hostname (AnsiblePlaybook.target_servers playbook)
    | _, _ => hosts
    end in
  match hosts with
  | [] => ["localhost"]
  | _ => hosts
  end.

(** Lines 125-127: the text of the inventory. *)
Definition inventory_content (hosts : list string) : string :=
  fold_left (fun content host => content +:+ host +:+ "
") hosts "[targets]
".

Definition _create_inventory_file (temp_dir : string) (execution : PlaybookExecution.t)
  (playbook : AnsiblePlaybook.t) : M string :=
  let inventory_path := path_join temp_dir "inventory.ini" in
  write_file inventory_path (inventory_content (inventory_hosts execution playbook)) ;;;
  ret inventory_path.

(** [variables.update(other)] *)
Definition dict_update (variables : gmap string json) (other : json)
  : M (gmap string json) :=
  match other with
  | JObj d => ret (dict_merge variables d)
  | _ =>
    match dict_update_iterable py variables other with
    | Some d => ret d
    | None => raise (Exception "dict.update")
    end
  end.

Definition _create_vars_file (temp_dir : string) (execution : PlaybookExecution.t)
  (playbook : AnsiblePlaybook.t) : M string :=
  let vars_path := path_join temp_dir "vars.json" in
  let variables := AnsiblePlaybook.default_variables playbook in
  variables <-
    (if truthy (PlaybookExecution.variables execution) then
       match PlaybookExecution.variables execution with
       | JStr s =>
         match json_loads py s with
         | Some execution_vars => dict_update variables execution_vars
         | None => ret variables
         end
       | JObj d => ret (dict_merge variables d)
       | _ => ret variables
       end
     else ret variables) ;;
  write_file vars_path (json_dumps py variables) ;;;
  ret vars_path.

Definition _build_ansible_command (playbook_path inventory_file vars_file : string)
  (playbook : AnsiblePlaybook.t) : list string :=
  let cmd := [ansible_path self; playbook_path; "-i"; inventory_file;
              "--extra-vars"; "@" +:+ vars_file; "-v"] in
  match AnsiblePlaybook.timeout_minutes playbook with
  | O => cmd
  | S _ => cmd ++ ["--timeout"; pretty (AnsiblePlaybook.timeout_minutes playbook * 60)]
  end.

(** [subprocess.run(cmd, cwd=cwd, capture_output=True, text=True,
    timeout=timeout)]: waits at most [timeout] seconds; when the wait
    expires the child is killed and [TimeoutExpired] is raised. *)
Definition subprocess_run (cmd : list string) (cwd : string) (timeout : Z)
  : M CompletedProcess :=
  fun w =>
    let call killed :=
      set_spawned (spawned w ++ [{| sp_cmd := cmd; sp_cwd := cwd; sp_timeout := timeout;
                                    sp_killed := killed |}]) w in
    match process env with
    | SpawnError msg => (call false, Raise (Exception msg))
    | Exits duration_us rc out err =>
      if (timeout * Datetime.us_per_second <? duration_us)%Z
      then (set_clock (clock w + timeout * Datetime.us_per_second)%Z (call true),
            Raise TimeoutExpired)
      else (set_clock (clock w + duration_us)%Z (call false),
            Ok {| returncode := rc; cp_stdout := out; cp_stderr := err |})
    end.

(** [_cleanup_temp_files]: [shutil.rmtree(temp_dir)] removes the
    directory and everything under it; when it raises, the handler only
    writes a warning to the logger and what [rmtree] left stays. *)
Definition _cleanup_temp_files (temp_dir : string) : M unit :=
  lift (fun w =>
    match rmtree_left env with
    | None =>
      set_files (filter (fun kv => String.prefix (temp_dir +:+ "/") kv.1 = false) (files w))
        (set_dirs (dirs w ∖ {[temp_dir]}) w)
    | Some kept =>
      set_files (filter (fun kv => String.prefix (temp_dir +:+ "/") kv.1 = false
                                   \/ kv.1 ∈ kept) (files w)) w
    end).

(** Lines 32-37 of [execute_playbook]: the row is marked running. *)
Definition start_run (execution_id : nat) (execution : PlaybookExecution.t)
  (playbook : AnsiblePlaybook.t) (w : World) : World * PlaybookExecution.t :=
  let w := (_log_info ("Playbook çalıştırma başlatıldı: " +:+ AnsiblePlaybook.name playbook)
              (Some execution_id) w).1 in
  let execution := PlaybookExecution.set_status Running execution in
  let execution := PlaybookExecution.set_started_at (Some (now w)) execution in
  (save_execution execution_id execution w, execution).

(** Lines 40-61 of [execute_playbook]: from the temporary directory to
    the end of the subprocess. *)
Definition run_process (execution_id : nat) (execution : PlaybookExecution.t)
  (playbook : AnsiblePlaybook.t) : M (string * CompletedProcess) :=
  temp_dir <- _create_temp_directory ;;
  inventory_file <- _create_inventory_file temp_dir execution playbook ;;
  vars_file <- _create_vars_file temp_dir execution playbook ;;
  let cmd := _build_ansible_command (AnsiblePlaybook.playbook_path playbook)
               inventory_file vars_file playbook in
  _log_info ("Ansible komutu: " +:+ str_join " " cmd) (Some execution_id) ;;;
  result <- subprocess_run cmd temp_dir (timeout self) ;;
  ret (temp_dir, result).

(** Lines 63-87: the process returned. *)
Definition record_result (execution_id : nat) (execution : PlaybookExecution.t)
  (playbook : AnsiblePlaybook.t) (temp_dir : string) (result : CompletedProcess)
  : M PlaybookExecution.t :=
  fun w =>
    let execution := PlaybookExecution.set_return_code (Some (returncode result)) execution in
    let execution := PlaybookExecution.set_stdout (cp_stdout result) execution in
    let execution := PlaybookExecution.set_stderr (cp_stderr result) execution in
    let execution := PlaybookExecution.set_completed_at (Some (now w)) execution in
    let '(execution, playbook, w) :=
      if (returncode result =? 0)%Z then
        (PlaybookExecution.set_status Completed execution,
         AnsiblePlaybook.set_success_count (AnsiblePlaybook.success_count playbook + 1) playbook,
         (_log_info "Playbook başarıyla tamamlandı" (Some execution_id) w).1)
      else
        (PlaybookExecution.set_status Failed execution,
         playbook,
         (_log_error ("Playbook başarısız: " +:+ cp_stderr result) (Some execution_id) w).1) in
    let playbook :=
      AnsiblePlaybook.set_execution_count (AnsiblePlaybook.execution_count playbook + 1) playbook in
    let playbook := AnsiblePlaybook.set_last_execution (Some (now w)) playbook in
    let w := save_playbook (PlaybookExecution.playbook execution) playbook w in
    let w := save_execution execution_id execution w in
    let w := (_cleanup_temp_files temp_dir w).1 in
    (w, Ok execution).

(** Lines 89-94: [except subprocess.TimeoutExpired]. *)
Definition on_timeout (execution_id : nat) (execution : PlaybookExecution.t)
  : M PlaybookExecution.t :=
  fun w =>
    let execution := PlaybookExecution.set_status Timeout execution in
    let execution := PlaybookExecution.set_completed_at (Some (now w)) execution in
    let w := save_execution execution_id execution w in
    let w := (_log_error "Playbook zaman aşımına uğradı" (Some execution_id) w).1 in
    (w, Ok execution).

(** Lines 96-102: [except Exception as e]. *)
Definition on_exception (execution_id : nat) (execution : PlaybookExecution.t) (e : string)
  : M PlaybookExecution.t :=
  fun w =>
    let execution := PlaybookExecution.set_status Failed execution in
    let execution := PlaybookExecution.set_stderr e execution in
    let execution := PlaybookExecution.set_completed_at (Some (now w)) execution in
    let w := save_execution execution_id execution w in
    let w := (_log_error ("Playbook çalıştırma hatası: " +:+ e) (Some execution_id) w).1 in
    (w, Ok execution).

(** [execute_playbook(self, execution_id)].  When the row does not exist
    the handler itself fails on the unbound name [execution] and the
    exception leaves the function; a dangling [playbook] key raises with
    [execution] bound and still as loaded. *)
Definition execute_playbook (execution_id : nat) : M PlaybookExecution.t :=
  fun w =>
    match executions w !! execution_id with
    | None => (w, Raise (Exception "UnboundLocalError"))
    | Some execution =>
      match playbooks w !! PlaybookExecution.playbook execution with
      | None => on_exception execution_id execution "DoesNotExist" w
      | Some playbook =>
        let '(w, execution) := start_run execution_id execution playbook w in
        match run_process execution_id execution playbook w with
        | (w, Ok (temp_dir, result)) =>
          record_result execution_id execution playbook temp_dir result w
        | (w, Raise TimeoutExpired) => on_timeout execution_id execution w
        | (w, Raise (Exception e)) => on_exception execution_id execution e w
        end
      end
    end.

End WithPython.
End AnsibleService.

(** ** [services.py]: ScheduleManager *)

Module ScheduleManager.
Import Datetime.
Local Open Scope Z_scope.

Section WithTimezone.
(** The UTC offset, in microseconds, that [TIME_ZONE] has at a given
    naive local time; [timezone.make_aware] subtracts it. *)
Variable utcoffset : Z -> Z.

Definition make_aware (naive : Z) : datetime := naive - utcoffset naive.

(** [calculate_next_run(schedule)], with the value [timezone.now()]
    returned as [now]. *)
Definition calculate_next_run (now : datetime) (schedule : AutomationSchedule.t)
  : option datetime :=
  let schedule_type := AutomationSchedule.schedule_type schedule in
  let scheduled_time := AutomationSchedule.scheduled_time schedule in
  if String.eqb schedule_type "once" then
    match AutomationSchedule.scheduled_date schedule with
    | Some scheduled_date =>
      let next_run := make_aware (combine scheduled_date scheduled_time) in
      if now <? next_run then Some next_run else None
    | None => None
    end
  else if String.eqb schedule_type "daily" then
    let next_run := replace_hm now (t_hour scheduled_time) (t_minute scheduled_time) in
    let next_run := if next_run <=? now then next_run + timedelta_days 1 else next_run in
    Some next_run
  else if String.eqb schedule_type "weekly" then
    let days_ahead := 0 - weekday now in
    let days_ahead := if days_ahead <=? 0 then days_ahead + 7 else days_ahead in
    let next_run := now + timedelta_days days_ahead in
    let next_run := replace_hm next_run (t_hour scheduled_time) (t_minute scheduled_time) in
    Some next_run
  else if String.eqb schedule_type "monthly" then
    if (day now =? 1) && (time_of_day now <? time_us scheduled_time) then
      Some (replace_hm now (t_hour scheduled_time) (t_minute scheduled_time))
    else
      let next_month :=
        if month now =? 12 then replace_ymd now (year now + 1) 1 1
        else replace_ymd now (year now) (month now + 1) 1 in
      Some (replace_hm next_month (t_hour scheduled_time) (t_minute scheduled_time))
  else if String.eqb schedule_type "cron" then
    Some (now + timedelta_hours 1)
  else None.

End WithTimezone.
End ScheduleManager.

(** ** [tasks.py] *)

(** [PlaybookExecution.objects.create(...)]: [execution_id] is declared
    [unique=True], a duplicate raises [IntegrityError]. *)
Definition objects_create (e : PlaybookExecution.t) : M nat :=
  fun w =>
    if existsb (fun r => String.eqb (PlaybookExecution.execution_id r)
                           (PlaybookExecution.execution_id e)) (executions w)
    then (w, Raise (Exception "IntegrityError"))
    else let '(pk, w) := create_execution e w in (w, Ok pk).

(** The field defaults of a new [PlaybookExecution]. *)
Definition new_execution (playbook executor : nat) (execution_id : string)
  (variables : json) (target_hosts : option (list string)) (status : Status)
  : PlaybookExecution.t :=
  {| PlaybookExecution.playbook := playbook;
     PlaybookExecution.executor := executor;
     PlaybookExecution.execution_id := execution_id;
     PlaybookExecution.variables := variables;
     PlaybookExecution.target_hosts := target_hosts;
     PlaybookExecution.status := status;
     PlaybookExecution.started_at := None;
     PlaybookExecution.completed_at := None;
     PlaybookExecution.return_code := None;
     PlaybookExecution.stdout := "";
     PlaybookExecution.stderr := "";
     PlaybookExecution.approved_by := None;
     PlaybookExecution.approved_at := None;
     PlaybookExecution.approval_notes := "" |}.

Module Tasks.
Section WithEnvironment.
Variable py : Python.
Variable settings : AnsibleService.Settings.
Variable utcoffset : Z -> Z.

(** The celery task [execute_ansible_playbook(self, execution_id)]; its
    return value is only reported to the result backend.  [task_id] is
    not a column, so the first [save()] rewrites the row as loaded. *)
Definition execute_ansible_playbook (env : AnsibleService.RunEnv) (execution_id : nat)
  (w : World) : World :=
  match executions w !! execution_id with
  | None => w
  | Some execution =>
    let w := save_execution execution_id execution w in
    let ansible_service := AnsibleService.__init__ settings in
    (AnsibleService.execute_playbook py ansible_service env execution_id w).1
  end.

(** The body of the loop of [process_scheduled_playbooks] for one due
    schedule, with its [try]/[except]. *)
Definition run_due_schedule (now : datetime) (schedule_id : nat)
  (schedule : AutomationSchedule.t) (w : World) : World * bool :=
  let execution :=
    new_execution (AutomationSchedule.playbook schedule) 1
      ("scheduled_" +:+ pretty schedule_id +:+ "_" +:+ Datetime.strftime_Ymd_HMS now)
      (AutomationSchedule.variables schedule) (Some []) Approved in
  match objects_create execution w with
  | (w, Ok execution_pk) =>
    let w := delay execution_pk w in
    let schedule := AutomationSchedule.set_last_run (Some now) schedule in
    let schedule :=
      AutomationSchedule.set_run_count (AutomationSchedule.run_count schedule + 1) schedule in
    let schedule :=
      AutomationSchedule.set_next_run
        (ScheduleManager.calculate_next_run utcoffset (clock w) schedule) schedule in
    let w := save_schedule schedule_id schedule w in
    let w := create_log "info"
               ("Programlı görev çalıştırıldı: " +:+ AutomationSchedule.name schedule)
               (Some execution_pk) w in
    (w, true)
  | (w, Raise e) =>
    let msg := match e with Exception m => m | TimeoutExpired => "TimeoutExpired" end in
    (create_log "error"
       ("Programlı görev hatası " +:+ AutomationSchedule.name schedule +:+ ": " +:+ msg)
       None w, false)
  end.

(** [AutomationSchedule.objects.filter(is_enabled=True, next_run__lte=now)] *)
Definition is_due (now : datetime) (schedule : AutomationSchedule.t) : bool :=
  AutomationSchedule.is_enabled schedule &&
  match AutomationSchedule.next_run schedule with
  | Some next_run => (next_run <=? now)%Z
  | None => false
  end.

Definition due_schedules (now : datetime) (w : World) : list (nat * AutomationSchedule.t) :=
  filter (fun kv => is_due now kv.2 = true) (imap (fun i s => (i, s)) (schedules w)).

(** [process_scheduled_playbooks()]: the new world and [executed_count]. *)
Definition process_scheduled_playbooks (w : World) : World * nat :=
  let now := now w in
  fold_left
    (fun '(w, executed_count) '(schedule_id, schedule) =>
       match run_due_schedule now schedule_id schedule w with
       | (w, true) => (w, S executed_count)
       | (w, false) => (w, executed_count)
       end)
    (due_schedules now w) (w, 0).

End WithEnvironment.
End Tasks.

(** ** [api_views.py] *)

Module ApiViews.

(** A [JsonResponse]: the HTTP status, the [success] flag, the text of
    [message] or [error], and the execution key when one is returned. *)
Record JsonResponse := {
  status_code : nat;
  success : bool;
  message : string;
  execution_pk : option nat
}.

Definition error_response (code : nat) (msg : string) : JsonResponse :=
  {| status_code := code; success := false; message := msg; execution_pk := None |}.

Definition ok_response (msg : string) (pk : option nat) : JsonResponse :=
  {| status_code := 200; success := true; message := msg; execution_pk := pk |}.

(** The decoded body of an execute request: [data.get('variables', {})]
    and [data.get('target_hosts', [])], and the value [uuid.uuid4()]
    will return. *)
Record ExecuteRequest := {
  user : User;
  variables : json;
  target_hosts : option (list string);
  uuid4 : string
}.

Section WithPython.
Variable py : Python.

Definition api_execute_playbook (request : ExecuteRequest) (playbook_id : nat)
  (w : World) : World * JsonResponse :=
  match playbooks w !! playbook_id with
  | None => (w, error_response 500 "Http404")
  | Some playbook =>
    if negb (bool_decide (AnsiblePlaybook.allowed_users playbook = []))
       && negb (bool_decide (user_id (user request) ∈ AnsiblePlaybook.allowed_users playbook))
    then (w, error_response 403 "Bu playbook'u çalıştırma izniniz yok")
    else
      let '(is_valid, message) :=
        PlaybookValidator.validate_variables py (variables request)
          (AnsiblePlaybook.required_variables playbook) in
      if negb is_valid then (w, error_response 400 message)
      else
        let execution :=
          new_execution playbook_id (user_id (user request))
            (String.substring 0 8 (uuid4 request))
            (variables request) (target_hosts request)
            (if AnsiblePlaybook.requires_approval playbook then Pending else Approved) in
        match objects_create execution w with
        | (w, Raise _) => (w, error_response 500 "IntegrityError")
        | (w, Ok execution_pk) =>
          if negb (AnsiblePlaybook.requires_approval playbook)
          then (delay execution_pk w,
                ok_response "Playbook çalıştırılmaya başlandı" (Some execution_pk))
          else (w, ok_response "Playbook çalıştırma talebi onaya gönderildi"
                     (Some execution_pk))
        end
  end.

End WithPython.

Definition api_approve_execution (user : User) (notes : string) (execution_id : nat)
  (w : World) : World * JsonResponse :=
  match executions w !! execution_id with
  | None => (w, error_response 500 "Http404")
  | Some execution =>
    if negb (is_staff user) then (w, error_response 403 "Onaylama izniniz yok")
    else if negb (bool_decide (PlaybookExecution.status execution = Pending))
    then (w, error_response 400 "Bu çalıştırma zaten işleme alınmış")
    else
      let execution := PlaybookExecution.set_status Approved execution in
      let execution := PlaybookExecution.set_approved_by (Some (user_id user)) execution in
      let execution := PlaybookExecution.set_approved_at (Some (now w)) execution in
      let execution := PlaybookExecution.set_approval_notes notes execution in
      let w := save_execution execution_id execution w in
      let w := delay execution_id w in
      (w, ok_response "Çalıştırma onaylandı ve başlatıldı" (Some execution_id))
  end.

Definition api_cancel_execution (user : User) (execution_id : nat) (w : World)
  : World * JsonResponse :=
  match executions w !! execution_id with
  | None => (w, error_response 500 "Http404")
  | Some execution =>
    if negb (bool_decide (PlaybookExecution.executor execution = user_id user))
       && negb (is_staff user)
    then (w, error_response 403 "Bu çalıştırmayı iptal etme izniniz yok")
    else if negb (bool_decide (PlaybookExecution.status execution ∈ [Pending; Approved]))
    then (w, error_response 400 "Bu çalıştırma iptal edilemez")
    else
      let execution := PlaybookExecution.set_status Cancelled execution in
      let execution := PlaybookExecution.set_completed_at (Some (now w)) execution in
      let w := save_execution execution_id execution w in
      (w, ok_response "Çalıştırma iptal edildi" None)
  end.

End ApiViews.

(** ** [views.py]: the form view *)

Module Views.

Inductive HttpResponse :=
  | Http404
  | Http500
  | Render (template : string)
  | Redirect (view : string) (execution_id : nat).

(** A request to [execute_playbook]: [None] for GET; for POST the values
    [request.POST.get('variables', '{}')], a string, and
    [request.POST.getlist('target_hosts', [])]. *)
Record PostData := { variables : string; target_hosts : list string; uuid4 : string }.

Definition execute_playbook (user : User) (post : option PostData) (playbook_id : nat)
  (w : World) : World * HttpResponse :=
  match playbooks w !! playbook_id with
  | None => (w, Http404)
  | Some playbook =>
    match post with
    | Some data =>
      let execution :=
        new_execution playbook_id (user_id user)
          (String.substring 0 8 (uuid4 data))
          (JStr (variables data)) (Some (target_hosts data))
          (if AnsiblePlaybook.requires_approval playbook then Pending else Approved) in
      match objects_create execution w with
      | (w, Raise _) => (w, Http500)
      | (w, Ok execution_pk) => (w, Redirect "otomasyon:execution_detail" execution_pk)
      end
    | None => (w, Render "otomasyon/execute_playbook.html")
    end
  end.

End Views.

(** ** The records of [otomasyon/ansible_models.py] *)

(** [AnsibleJobExecution.status] choices. *)
Inductive JobStatus :=
  | JobPending | JobWaiting | JobRunning | JobSuccessful | JobFailed | JobError
  | JobCanceled.

#[global] Instance JobStatus_eq_dec : EqDecision JobStatus.
Proof. solve_decision. Defined.

Module AnsibleJobTemplate.
Record t := {
  name : string;
  tower_id : Z;
  job_type : string;
  verbosity : Z;
  usage_count : nat;
  last_used : option datetime
}.
Definition set_usage_count (v : nat) (x : t) : t :=
  {| name := name x; tower_id := tower_id x; job_type := job_type x;
     verbosity := verbosity x; usage_count := v; last_used := last_used x |}.
Definition set_last_used (v : option datetime) (x : t) : t :=
  {| name := name x; tower_id := tower_id x; job_type := job_type x;
     verbosity := verbosity x; usage_count := usage_count x; last_used := v |}.
End AnsibleJobTemplate.

Module AnsibleJobExecution.
(** [elapsed] is a float column; it is kept as an integer number of a
    fixed unit, the unit of the numbers in the orchestrator's answers. *)
Record t := {
  job_template : nat;
  executor : nat;
  tower_job_id : option Z;
  execution_id : string;
  survey_answers : gmap string json;
  extra_vars : json;
  limit : string;
  tags : string;
  skip_tags : string;
  job_type : string;
  verbosity : Z;
  status : JobStatus;
  started_at : option datetime;
  finished_at : option datetime;
  elapsed : option Z;
  result_stdout : string;
  result_stderr : string
}.
Definition set_tower_job_id (v : option Z) (x : t) : t :=
  {| job_template := job_template x; executor := executor x; tower_job_id := v;
     execution_id := execution_id x; survey_answers := survey_answers x;
     extra_vars := extra_vars x; limit := limit x; tags := tags x;
     skip_tags := skip_tags x; job_type := job_type x; verbosity := verbosity x;
     status := status x; started_at := started_at x; finished_at := finished_at x;
     elapsed := elapsed x; result_stdout := result_stdout x;
     result_stderr := result_stderr x |}.
Definition set_status (v : JobStatus) (x : t) : t :=
  {| job_template := job_template x; executor := executor x;
     tower_job_id := tower_job_id x; execution_id := execution_id x;
     survey_answers := survey_answers x; extra_vars := extra_vars x; limit := limit x;
     tags := tags x; skip_tags := skip_tags x; job_type := job_type x;
     verbosity := verbosity x; status := v; started_at := started_at x;
     finished_at := finished_at x; elapsed := elapsed x;
     result_stdout := result_stdout x; result_stderr := result_stderr x |}.
Definition set_started_at (v : option datetime) (x : t) : t :=
  {| job_template := job_template x; executor := executor x;
     tower_job_id := tower_job_id x; execution_id := execution_id x;
     survey_answers := survey_answers x; extra_vars := extra_vars x; limit := limit x;
     tags := tags x; skip_tags := skip_tags x; job_type := job_type x;
     verbosity := verbosity x; status := status x; started_at := v;
     finished_at := finished_at x; elapsed := elapsed x;
     result_stdout := result_stdout x; result_stderr := result_stderr x |}.
Definition set_finished_at (v : option datetime) (x : t) : t :=
  {| job_template := job_template x; executor := executor x;
     tower_job_id := tower_job_id x; execution_id := execution_id x;
     survey_answers := survey_answers x; extra_vars := extra_vars x; limit := limit x;
     tags := tags x; skip_tags := skip_tags x; job_type := job_type x;
     verbosity := verbosity x; status := status x; started_at := started_at x;
     finished_at := v; elapsed := elapsed x; result_stdout := result_stdout x;
     result_stderr := result_stderr x |}.
Definition set_elapsed (v : option Z) (x : t) : t :=
  {| job_template := job_template x; executor := executor x;
     tower_job_id := tower_job_id x; execution_id := execution_id x;
     survey_answers := survey_answers x; extra_vars := extra_vars x; limit := limit x;
     tags := tags x; skip_tags := skip_tags x; job_type := job_type x;
     verbosity := verbosity x; status := status x; started_at := started_at x;
     finished_at := finished_at x; elapsed := v; result_stdout := result_stdout x;
     result_stderr := result_stderr x |}.
Definition set_result_stdout (v : string) (x : t) : t :=
  {| job_template := job_template x; executor := executor x;
     tower_job_id := tower_job_id x; execution_id := execution_id x;
     survey_answers := survey_answers x; extra_vars := extra_vars x; limit := limit x;
     tags := tags x; skip_tags := skip_tags x; job_type := job_type x;
     verbosity := verbosity x; status := status x; started_at := started_at x;
     finished_at := finished_at x; elapsed := elapsed x; result_stdout := v;
     result_stderr := result_stderr x |}.
Definition set_result_stderr (v : string) (x : t) : t :=
  {| job_template := job_template x; executor := executor x;
     tower_job_id := tower_job_id x; execution_id := execution_id x;
     survey_answers := survey_answers x; extra_vars := extra_vars x; limit := limit x;
     tags := tags x; skip_tags := skip_tags x; job_type := job_type x;
     verbosity := verbosity x; status := status x; started_at := started_at x;
     finished_at := finished_at x; elapsed := elapsed x;
     result_stdout := result_stdout x; result_stderr := v |}.
End AnsibleJobExecution.

Module AnsibleJobLog.
Record t := { job_execution : nat; level : string; message : string }.
End AnsibleJobLog.

(** One HTTP request sent to the orchestrator. *)
Record HttpRequest := {
  http_method : string;
  http_url : string;
  http_json : option (gmap string json)
}.

(** The tables of the remote side, the requests sent so far (oldest
    first) and the clock. *)
Record TowerWorld := {
  job_templates : list AnsibleJobTemplate.t;
  job_executions : list AnsibleJobExecution.t;
  job_logs : list AnsibleJobLog.t;
  requests : list HttpRequest;
  tower_clock : datetime
}.
Definition set_job_templates (v : list AnsibleJobTemplate.t) (x : TowerWorld) : TowerWorld :=
  {| job_templates := v; job_executions := job_executions x; job_logs := job_logs x;
     requests := requests x; tower_clock := tower_clock x |}.
Definition set_job_executions (v : list AnsibleJobExecution.t) (x : TowerWorld) : TowerWorld :=
  {| job_templates := job_templates x; job_executions := v; job_logs := job_logs x;
     requests := requests x; tower_clock := tower_clock x |}.
Definition set_job_logs (v : list AnsibleJobLog.t) (x : TowerWorld) : TowerWorld :=
  {| job_templates := job_templates x; job_executions := job_executions x;
     job_logs := v; requests := requests x; tower_clock := tower_clock x |}.
Definition set_requests (v : list HttpRequest) (x : TowerWorld) : TowerWorld :=
  {| job_templates := job_templates x; job_executions := job_executions x;
     job_logs := job_logs x; requests := v; tower_clock := tower_clock x |}.
Definition set_tower_clock (v : datetime) (x : TowerWorld) : TowerWorld :=
  {| job_templates := job_templates x; job_executions := job_executions x;
     job_logs := job_logs x; requests := requests x; tower_clock := v |}.

(** ** [services.py]: AnsibleTowerService, the remote adapter *)

Module AnsibleTowerService.

(** What a request to the orchestrator comes back with: no answer
    ([requests.exceptions.ConnectionError] and the like) or a status code
    and a body. *)
Inductive HttpResult (A : Type) :=
  | ConnectionError (msg : string)
  | Response (code : nat) (body : A).
Arguments ConnectionError {A} msg.
Arguments Response {A} code body.

(** The orchestrator at one moment: its answer to each request of a
    poll. *)
Record Tower := {
  get_job : Z -> HttpResult json;
  get_stdout : Z -> HttpResult string;
  get_job_events : Z -> HttpResult json
}.

(** The service object after [__init__], which copies the settings and
    strips the trailing slashes of the URL: the attributes the requests
    depend on. *)
Record t := {
  tower_url : string;
  username : string;
  password : string;
  token : string
}.

(** The keyword arguments [launch_job_template] looks at. *)
Record Kwargs := {
  kw_limit : option string;
  kw_tags : option string;
  kw_skip_tags : option string;
  kw_job_type : option string;
  kw_verbosity : option Z
}.

Section WithService.
Variable py : Python.
Variable self : t.
Variable tower : Tower.

(** [response.raise_for_status()] raises. *)
Definition is_http_error (code : nat) : bool := (400 <=? code) && (code <? 600).

(** [_get_session]: [false] when it raises [ValueError]. *)
Definition _get_session : bool :=
  str_truthy (token self) || (str_truthy (username self) && str_truthy (password self)).

Definition send (method url : string) (payload : option (gmap string json))
  (w : TowerWorld) : TowerWorld :=
  set_requests (requests w ++ [{| http_method := method; http_url := url;
                                  http_json := payload |}]) w.

Definition save_job_execution (pk : nat) (e : AnsibleJobExecution.t) (w : TowerWorld)
  : TowerWorld :=
  set_job_executions (<[pk := e]> (job_executions w)) w.

Definition _log_job_event (job_execution : nat) (level message : string) (w : TowerWorld)
  : TowerWorld :=
  set_job_logs (job_logs w ++ [{| AnsibleJobLog.job_execution := job_execution;
                                  AnsibleJobLog.level := level;
                                  AnsibleJobLog.message := message |}]) w.

(** [launch_job_template], lines 360-386.  The session is made, the
    execution id drawn and the row created with status pending; then
    line 385,
    ['extra_vars': {**survey_answers or {}, **extra_vars or {}}],
    is not Python: in a dict display [**] is followed by an expression
    without boolean operators, and [or] cannot continue it.  The line has
    no value and no request is built from it; the launch is modelled up
    to this line and ends there with [SyntaxError]. *)
Definition launch_job_template (job_template_pk : nat) (user : User)
  (survey_answers : option (gmap string json)) (extra_vars : option json)
  (kwargs : Kwargs) (uuid4 : string) (w : TowerWorld) : TowerWorld * result nat :=
  match job_templates w !! job_template_pk with
  | None => (w, Raise (Exception "DoesNotExist"))
  | Some job_template =>
    if negb _get_session then (w, Raise (Exception "Token veya username/password gerekli"))
    else
      let execution_id := uuid4 in
      if existsb (fun r => String.eqb (AnsibleJobExecution.execution_id r) execution_id)
           (job_executions w)
      then (w, Raise (Exception "IntegrityError"))
      else
        let job_execution :=
          {| AnsibleJobExecution.job_template := job_template_pk;
             AnsibleJobExecution.executor := user_id user;
             AnsibleJobExecution.tower_job_id := None;
             AnsibleJobExecution.execution_id := execution_id;
             AnsibleJobExecution.survey_answers := or_empty survey_answers;
             AnsibleJobExecution.extra_vars :=
               match extra_vars with
               | Some v => if truthy v then v else JObj ∅
               | None => JObj ∅
               end;
             AnsibleJobExecution.limit := default "" (kw_limit kwargs);
             AnsibleJobExecution.tags := default "" (kw_tags kwargs);
             AnsibleJobExecution.skip_tags := default "" (kw_skip_tags kwargs);
             AnsibleJobExecution.job_type :=
               default (AnsibleJobTemplate.job_type job_template) (kw_job_type kwargs);
             AnsibleJobExecution.verbosity :=
               default (AnsibleJobTemplate.verbosity job_template) (kw_verbosity kwargs);
             AnsibleJobExecution.status := JobPending;
             AnsibleJobExecution.started_at := None;
             AnsibleJobExecution.finished_at := None;
             AnsibleJobExecution.elapsed := None;
             AnsibleJobExecution.result_stdout := "";
             AnsibleJobExecution.result_stderr := "" |} in
        let w := set_job_executions (job_executions w ++ [job_execution]) w in
        (w, Raise (Exception "SyntaxError"))
  end.

(** [not job_execution.tower_job_id] *)
Definition has_tower_job_id (job_execution : AnsibleJobExecution.t) : option Z :=
  match AnsibleJobExecution.tower_job_id job_execution with
  | Some n => if (n =? 0)%Z then None else Some n
  | None => None
  end.

Definition job_url (tower_job_id : Z) (suffix : string) : string :=
  tower_url self +:+ "/api/v2/jobs/" +:+ pretty tower_job_id +:+ suffix.

(** [get_job_status]: [Ok None] for the [return None] paths, [Raise] when
    [_get_session] raises, which nothing here catches. *)
Definition get_job_status (job_execution : AnsibleJobExecution.t) (w : TowerWorld)
  : TowerWorld * result (option json) :=
  match has_tower_job_id job_execution with
  | None => (w, Ok None)
  | Some tower_job_id =>
    if negb _get_session then (w, Raise (Exception "Token veya username/password gerekli"))
    else
      let w := send "GET" (job_url tower_job_id "/") None w in
      match get_job tower tower_job_id with
      | ConnectionError _ => (w, Ok None)
      | Response code job_data =>
        if is_http_error code then (w, Ok None) else (w, Ok (Some job_data))
      end
  end.

(** [status_mapping.get(name, 'error')] *)
Definition status_mapping (name : string) : JobStatus :=
  if String.eqb name "pending" then JobPending
  else if String.eqb name "waiting" then JobWaiting
  else if String.eqb name "running" then JobRunning
  else if String.eqb name "successful" then JobSuccessful
  else if String.eqb name "failed" then JobFailed
  else if String.eqb name "error" then JobError
  else if String.eqb name "canceled" then JobCanceled
  else JobError.

(** The text stored for a status. *)
Definition status_name (s : JobStatus) : string :=
  match s with
  | JobPending => "pending"
  | JobWaiting => "waiting"
  | JobRunning => "running"
  | JobSuccessful => "successful"
  | JobFailed => "failed"
  | JobError => "error"
  | JobCanceled => "canceled"
  end.

(** The [stdout] of the events that are errors or failed, lines 534-537;
    [None] when an event is not of the expected shape and the loop
    raises. *)
Fixpoint stderr_lines (events : list json) : option (list string) :=
  match events with
  | [] => Some []
  | JObj event :: rest =>
    let is_error :=
      match event !! "event" with
      | Some (JStr name) => String.eqb name "error"
      | _ => false
      end
      || truthy (default (JBool false) (event !! "failed")) in
    if is_error && truthy (default JNull (event !! "stdout")) then
      match event !! "stdout", stderr_lines rest with
      | Some (JStr s), Some lines => Some (s :: lines)
      | _, _ => None
      end
    else stderr_lines rest
  | _ :: _ => None
  end.

(** The loop over [events_data.get('results', [])]: a list is walked; an
    empty string or dict is walked without a step; anything else raises,
    in the [for] or at the first [event.get]. *)
Definition events_stderr (results : json) : option (list string) :=
  match results with
  | JArr events => stderr_lines events
  | JStr s => if String.eqb s "" then Some [] else None
  | JObj m => if bool_decide (m = ∅) then Some [] else None
  | _ => None
  end.

(** [_fetch_job_output]: the object in memory after the call, and the
    world.  An exception is logged and swallowed; what was assigned
    before it stays in memory and is not saved. *)
Definition _fetch_job_output (pk : nat) (job_execution : AnsibleJobExecution.t)
  (w : TowerWorld) : TowerWorld * AnsibleJobExecution.t :=
  match has_tower_job_id job_execution with
  | None => (w, job_execution)
  | Some tower_job_id =>
    if negb _get_session then (w, job_execution)
    else
      let w := send "GET" (job_url tower_job_id "/stdout/?format=txt") None w in
      match get_stdout tower tower_job_id with
      | ConnectionError _ => (w, job_execution)
      | Response stdout_code text =>
        let job_execution :=
          if stdout_code =? 200
          then AnsibleJobExecution.set_result_stdout text job_execution
          else job_execution in
        let w := send "GET" (job_url tower_job_id "/job_events/") None w in
        match get_job_events tower tower_job_id with
        | ConnectionError _ => (w, job_execution)
        | Response events_code events_data =>
          if events_code =? 200 then
            match events_data with
            | JObj d =>
              match events_stderr (default (JArr []) (d !! "results")) with
              | Some [] => (save_job_execution pk job_execution w, job_execution)
              | Some lines =>
                let job_execution :=
                  AnsibleJobExecution.set_result_stderr (str_join "
" lines) job_execution in
                (save_job_execution pk job_execution w, job_execution)
              | None => (w, job_execution)
              end
            | _ => (w, job_execution)
            end
          else (save_job_execution pk job_execution w, job_execution)
        end
      end
  end.

(** [if job_data.get(key): ... fromisoformat(job_data[key].replace('Z',
    '+00:00'))]: [Some None] when the key is absent or falsy, [None] when
    the conversion raises. *)
Definition job_timestamp (job_data : gmap string json) (key : string)
  : option (option datetime) :=
  match job_data !! key with
  | None => Some None
  | Some v =>
    if truthy v then
      match v with
      | JStr s => match fromisoformat py s with
                  | Some t => Some (Some t)
                  | None => None
                  end
      | _ => None
      end
    else Some None
  end.

(** What [save()] writes to the [FloatField] column [elapsed] for the
    value assigned to it: [float(value)]; [None] when the conversion
    raises. *)
Definition to_float (v : json) : option Z :=
  match v with
  | JNum n => Some n
  | JBool b => Some (if b then 1 else 0)%Z
  | JStr s => float_of_string py s
  | _ => None
  end.

(** Lines 481-494 of [update_job_status]: the three optional fields of
    the answer as [save()] writes them; [None] when one of them makes the
    [try] block raise, the timestamps where they are converted and
    [elapsed] in [save()]. *)
Definition copy_job_fields (job_data : gmap string json)
  (job_execution : AnsibleJobExecution.t) : option AnsibleJobExecution.t :=
  match job_timestamp job_data "started", job_timestamp job_data "finished" with
  | Some started, Some finished =>
    let job_execution :=
      match started with
      | Some t => AnsibleJobExecution.set_started_at (Some t) job_execution
      | None => job_execution
      end in
    let job_execution :=
      match finished with
      | Some t => AnsibleJobExecution.set_finished_at (Some t) job_execution
      | None => job_execution
      end in
    match job_data !! "elapsed" with
    | None => Some job_execution
    | Some v =>
      if truthy v then
        match to_float v with
        | Some n => Some (AnsibleJobExecution.set_elapsed (Some n) job_execution)
        | None => None
        end
      else Some job_execution
    end
  | _, _ => None
  end.

(** [update_job_status(job_execution)] on the object loaded from row
    [pk]: the returned flag. *)
Definition update_job_status (pk : nat) (job_execution : AnsibleJobExecution.t)
  (w : TowerWorld) : TowerWorld * result bool :=
  match get_job_status job_execution w with
  | (w, Raise e) => (w, Raise e)
  | (w, Ok None) => (w, Ok false)
  | (w, Ok (Some job_data)) =>
    if negb (truthy job_data) then (w, Ok false)
    else
      match job_data with
      | JObj d =>
        let old_status := AnsibleJobExecution.status job_execution in
        let new_status :=
          match d !! "status" with
          | Some (JStr name) => Some (status_mapping name)
          | Some (JArr _) | Some (JObj _) => None
          | _ => Some JobError
          end in
        match new_status with
        | None => (w, Ok false)
        | Some new_status =>
          let job_execution := AnsibleJobExecution.set_status new_status job_execution in
          match copy_job_fields d job_execution with
          | None => (w, Ok false)
          | Some job_execution =>
            let w := save_job_execution pk job_execution w in
            let w :=
              if bool_decide (old_status = new_status) then w
              else _log_job_event pk "info"
                     ("Durum değişti: " +:+ status_name old_status +:+ " -> "
                      +:+ status_name new_status) w in
            if bool_decide (new_status ∈ [JobSuccessful; JobFailed; JobError])
               && negb (str_truthy (AnsibleJobExecution.result_stdout job_execution))
            then ((_fetch_job_output pk job_execution w).1, Ok true)
            else (w, Ok true)
          end
        end
      | _ => (w, Ok false)
      end
  end.

(** One poll of the row [pk] as [views.refresh_job_status] does it after
    its permission check: the object is loaded from the database, then
    updated. *)
Definition refresh_job_status (pk : nat) (w : TowerWorld) : TowerWorld * result bool :=
  match job_executions w !! pk with
  | None => (w, Raise (Exception "Http404"))
  | Some job_execution => update_job_status pk job_execution w
  end.

End WithService.
End AnsibleTowerService.

(** ** The operations as one transition system *)

Module System.

(** What can happen to the local side: the two submit views, approval,
    cancellation, the periodic task of celery beat, and a worker taking
    the oldest message of the queue and running it against whatever the
    operating system does then. *)
Inductive Op :=
  | ApiExecute (request : ApiViews.ExecuteRequest) (playbook_id : nat)
  | ViewExecute (user : User) (post : option Views.PostData) (playbook_id : nat)
  | ApiApprove (user : User) (notes : string) (execution_id : nat)
  | ApiCancel (user : User) (execution_id : nat)
  | Beat
  | Worker (env : AnsibleService.RunEnv).

Section WithEnvironment.
Variable py : Python.
Variable settings : AnsibleService.Settings.
Variable utcoffset : Z -> Z.

Definition step (w : World) (op : Op) : World :=
  match op with
  | ApiExecute request playbook_id =>
    (ApiViews.api_execute_playbook py request playbook_id w).1
  | ViewExecute user post playbook_id =>
    (Views.execute_playbook user post playbook_id w).1
  | ApiApprove user notes execution_id =>
    (ApiViews.api_approve_execution user notes execution_id w).1
  | ApiCancel user execution_id =>
    (ApiViews.api_cancel_execution user execution_id w).1
  | Beat => (Tasks.process_scheduled_playbooks utcoffset w).1
  | Worker env =>
    match queue w with
    | [] => w
    | execution_id :: rest =>
      Tasks.execute_ansible_playbook py settings env execution_id (set_queue rest w)
    end
  end.

Definition run (w : World) (ops : list Op) : World := fold_left step ops w.

End WithEnvironment.

(** A database with its definitions and schedules and nothing submitted
    yet. *)
Definition initial (w : World) : Prop :=
  executions w = [] /\ queue w = [] /\ saved w = [].

End System.


(** ** More of [ansible_models.py]: the properties of a job row *)

Module AnsibleJobExecutionProperties.

(** [is_running]: [status in ['pending', 'waiting', 'running']] *)
Definition is_running (x : AnsibleJobExecution.t) : bool :=
  bool_decide (AnsibleJobExecution.status x ∈ [JobPending; JobWaiting; JobRunning]).

(** [is_successful]: [status == 'successful'] *)
Definition is_successful (x : AnsibleJobExecution.t) : bool :=
  bool_decide (AnsibleJobExecution.status x = JobSuccessful).

(** [is_failed]: [status in ['failed', 'error', 'canceled']] *)
Definition is_failed (x : AnsibleJobExecution.t) : bool :=
  bool_decide (AnsibleJobExecution.status x ∈ [JobFailed; JobError; JobCanceled]).

End AnsibleJobExecutionProperties.

(** ** [services.py]: AnsibleTowerService.cancel_job *)

Module AnsibleTowerCancel.
Section WithService.
Variable self : AnsibleTowerService.t.
(** The orchestrator's answer to [POST /api/v2/jobs/<id>/cancel/]. *)
Variable post_cancel : Z -> AnsibleTowerService.HttpResult unit.

(** [cancel_job(job_execution)] on the object loaded from row [pk]: the
    returned flag; [Raise] when [_get_session] raises [ValueError], which
    the handler of [RequestException] does not catch. *)
Definition cancel_job (pk : nat) (job_execution : AnsibleJobExecution.t) (w : TowerWorld)
  : TowerWorld * result bool :=
  match AnsibleTowerService.has_tower_job_id job_execution with
  | None => (w, Ok false)
  | Some tower_job_id =>
    if negb (AnsibleJobExecutionProperties.is_running job_execution) then (w, Ok false)
    else if negb (AnsibleTowerService._get_session self)
    then (w, Raise (Exception "Token veya username/password gerekli"))
    else
      let url := AnsibleTowerService.job_url self tower_job_id "/cancel/" in
      let w := AnsibleTowerService.send "POST" url None w in
      match post_cancel tower_job_id with
      | AnsibleTowerService.ConnectionError _ => (w, Ok false)
      | AnsibleTowerService.Response code _ =>
        if AnsibleTowerService.is_http_error code then (w, Ok false)
        else
          let job_execution := AnsibleJobExecution.set_status JobCanceled job_execution in
          let job_execution :=
            AnsibleJobExecution.set_finished_at (Some (tower_clock w)) job_execution in
          let w := AnsibleTowerService.save_job_execution pk job_execution w in
          let w := AnsibleTowerService._log_job_event pk "warning" "Job iptal edildi" w in
          (w, Ok true)
      end
  end.

End WithService.
End AnsibleTowerCancel.
(** * Specification-side definitions and sample data *)

(** The priority order in the words of the specification: the explicit
    hosts when there are any, else the definition's servers when there
    are any, else [localhost]. *)
Definition spec_inventory (target_hosts : list string) (target_servers : list string)
  : list string :=
  if bool_decide (target_hosts ≠ []) then target_hosts
  else if bool_decide (target_servers ≠ []) then target_servers
  else ["localhost"].

(** The inventory as a file: the group header [targets] and then one
    line for each host, in order. *)
Fixpoint spec_inventory_lines (hosts : list string) : string :=
  match hosts with
  | [] => ""
  | host :: rest => host +:+ "
" +:+ spec_inventory_lines rest
  end.

Definition spec_inventory_file (hosts : list string) : string :=
  "[targets]
" +:+ spec_inventory_lines hosts.


(** *** Sample data *)

(** A stand-in for the Python library: it decodes the text of an empty
    dict only. *)
Definition toy_python : Python :=
  {| json_loads := fun s => if String.eqb s "{}" then Some (JObj ∅) else None;
     json_dumps := fun _ => "{}";
     dict_update_iterable := fun _ _ => None;
     fromisoformat := fun _ => None;
     float_of_string := fun _ => None |}.

(** The settings of the repository: none of the three entries is set. *)
Definition repo_settings : AnsibleService.Settings :=
  {| AnsibleService.ANSIBLE_PATH := None;
     AnsibleService.ANSIBLE_WORKING_DIR := None;
     AnsibleService.ANSIBLE_TIMEOUT := None |}.

Definition alice : User := {| user_id := 7; is_staff := false |}.
Definition mallory : User := {| user_id := 8; is_staff := false |}.
Definition admin : User := {| user_id := 2; is_staff := true |}.

(** A definition that needs approval, has a one minute timeout and
    requires the variable [region]. *)
Definition restart_playbook : AnsiblePlaybook.t :=
  {| AnsiblePlaybook.name := "restart";
     AnsiblePlaybook.playbook_path := "/opt/ansible/playbooks/restart.yml";
     AnsiblePlaybook.requires_approval := true;
     AnsiblePlaybook.timeout_minutes := 1;
     AnsiblePlaybook.target_servers := [];
     AnsiblePlaybook.default_variables := ∅;
     AnsiblePlaybook.required_variables := ["region"];
     AnsiblePlaybook.allowed_users := [];
     AnsiblePlaybook.execution_count := 0;
     AnsiblePlaybook.success_count := 0;
     AnsiblePlaybook.last_execution := None |}.

(** 2024-06-15 10:00:00 UTC *)
Definition sample_now : datetime :=
  Datetime.of_fields 2024 6 15 (10 * Datetime.us_per_hour).

Definition world0 : World :=
  {| playbooks := [restart_playbook];
     executions := [];
     schedules := [];
     logs := [];
     queue := [];
     saved := [];
     spawned := [];
     dirs := ∅;
     files := ∅;
     clock := sample_now |}.

(** An execution of [restart_playbook], approved by [admin], with no
    target hosts. *)
Definition approved_execution : PlaybookExecution.t :=
  PlaybookExecution.set_approved_by (Some 2)
    (new_execution 0 7 "1b9d6bcd" (JObj {[ "region" := JStr "eu" ]}) (Some []) Approved).

Definition world1 : World := set_executions [approved_execution] world0.

(** The process ends after 100 seconds with return code 0. *)
Definition slow_success : AnsibleService.RunEnv :=
  {| AnsibleService.mkdtemp_suffix := Some "k3x9";
     AnsibleService.write_error := None;
     AnsibleService.process := AnsibleService.Exits 100000000 0 "ok" "";
     AnsibleService.rmtree_left := None |}.

(** The process would need an hour. *)
Definition too_slow : AnsibleService.RunEnv :=
  {| AnsibleService.mkdtemp_suffix := Some "k3x9";
     AnsibleService.write_error := None;
     AnsibleService.process := AnsibleService.Exits (3600 * 1000000) 0 "" "";
     AnsibleService.rmtree_left := None |}.

(** The binary is missing. *)
Definition no_binary : AnsibleService.RunEnv :=
  {| AnsibleService.mkdtemp_suffix := Some "k3x9";
     AnsibleService.write_error := None;
     AnsibleService.process := AnsibleService.SpawnError "No such file or directory";
     AnsibleService.rmtree_left := None |}.

(** The statuses the specification calls terminal, among those an
    execution row can hold. *)
Definition is_terminal (s : Status) : bool :=
  match s with
  | Completed | Failed | Cancelled | Timeout => true
  | Pending | Approved | Running => false
  end.

(** The answer that stands for a state conflict: HTTP 400, "this
    execution cannot be cancelled". *)
Definition state_conflict : ApiViews.JsonResponse :=
  ApiViews.error_response 400 "Bu çalıştırma iptal edilemez".

(** [approved_execution] after a successful run. *)
Definition completed_execution : PlaybookExecution.t :=
  PlaybookExecution.set_status Completed
    (PlaybookExecution.set_return_code (Some 0%Z) approved_execution).

Definition world_completed : World := set_executions [completed_execution] world0.

(** A remote adapter with a token, and a job template. *)
Definition tower_service : AnsibleTowerService.t :=
  {| AnsibleTowerService.tower_url := "https://tower.example";
     AnsibleTowerService.username := "";
     AnsibleTowerService.password := "";
     AnsibleTowerService.token := "secret" |}.

Definition deploy_template : AnsibleJobTemplate.t :=
  {| AnsibleJobTemplate.name := "deploy";
     AnsibleJobTemplate.tower_id := 42;
     AnsibleJobTemplate.job_type := "run";
     AnsibleJobTemplate.verbosity := 0;
     AnsibleJobTemplate.usage_count := 0;
     AnsibleJobTemplate.last_used := None |}.

Definition tower_world0 : TowerWorld :=
  {| job_templates := [deploy_template];
     job_executions := [];
     job_logs := [];
     requests := [];
     tower_clock := sample_now |}.

Definition no_kwargs : AnsibleTowerService.Kwargs :=
  {| AnsibleTowerService.kw_limit := None;
     AnsibleTowerService.kw_tags := None;
     AnsibleTowerService.kw_skip_tags := None;
     AnsibleTowerService.kw_job_type := None;
     AnsibleTowerService.kw_verbosity := None |}.

(** An orchestrator that reports every job successful, with the given
    output text. *)
Definition tower_done (output : string) : AnsibleTowerService.Tower :=
  {| AnsibleTowerService.get_job := fun _ =>
       AnsibleTowerService.Response 200
         (JObj {[ "status" := JStr "successful"; "elapsed" := JNum 12 ]});
     AnsibleTowerService.get_stdout := fun _ => AnsibleTowerService.Response 200 output;
     AnsibleTowerService.get_job_events := fun _ =>
       AnsibleTowerService.Response 200 (JObj {[ "results" := JArr [] ]}) |}.

(** Two worlds with the same database and queue: what the steps between
    the start and the end of the external process leave alone. *)
Definition same_database (w w' : World) : Prop :=
  playbooks w' = playbooks w /\ executions w' = executions w /\
  schedules w' = schedules w /\ queue w' = queue w /\ saved w' = saved w.

(** A computation that leaves the database and the queue alone. *)
Definition keeps_database {A} (m : M A) : Prop :=
  forall w, same_database w (m w).1.

(** A step that starts no process, lets no time pass and can only raise
    an ordinary exception. *)
Definition is_setup {A} (m : M A) : Prop :=
  forall w, spawned (m w).1 = spawned w /\ clock (m w).1 = clock w /\
            forall e, (m w).2 = Raise e -> exists msg, e = Exception msg.

(** What [run_process] can come to from [w]: a failure before the
    process is started, or exactly one [subprocess.run] call, bounded by
    the service's own timeout, whose outcome the process decides. *)
Definition process_outcome (self : AnsibleService.t) (env : AnsibleService.RunEnv)
  (w : World) (res : World * result (string * AnsibleService.CompletedProcess)) : Prop :=
  (spawned res.1 = spawned w /\ clock res.1 = clock w /\
   exists msg, res.2 = Raise (Exception msg)) \/
  (exists cmd cwd,
     spawned res.1
     = spawned w ++ [{| sp_cmd := cmd; sp_cwd := cwd;
                        sp_timeout := AnsibleService.timeout self;
                        sp_killed :=
                          match AnsibleService.process env with
                          | AnsibleService.SpawnError _ => false
                          | AnsibleService.Exits duration_us _ _ _ =>
                            (AnsibleService.timeout self * Datetime.us_per_second
                             <? duration_us)%Z
                          end |}] /\
     match AnsibleService.process env with
     | AnsibleService.SpawnError msg =>
       res.2 = Raise (Exception msg) /\ clock res.1 = clock w
     | AnsibleService.Exits duration_us rc out err =>
       if (AnsibleService.timeout self * Datetime.us_per_second <? duration_us)%Z
       then res.2 = Raise TimeoutExpired /\
            clock res.1 = (clock w + AnsibleService.timeout self * Datetime.us_per_second)%Z
       else res.2 = Ok (cwd, {| AnsibleService.returncode := rc;
                                AnsibleService.cp_stdout := out;
                                AnsibleService.cp_stderr := err |}) /\
            clock res.1 = (clock w + duration_us)%Z
     end).

(** *** Cron, in the words of the specification *)

(** One field of a five-field cron expression, for its two simplest
    forms: [*] and a single number. *)
Definition spec_cron_field (field : string) (value : Z) : bool :=
  String.eqb field "*" || String.eqb field (pretty value).

(** Whether an instant matches [minute hour day-of-month month
    day-of-week] (Sunday is 0; when both day fields are restricted,
    either may match, as in cron). *)
Definition spec_cron_matches (expression : string) (t : datetime) : bool :=
  match String.words expression with
  | [mi; h; dom; mon; dow] =>
    let dom_ok := spec_cron_field dom (Datetime.day t) in
    let dow_ok := spec_cron_field dow ((Datetime.weekday t + 1) mod 7)%Z in
    spec_cron_field mi (Datetime.minute t)
    && spec_cron_field h (Datetime.hour t)
    && spec_cron_field mon (Datetime.month t)
    && (if negb (String.eqb dom "*") && negb (String.eqb dow "*")
        then dom_ok || dow_ok else dom_ok && dow_ok)
  | _ => false
  end.

(** A schedule for midnight of every first of January. *)
Definition new_year_schedule : AutomationSchedule.t :=
  {| AutomationSchedule.name := "new year";
     AutomationSchedule.playbook := 0;
     AutomationSchedule.is_enabled := true;
     AutomationSchedule.schedule_type := "cron";
     AutomationSchedule.scheduled_time := Datetime.mk_time 0 0 0 0;
     AutomationSchedule.scheduled_date := None;
     AutomationSchedule.cron_expression := "0 0 1 1 *";
     AutomationSchedule.variables := JObj ∅;
     AutomationSchedule.last_run := None;
     AutomationSchedule.next_run := Some sample_now;
     AutomationSchedule.run_count := 0 |}.

(** Istanbul: three hours ahead of UTC the whole year. *)
Definition istanbul (naive : Z) : Z := (3 * Datetime.us_per_hour)%Z.

(** *** Submissions *)

(** The form of [views.execute_playbook] posted with its default
    [variables], by [alice]. *)
Definition empty_form : Views.PostData :=
  {| Views.variables := "{}"; Views.target_hosts := [];
     Views.uuid4 := "1b9d6bcd-bbfd-4b2d-9b5d-ab8dfbbd4bed" |}.

(** The same submission sent to the API. *)
Definition empty_request : ApiViews.ExecuteRequest :=
  {| ApiViews.user := alice; ApiViews.variables := JObj ∅;
     ApiViews.target_hosts := Some [];
     ApiViews.uuid4 := "1b9d6bcd-bbfd-4b2d-9b5d-ab8dfbbd4bed" |}.

(** *** Polling *)


(** A job row of [alice] for [deploy_template]: waiting, with the
    external job id 501. *)
Definition waiting_job : AnsibleJobExecution.t :=
  {| AnsibleJobExecution.job_template := 0;
     AnsibleJobExecution.executor := 7;
     AnsibleJobExecution.tower_job_id := Some 501%Z;
     AnsibleJobExecution.execution_id := "c0ffee";
     AnsibleJobExecution.survey_answers := ∅;
     AnsibleJobExecution.extra_vars := JObj ∅;
     AnsibleJobExecution.limit := "";
     AnsibleJobExecution.tags := "";
     AnsibleJobExecution.skip_tags := "";
     AnsibleJobExecution.job_type := "run";
     AnsibleJobExecution.verbosity := 0%Z;
     AnsibleJobExecution.status := JobWaiting;
     AnsibleJobExecution.started_at := None;
     AnsibleJobExecution.finished_at := None;
     AnsibleJobExecution.elapsed := None;
     AnsibleJobExecution.result_stdout := "";
     AnsibleJobExecution.result_stderr := "" |}.

(** A remote side on which that job was launched: the template was used
    once, the row is waiting, the launch request and its log line are in
    the history. *)
Definition tower_world1 : TowerWorld :=
  {| job_templates :=
       [AnsibleJobTemplate.set_last_used (Some sample_now)
          (AnsibleJobTemplate.set_usage_count 1 deploy_template)];
     job_executions := [waiting_job];
     job_logs := [{| AnsibleJobLog.job_execution := 0;
                     AnsibleJobLog.level := "info";
                     AnsibleJobLog.message := "Job başlatıldı: Tower Job ID 501" |}];
     requests := [{| http_method := "POST";
                     http_url := "https://tower.example/api/v2/job_templates/42/launch/";
                     http_json := Some {[ "extra_vars" := JObj ∅ ]} |}];
     tower_clock := sample_now |}.


(** *** The approval gate *)

(** Whether definition [playbook_id] requires approval. *)
Definition approval_of (w : World) (playbook_id : nat) : option bool :=
  AnsiblePlaybook.requires_approval <$> playbooks w !! playbook_id.

(** An execution created by [process_scheduled_playbooks]: its
    [execution_id] starts with [scheduled_]. *)
Definition is_scheduled (e : PlaybookExecution.t) : bool :=
  String.prefix "scheduled_" (PlaybookExecution.execution_id e).

(** What the code lets run: an execution whose definition does not
    require approval, or that has an approver, or that the scheduler
    created. *)
Definition may_run (w0 : World) (e : PlaybookExecution.t) : Prop :=
  approval_of w0 (PlaybookExecution.playbook e) = Some false \/
  is_Some (PlaybookExecution.approved_by e) \/
  is_scheduled e = true.

(** The fields [may_run] looks at. *)
Definition same_key (a b : PlaybookExecution.t) : Prop :=
  PlaybookExecution.playbook a = PlaybookExecution.playbook b /\
  PlaybookExecution.approved_by a = PlaybookExecution.approved_by b /\
  PlaybookExecution.execution_id a = PlaybookExecution.execution_id b.

(** The invariant of the transition system started in [w0]: no
    definition changed its approval flag, every queued message is for an
    execution that may run, and every row ever written as running was
    one that may run. *)
Definition cleared (w0 w : World) : Prop :=
  (forall playbook_id, approval_of w playbook_id = approval_of w0 playbook_id) /\
  (forall pk, pk ∈ queue w ->
     exists e, executions w !! pk = Some e /\ may_run w0 e) /\
  (forall pk e, (pk, e) ∈ saved w -> PlaybookExecution.status e = Running -> may_run w0 e).

(** What one operation may do, seen from the invariant. *)
Definition summary (w0 w w' : World) : Prop :=
  (forall playbook_id, approval_of w' playbook_id = approval_of w playbook_id) /\
  (forall pk e, executions w !! pk = Some e -> may_run w0 e ->
     exists e', executions w' !! pk = Some e' /\ may_run w0 e') /\
  (forall pk, pk ∈ queue w' ->
     pk ∈ queue w \/ exists e, executions w' !! pk = Some e /\ may_run w0 e) /\
  (forall pk e, (pk, e) ∈ saved w' ->
     (pk, e) ∈ saved w \/ (PlaybookExecution.status e = Running -> may_run w0 e)).

(** A database with [restart_playbook], which requires approval, and a
    schedule for it that is due. *)
Definition world_scheduled : World := set_schedules [new_year_schedule] world0.

(** A submission of [restart_playbook] by [alice] with the required
    variable. *)
Definition region_request : ApiViews.ExecuteRequest :=
  {| ApiViews.user := alice;
     ApiViews.variables := JObj {[ "region" := JStr "eu" ]};
     ApiViews.target_hosts := Some [];
     ApiViews.uuid4 := "1b9d6bcd-bbfd-4b2d-9b5d-ab8dfbbd4bed" |}.

(** Submit, approve, run. *)
Definition approved_run : list System.Op :=
  [System.ApiExecute region_request 0; System.ApiApprove admin "ok" 0;
   System.Worker slow_success].

(** The row of that submission as it is written when the run starts. *)
Definition approved_running : PlaybookExecution.t :=
  PlaybookExecution.set_started_at (Some sample_now)
    (PlaybookExecution.set_status Running
       (PlaybookExecution.set_approval_notes "ok"
          (PlaybookExecution.set_approved_at (Some sample_now)
             (PlaybookExecution.set_approved_by (Some 2)
                (new_execution 0 7 "1b9d6bcd" (JObj {[ "region" := JStr "eu" ]})
                   (Some []) Pending))))).

(** The scheduler fires, a worker runs what it queued. *)
Definition scheduled_run : list System.Op := [System.Beat; System.Worker slow_success].

(** The row the scheduler created, as it is written when the run
    starts: nobody approved it. *)
Definition scheduled_running : PlaybookExecution.t :=
  PlaybookExecution.set_started_at (Some sample_now)
    (PlaybookExecution.set_status Running
       (new_execution 0 1 "scheduled_0_20240615_100000" (JObj ∅) (Some []) Approved)).

(** *** More sample data *)

(** A definition that needs no approval and only [alice] may run. *)
Definition ping_playbook : AnsiblePlaybook.t :=
  {| AnsiblePlaybook.name := "ping";
     AnsiblePlaybook.playbook_path := "/opt/ansible/playbooks/ping.yml";
     AnsiblePlaybook.requires_approval := false;
     AnsiblePlaybook.timeout_minutes := 0;
     AnsiblePlaybook.target_servers := [{| hostname := "web1" |}];
     AnsiblePlaybook.default_variables := {[ "region" := JStr "eu"; "size" := JNum 1 ]};
     AnsiblePlaybook.required_variables := [];
     AnsiblePlaybook.allowed_users := [7];
     AnsiblePlaybook.execution_count := 0;
     AnsiblePlaybook.success_count := 0;
     AnsiblePlaybook.last_execution := None |}.

(** [world0] with [ping_playbook] as definition 1. *)
Definition world_two : World := set_playbooks [restart_playbook; ping_playbook] world0.

(** [mallory] submits [ping_playbook]. *)
Definition mallory_request : ApiViews.ExecuteRequest :=
  {| ApiViews.user := mallory; ApiViews.variables := JObj ∅;
     ApiViews.target_hosts := Some [];
     ApiViews.uuid4 := "9f8e7d6c-0000-4000-8000-000000000000" |}.

(** [world0] with one pending execution of [restart_playbook], submitted
    by [alice]. *)
Definition pending_execution : PlaybookExecution.t :=
  new_execution 0 7 "1b9d6bcd" (JObj {[ "region" := JStr "eu" ]}) (Some []) Pending.

Definition world_pending : World := set_executions [pending_execution] world0.

(** A computation that only appends to the log, and only lines attached
    to execution [execution_id]. *)
Definition logs_for {A} (execution_id : nat) (m : M A) : Prop :=
  forall w, exists new,
    logs (m w).1 = logs w ++ new /\
    Forall (fun l => AutomationLog.playbook_execution l = Some execution_id) new.

(** A time of day whose fields are in range. *)
Definition valid_time (tm : Datetime.time) : Prop :=
  (0 <= Datetime.t_hour tm < 24 /\ 0 <= Datetime.t_minute tm < 60 /\
   0 <= Datetime.t_second tm < 60 /\ 0 <= Datetime.t_microsecond tm < 1000000)%Z.

(** A schedule for every day at 09:00. *)
Definition daily_schedule : AutomationSchedule.t :=
  {| AutomationSchedule.name := "daily report";
     AutomationSchedule.playbook := 0;
     AutomationSchedule.is_enabled := true;
     AutomationSchedule.schedule_type := "daily";
     AutomationSchedule.scheduled_time := Datetime.mk_time 9 0 0 0;
     AutomationSchedule.scheduled_date := None;
     AutomationSchedule.cron_expression := "";
     AutomationSchedule.variables := JObj ∅;
     AutomationSchedule.last_run := None;
     AutomationSchedule.next_run := Some sample_now;
     AutomationSchedule.run_count := 0 |}.

(** The same at 09:00 of every week and of every month. *)
Definition weekly_schedule : AutomationSchedule.t :=
  {| AutomationSchedule.name := "weekly report";
     AutomationSchedule.playbook := 0;
     AutomationSchedule.is_enabled := true;
     AutomationSchedule.schedule_type := "weekly";
     AutomationSchedule.scheduled_time := Datetime.mk_time 9 0 0 0;
     AutomationSchedule.scheduled_date := None;
     AutomationSchedule.cron_expression := "";
     AutomationSchedule.variables := JObj ∅;
     AutomationSchedule.last_run := None;
     AutomationSchedule.next_run := Some sample_now;
     AutomationSchedule.run_count := 0 |}.

Definition monthly_schedule : AutomationSchedule.t :=
  {| AutomationSchedule.name := "monthly report";
     AutomationSchedule.playbook := 0;
     AutomationSchedule.is_enabled := true;
     AutomationSchedule.schedule_type := "monthly";
     AutomationSchedule.scheduled_time := Datetime.mk_time 9 0 0 0;
     AutomationSchedule.scheduled_date := None;
     AutomationSchedule.cron_expression := "";
     AutomationSchedule.variables := JObj ∅;
     AutomationSchedule.last_run := None;
     AutomationSchedule.next_run := Some sample_now;
     AutomationSchedule.run_count := 0 |}.

(** *** The calendar over one cycle of 400 years *)

(** The ordinal of the first day of the month after the one [d] lies in,
    as the monthly branch of [calculate_next_run] builds it. *)
Definition first_of_next_month (d : Datetime.date) : Z :=
  if (Datetime.d_month d =? 12)%Z
  then Datetime.ymd2ord (Datetime.d_year d + 1) 1 1
  else Datetime.ymd2ord (Datetime.d_year d) (Datetime.d_month d + 1) 1.

(** For the day with ordinal [r + 1]: its month is a month, the first of
    the next month is later, by at most 31 days, and is read back as a
    first of a month. *)
Definition month_check (r : Z) : bool :=
  let d := Datetime.ord2ymd (r + 1) in
  let next := first_of_next_month d in
  ((1 <=? Datetime.d_month d) && (Datetime.d_month d <=? 12)
   && (r + 1 <? next) && (next <=? r + 32)
   && (Datetime.d_day (Datetime.ord2ymd next) =? 1))%Z.

(** [month_check] on the [n] values from [r] on. *)
Fixpoint check_from (n : nat) (r : Z) : bool :=
  match n with
  | O => true
  | S k => month_check r && check_from k (r + 1)
  end.

(** A schedule for the first of every month at 09:00:30. *)
Definition monthly_schedule_with_seconds : AutomationSchedule.t :=
  {| AutomationSchedule.name := "monthly report";
     AutomationSchedule.playbook := 0;
     AutomationSchedule.is_enabled := true;
     AutomationSchedule.schedule_type := "monthly";
     AutomationSchedule.scheduled_time := Datetime.mk_time 9 0 30 0;
     AutomationSchedule.scheduled_date := None;
     AutomationSchedule.cron_expression := "";
     AutomationSchedule.variables := JObj ∅;
     AutomationSchedule.last_run := None;
     AutomationSchedule.next_run := Some sample_now;
     AutomationSchedule.run_count := 0 |}.

(** 2024-06-01 09:00:10 UTC *)
Definition first_of_june : datetime :=
  Datetime.of_fields 2024 6 1 (9 * Datetime.us_per_hour + 10 * Datetime.us_per_second).

(** *** The remote adapter *)

(** The columns of a job row that say which job it is and what it was
    launched with. *)
Definition same_launch (e e' : AnsibleJobExecution.t) : Prop :=
  AnsibleJobExecution.job_template e' = AnsibleJobExecution.job_template e /\
  AnsibleJobExecution.executor e' = AnsibleJobExecution.executor e /\
  AnsibleJobExecution.tower_job_id e' = AnsibleJobExecution.tower_job_id e /\
  AnsibleJobExecution.execution_id e' = AnsibleJobExecution.execution_id e /\
  AnsibleJobExecution.survey_answers e' = AnsibleJobExecution.survey_answers e /\
  AnsibleJobExecution.extra_vars e' = AnsibleJobExecution.extra_vars e /\
  AnsibleJobExecution.limit e' = AnsibleJobExecution.limit e /\
  AnsibleJobExecution.tags e' = AnsibleJobExecution.tags e /\
  AnsibleJobExecution.skip_tags e' = AnsibleJobExecution.skip_tags e /\
  AnsibleJobExecution.job_type e' = AnsibleJobExecution.job_type e /\
  AnsibleJobExecution.verbosity e' = AnsibleJobExecution.verbosity e.

(** An orchestrator that cannot be reached. *)
Definition tower_down : AnsibleTowerService.Tower :=
  {| AnsibleTowerService.get_job := fun _ =>
       AnsibleTowerService.ConnectionError "Connection refused";
     AnsibleTowerService.get_stdout := fun _ =>
       AnsibleTowerService.ConnectionError "Connection refused";
     AnsibleTowerService.get_job_events := fun _ =>
       AnsibleTowerService.ConnectionError "Connection refused" |}.

(** An orchestrator that reports every job as running. *)
Definition tower_busy : AnsibleTowerService.Tower :=
  {| AnsibleTowerService.get_job := fun _ =>
       AnsibleTowerService.Response 200 (JObj {[ "status" := JStr "running" ]});
     AnsibleTowerService.get_stdout := fun _ => AnsibleTowerService.Response 200 "";
     AnsibleTowerService.get_job_events := fun _ =>
       AnsibleTowerService.Response 200 (JObj {[ "results" := JArr [] ]}) |}.

(** The remote side accepts every cancellation. *)
Definition cancel_accepted (tower_job_id : Z) : AnsibleTowerService.HttpResult unit :=
  AnsibleTowerService.Response 202 tt.

(** An instant of the years 1 to 9998, from which a month ahead is still
    in the range of [datetime]. *)
Definition in_years (t : datetime) : Prop :=
  (0 <= t < Datetime.of_fields 9999 1 1 0)%Z.

(** A service configured with a URL only. *)
Definition anonymous_service : AnsibleTowerService.t :=
  {| AnsibleTowerService.tower_url := "https://tower.example";
     AnsibleTowerService.username := "admin";
     AnsibleTowerService.password := "";
     AnsibleTowerService.token := "" |}.
(** * Properties *)

(** ** The inventory of the local runner *)

Lemma inventory_hosts_spec (execution : PlaybookExecution.t) (playbook : AnsiblePlaybook.t) :
  AnsibleService.inventory_hosts execution playbook
  = spec_inventory (default [] (PlaybookExecution.target_hosts execution))
      (map hostname (AnsiblePlaybook.target_servers playbook)).
Proof.
  unfold AnsibleService.inventory_hosts, spec_inventory.
  destruct (PlaybookExecution.target_hosts execution) as [[|h hs]|];
    destruct (AnsiblePlaybook.target_servers playbook) as [|s ss]; reflexivity.
Qed.

Lemma string_app_assoc (a b c : string) : (a +:+ b) +:+ c = a +:+ b +:+ c.
Proof.
  induction a as [|x a IH]; [reflexivity|].
  change (String x ((a +:+ b) +:+ c) = String x (a +:+ b +:+ c)). by rewrite IH.
Qed.

Lemma string_app_empty (a : string) : a +:+ "" = a.
Proof.
  induction a as [|x a IH]; [reflexivity|].
  change (String x (a +:+ "") = String x a). by rewrite IH.
Qed.

(** The loop of lines 125-127 writes the header and then the hosts, one
    to a line. *)
Lemma inventory_content_spec (hosts : list string) :
  AnsibleService.inventory_content hosts = spec_inventory_file hosts.
Proof.
  unfold AnsibleService.inventory_content, spec_inventory_file.
  generalize "[targets]
" as header.
  induction hosts as [|host hosts IH]; intros header; cbn [fold_left spec_inventory_lines].
  - by rewrite string_app_empty.
  - rewrite IH. by rewrite !string_app_assoc.
Qed.

(** C9. The inventory the runner builds is a file [inventory.ini] in the
    temporary directory that holds the header [targets] and then, one to
    a line, the execution's explicit target hosts when that list is
    non-empty, otherwise the hostnames of the definition's target
    servers when there are any, otherwise exactly [localhost]. *)
Theorem inventory_priority_order (env : AnsibleService.RunEnv) (temp_dir : string)
  (execution : PlaybookExecution.t) (playbook : AnsiblePlaybook.t) (w : World) :
  AnsibleService.write_error env = None ->
  let hosts :=
    spec_inventory (default [] (PlaybookExecution.target_hosts execution))
      (map hostname (AnsiblePlaybook.target_servers playbook)) in
  let path := (temp_dir +:+ "/inventory.ini") in
  let res := AnsibleService._create_inventory_file env temp_dir execution playbook w in
  (AnsibleService.inventory_hosts execution playbook = hosts) /\
  (res.2 = Ok path) /\
  (files res.1 !! path = Some (spec_inventory_file hosts)) /\
  (forall other, other <> path -> files res.1 !! other = files w !! other) /\
  (res.1 = set_files (<[path := spec_inventory_file hosts]> (files w)) w).
Proof.
  intros Hw hosts path res. split; [apply inventory_hosts_spec|].
  subst res. unfold AnsibleService._create_inventory_file, bind, AnsibleService.write_file,
    ret, AnsibleService.path_join.
  rewrite Hw, inventory_hosts_spec, inventory_content_spec. cbn [fst snd set_files files].
  fold hosts path. split; [reflexivity|]. split; [apply lookup_insert_eq|].
  split; [|reflexivity]. intros other Hother. by apply lookup_insert_ne.
Qed.

Lemma inventory_priority_order_witness :
  files (AnsibleService._create_inventory_file slow_success "/tmp/ansible_k3x9"
           approved_execution restart_playbook world1).1
    !! "/tmp/ansible_k3x9/inventory.ini"
  = Some "[targets]
localhost
".
Proof.
  apply (inventory_priority_order slow_success "/tmp/ansible_k3x9"
           approved_execution restart_playbook world1). reflexivity.
Defined.

(** ** Cancelling *)

(** C2 as stated fails in its last clause: an update after a terminal
    state is accepted.  A run that was queued by the approval still takes
    the row after the cancellation, from cancelled to completed:
    [execute_playbook] looks at no status. *)
Lemma update_after_cancel_is_accepted :
  ~ (forall (py : Python) (settings : AnsibleService.Settings) (utcoffset : Z -> Z)
       (w : World) (op : System.Op) (pk : nat) (e : PlaybookExecution.t),
       executions w !! pk = Some e ->
       is_terminal (PlaybookExecution.status e) = true ->
       executions (System.step py settings utcoffset w op) !! pk = Some e).
Proof.
  intros H.
  pose (cancelled :=
          System.run toy_python repo_settings istanbul world0
            [System.ApiExecute region_request 0; System.ApiApprove admin "ok" 0;
             System.ApiCancel alice 0]).
  assert (Hrow : exists e, executions cancelled !! 0 = Some e /\
                           PlaybookExecution.status e = Cancelled).
  { vm_compute. eexists. split; reflexivity. }
  destruct Hrow as (e & Hrow & Hstatus).
  specialize (H toy_python repo_settings istanbul cancelled (System.Worker slow_success)
                0 e Hrow).
  rewrite Hstatus in H. specialize (H eq_refl).
  assert (Hafter : PlaybookExecution.status
                     <$> executions (System.step toy_python repo_settings istanbul cancelled
                                       (System.Worker slow_success)) !! 0
                   = Some Completed) by (vm_compute; reflexivity).
  rewrite H in Hafter. simpl in Hafter. congruence.
Qed.

(** C2, amended to the cancel call.  Cancelling an execution whose status
    is terminal (completed, failed, cancelled, timeout) is refused and
    writes nothing: the world, and with it every field of the row, is as
    before.  A caller who is the executor or staff gets the
    state-conflict answer (HTTP 400); anybody else is turned away before
    (HTTP 403). *)
Theorem cancel_after_terminal_is_refused (user : User) (execution_id : nat)
  (execution : PlaybookExecution.t) (w : World) :
  executions w !! execution_id = Some execution ->
  is_terminal (PlaybookExecution.status execution) = true ->
  let '(w', response) := ApiViews.api_cancel_execution user execution_id w in
  w' = w /\
  ApiViews.success response = false /\
  (PlaybookExecution.executor execution = user_id user \/ is_staff user = true ->
   response = state_conflict) /\
  (PlaybookExecution.executor execution ≠ user_id user -> is_staff user = false ->
   ApiViews.status_code response = 403).
Proof.
  intros Hrow Hterm. unfold ApiViews.api_cancel_execution. rewrite Hrow.
  destruct (bool_decide (PlaybookExecution.executor execution = user_id user)) eqn:Hexec;
    destruct (is_staff user) eqn:Hstaff; simpl.
  all: try (apply bool_decide_eq_true in Hexec).
  all: try (apply bool_decide_eq_false in Hexec).
  4: { repeat split; auto; intros; try tauto; destruct H; [contradiction|discriminate]. }
  all: destruct (PlaybookExecution.status execution); try discriminate Hterm; simpl;
    repeat split; auto; intros; congruence.
Qed.

Lemma cancel_after_terminal_is_refused_witness :
  ApiViews.api_cancel_execution alice 0 world_completed = (world_completed, state_conflict).
Proof.
  pose proof (cancel_after_terminal_is_refused alice 0 completed_execution world_completed
                eq_refl eq_refl) as H.
  destruct (ApiViews.api_cancel_execution alice 0 world_completed) as [w' response].
  destruct H as (-> & _ & Hconflict & _).
  rewrite Hconflict; [reflexivity | left; reflexivity].
Defined.

(** ** Launching on the orchestrator *)

Lemma dict_merge_right {V} (a b : gmap string V) (k : string) (v : V) :
  b !! k = Some v -> dict_merge a b !! k = Some v.
Proof. intros H. unfold dict_merge. by apply lookup_union_Some_l. Qed.

Lemma dict_merge_left {V} (a b : gmap string V) (k : string) :
  b !! k = None -> dict_merge a b !! k = a !! k.
Proof. intros H. unfold dict_merge. by apply lookup_union_r. Qed.

(** C8 fails on line 385 of [services.py]: the merge is written
    [{**survey_answers or {}, **extra_vars or {}}], without the
    parentheses a boolean operator needs after [**], and is not Python.
    With the survey answer [region = eu] and the extra variable
    [region = us] the claim has the launch request carry [us]; the launch
    ends at that line without a request, as every launch does, and never
    returns a row. *)
Theorem launch_stops_before_the_request :
  let r := AnsibleTowerService.launch_job_template tower_service 0 alice
             (Some {[ "region" := JStr "eu" ]}) (Some (JObj {[ "region" := JStr "us" ]}))
             no_kwargs "c0ffee" tower_world0 in
  r.2 = Raise (Exception "SyntaxError") /\ requests r.1 = [] /\
  forall (self : AnsibleTowerService.t) (job_template_pk : nat) (user : User)
    (survey_answers : option (gmap string json)) (extra_vars : option json)
    (kwargs : AnsibleTowerService.Kwargs) (uuid4 : string) (w : TowerWorld),
    let r := AnsibleTowerService.launch_job_template self job_template_pk user
               survey_answers extra_vars kwargs uuid4 w in
    requests r.1 = requests w /\ forall pk, r.2 <> Ok pk.
Proof.
  cbv zeta. split; [reflexivity|]. split; [reflexivity|].
  intros self job_template_pk user survey_answers extra_vars kwargs uuid4 w.
  unfold AnsibleTowerService.launch_job_template.
  destruct (job_templates w !! job_template_pk); [|by split].
  destruct (negb _); [by split|]. destruct (existsb _ _); by split.
Qed.

(** ** The local runner *)

Lemma same_database_refl (w : World) : same_database w w.
Proof. repeat split. Qed.

Lemma same_database_trans (w1 w2 w3 : World) :
  same_database w1 w2 -> same_database w2 w3 -> same_database w1 w3.
Proof.
  intros (?&?&?&?&?) (?&?&?&?&?). repeat split; congruence.
Qed.

Lemma keeps_database_ret {A} (a : A) : keeps_database (ret a).
Proof. intros w. apply same_database_refl. Qed.

Lemma keeps_database_raise {A} (e : exn) : keeps_database (@raise A e).
Proof. intros w. apply same_database_refl. Qed.

Lemma keeps_database_bind {A B} (m : M A) (k : A -> M B) :
  keeps_database m -> (forall a, keeps_database (k a)) -> keeps_database (bind m k).
Proof.
  intros Hm Hk w. unfold bind. specialize (Hm w).
  destruct (m w) as [w' [a|e]]; simpl in *; [|exact Hm].
  eapply same_database_trans; [exact Hm | apply Hk].
Qed.

Lemma keeps_database_log_info (msg : string) (execution : option nat) :
  keeps_database (AnsibleService._log_info msg execution).
Proof. intros w. repeat split. Qed.

Lemma keeps_database_temp_directory (env : AnsibleService.RunEnv) :
  keeps_database (AnsibleService._create_temp_directory env).
Proof.
  intros w. unfold AnsibleService._create_temp_directory.
  destruct (AnsibleService.mkdtemp_suffix env); [|apply same_database_refl].
  destruct (bool_decide _); repeat split.
Qed.

Lemma keeps_database_write_file (env : AnsibleService.RunEnv) (path content : string) :
  keeps_database (AnsibleService.write_file env path content).
Proof.
  intros w. unfold AnsibleService.write_file.
  destruct (AnsibleService.write_error env); repeat split.
Qed.

Lemma keeps_database_dict_update (py : Python) (variables : gmap string json) (other : json) :
  keeps_database (AnsibleService.dict_update py variables other).
Proof.
  unfold AnsibleService.dict_update.
  destruct other; try apply keeps_database_ret;
    destruct (dict_update_iterable py variables _);
    first [apply keeps_database_ret | apply keeps_database_raise].
Qed.

Lemma keeps_database_subprocess_run (env : AnsibleService.RunEnv) (cmd : list string)
  (cwd : string) (timeout : Z) :
  keeps_database (AnsibleService.subprocess_run env cmd cwd timeout).
Proof.
  intros w. unfold AnsibleService.subprocess_run.
  destruct (AnsibleService.process env); [repeat split|].
  destruct (_ <? _)%Z; repeat split.
Qed.

Lemma keeps_database_run_process (py : Python) (self : AnsibleService.t)
  (env : AnsibleService.RunEnv) (execution_id : nat) (execution : PlaybookExecution.t)
  (playbook : AnsiblePlaybook.t) :
  keeps_database (AnsibleService.run_process py self env execution_id execution playbook).
Proof.
  unfold AnsibleService.run_process.
  apply keeps_database_bind; [apply keeps_database_temp_directory|intros temp_dir].
  apply keeps_database_bind.
  { unfold AnsibleService._create_inventory_file.
    apply keeps_database_bind; [apply keeps_database_write_file|intros _].
    apply keeps_database_ret. }
  intros inventory_file. apply keeps_database_bind.
  { unfold AnsibleService._create_vars_file.
    apply keeps_database_bind.
    - destruct (truthy _); [|apply keeps_database_ret].
      destruct (PlaybookExecution.variables execution); try apply keeps_database_ret.
      destruct (json_loads py s); [apply keeps_database_dict_update|apply keeps_database_ret].
    - intros variables. apply keeps_database_bind; [apply keeps_database_write_file|intros _].
      apply keeps_database_ret. }
  intros vars_file. apply keeps_database_bind; [apply keeps_database_log_info|intros _].
  apply keeps_database_bind; [apply keeps_database_subprocess_run|intros result].
  apply keeps_database_ret.
Qed.

Lemma is_setup_ret {A} (a : A) : is_setup (ret a).
Proof. intros w. repeat split. intros e H. discriminate H. Qed.

Lemma is_setup_raise {A} (msg : string) : is_setup (@raise A (Exception msg)).
Proof. intros w. repeat split. intros e H. injection H as <-. eauto. Qed.

Lemma is_setup_bind {A B} (m : M A) (k : A -> M B) :
  is_setup m -> (forall a, is_setup (k a)) -> is_setup (bind m k).
Proof.
  intros Hm Hk w. unfold bind. destruct (Hm w) as (Hs & Hc & He).
  destruct (m w) as [w' [a|e]]; simpl in *.
  - destruct (Hk a w') as (Hs' & Hc' & He').
    split; [congruence|]. split; [congruence|exact He'].
  - split; [exact Hs|]. split; [exact Hc|].
    intros e0 H. injection H as <-. apply (He e eq_refl).
Qed.

Lemma is_setup_log_info (msg : string) (execution : option nat) :
  is_setup (AnsibleService._log_info msg execution).
Proof. intros w. repeat split. intros e H. discriminate H. Qed.

Lemma is_setup_temp_directory (env : AnsibleService.RunEnv) :
  is_setup (AnsibleService._create_temp_directory env).
Proof.
  intros w. unfold AnsibleService._create_temp_directory.
  destruct (AnsibleService.mkdtemp_suffix env).
  - destruct (bool_decide _); repeat split; intros e H; try discriminate H.
    injection H as <-. eauto.
  - repeat split. intros e H. injection H as <-. eauto.
Qed.

Lemma is_setup_write_file (env : AnsibleService.RunEnv) (path content : string) :
  is_setup (AnsibleService.write_file env path content).
Proof.
  intros w. unfold AnsibleService.write_file.
  destruct (AnsibleService.write_error env); repeat split; intros e H; try discriminate H.
  injection H as <-. eauto.
Qed.

Lemma is_setup_dict_update (py : Python) (variables : gmap string json) (other : json) :
  is_setup (AnsibleService.dict_update py variables other).
Proof.
  unfold AnsibleService.dict_update.
  destruct other; try apply is_setup_ret;
    destruct (dict_update_iterable py variables _);
    first [apply is_setup_ret | apply is_setup_raise].
Qed.

Lemma is_setup_inventory_file (env : AnsibleService.RunEnv) (temp_dir : string)
  (execution : PlaybookExecution.t) (playbook : AnsiblePlaybook.t) :
  is_setup (AnsibleService._create_inventory_file env temp_dir execution playbook).
Proof.
  unfold AnsibleService._create_inventory_file.
  apply is_setup_bind; [apply is_setup_write_file|intros _; apply is_setup_ret].
Qed.

Lemma is_setup_vars_file (py : Python) (env : AnsibleService.RunEnv) (temp_dir : string)
  (execution : PlaybookExecution.t) (playbook : AnsiblePlaybook.t) :
  is_setup (AnsibleService._create_vars_file py env temp_dir execution playbook).
Proof.
  unfold AnsibleService._create_vars_file. apply is_setup_bind.
  - destruct (truthy _); [|apply is_setup_ret].
    destruct (PlaybookExecution.variables execution); try apply is_setup_ret.
    destruct (json_loads py s); [apply is_setup_dict_update|apply is_setup_ret].
  - intros variables.
    apply is_setup_bind; [apply is_setup_write_file|intros _; apply is_setup_ret].
Qed.

Lemma process_outcome_bind {A} (self : AnsibleService.t) (env : AnsibleService.RunEnv)
  (m : M A) (k : A -> M (string * AnsibleService.CompletedProcess)) :
  is_setup m -> (forall a w, process_outcome self env w (k a w)) ->
  forall w, process_outcome self env w (bind m k w).
Proof.
  intros Hm Hk w. unfold bind. destruct (Hm w) as (Hs & Hc & He).
  destruct (m w) as [w' [a|e]]; simpl in *.
  - specialize (Hk a w'). unfold process_outcome in *. rewrite <- Hs, <- Hc. exact Hk.
  - left. simpl. destruct (He e eq_refl) as [msg ->]. eauto.
Qed.

Lemma run_process_outcome (py : Python) (self : AnsibleService.t)
  (env : AnsibleService.RunEnv) (execution_id : nat) (execution : PlaybookExecution.t)
  (playbook : AnsiblePlaybook.t) (w : World) :
  process_outcome self env w
    (AnsibleService.run_process py self env execution_id execution playbook w).
Proof.
  revert w. unfold AnsibleService.run_process.
  apply process_outcome_bind; [apply is_setup_temp_directory|intros temp_dir].
  apply process_outcome_bind; [apply is_setup_inventory_file|intros inventory_file].
  apply process_outcome_bind; [apply is_setup_vars_file|intros vars_file].
  apply process_outcome_bind; [apply is_setup_log_info|intros _].
  intros w. right. unfold bind, AnsibleService.subprocess_run, ret.
  eexists _, temp_dir.
  destruct (AnsibleService.process env) as [msg|d rc out err]; simpl.
  - repeat split.
  - destruct (_ <? _)%Z; simpl; repeat split.
Qed.

Lemma execute_playbook_unfold (py : Python) (self : AnsibleService.t)
  (env : AnsibleService.RunEnv) (execution_id : nat) (execution : PlaybookExecution.t)
  (playbook : AnsiblePlaybook.t) (w : World) :
  executions w !! execution_id = Some execution ->
  playbooks w !! PlaybookExecution.playbook execution = Some playbook ->
  AnsibleService.execute_playbook py self env execution_id w
  = let started := AnsibleService.start_run execution_id execution playbook w in
    match AnsibleService.run_process py self env execution_id started.2 playbook started.1 with
    | (w2, Ok (temp_dir, result)) =>
      AnsibleService.record_result env execution_id started.2 playbook temp_dir result w2
    | (w2, Raise TimeoutExpired) => AnsibleService.on_timeout execution_id started.2 w2
    | (w2, Raise (Exception e)) => AnsibleService.on_exception execution_id started.2 e w2
    end.
Proof.
  intros Hrow Hplaybook. unfold AnsibleService.execute_playbook.
  rewrite Hrow, Hplaybook. reflexivity.
Qed.

(** C10. When the run ends in the timeout handler or in the exception
    handler, the table of definitions is as before the run, so
    [execution_count], [success_count] and [last_execution] are
    untouched.  They change only when the process returned: then the
    definition's row gets [execution_count + 1] and the time of the
    return, and [success_count + 1] exactly when the return code is 0. *)
Theorem statistics_only_after_process_exit (py : Python) (self : AnsibleService.t)
  (env : AnsibleService.RunEnv) (execution_id : nat) (execution : PlaybookExecution.t)
  (playbook : AnsiblePlaybook.t) (w : World) :
  executions w !! execution_id = Some execution ->
  playbooks w !! PlaybookExecution.playbook execution = Some playbook ->
  let started := AnsibleService.start_run execution_id execution playbook w in
  let final := (AnsibleService.execute_playbook py self env execution_id w).1 in
  match AnsibleService.run_process py self env execution_id started.2 playbook started.1 with
  | (_, Raise TimeoutExpired) => playbooks final = playbooks w
  | (_, Raise (Exception _)) => playbooks final = playbooks w
  | (w2, Ok (_, result)) =>
    let counted :=
      if (AnsibleService.returncode result =? 0)%Z
      then AnsiblePlaybook.set_success_count (AnsiblePlaybook.success_count playbook + 1)
             playbook
      else playbook in
    playbooks final
    = <[PlaybookExecution.playbook execution :=
          AnsiblePlaybook.set_last_execution (Some (clock w2))
            (AnsiblePlaybook.set_execution_count
               (AnsiblePlaybook.execution_count playbook + 1) counted)]> (playbooks w)
  end.
Proof.
  intros Hrow Hplaybook started final. subst final.
  rewrite (execute_playbook_unfold _ _ _ _ _ _ _ Hrow Hplaybook). fold started.
  pose proof (keeps_database_run_process py self env execution_id started.2 playbook
                started.1) as (Hp & _).
  cbv zeta.
  destruct (AnsibleService.run_process py self env execution_id started.2 playbook started.1)
    as [w2 [[temp_dir result]|[|msg]]]; simpl in Hp.
  - unfold AnsibleService.record_result, AnsibleService._cleanup_temp_files, lift.
    destruct (AnsibleService.rmtree_left env) as [kept|].
    all: destruct (AnsibleService.returncode result =? 0)%Z; simpl; rewrite Hp; reflexivity.
  - simpl. congruence.
  - simpl. congruence.
Qed.

(** A run that does not find its row, or whose row points at no
    definition, changes no definition either. *)
Lemma statistics_untouched_without_rows (py : Python) (self : AnsibleService.t)
  (env : AnsibleService.RunEnv) (execution_id : nat) (w : World) :
  (executions w !! execution_id = None \/
   exists execution, executions w !! execution_id = Some execution /\
     playbooks w !! PlaybookExecution.playbook execution = None) ->
  playbooks (AnsibleService.execute_playbook py self env execution_id w).1 = playbooks w.
Proof.
  unfold AnsibleService.execute_playbook.
  intros [Hrow|(execution & Hrow & Hplaybook)]; rewrite Hrow; [reflexivity|].
  rewrite Hplaybook. reflexivity.
Qed.

(** The definition's own timeout reaches the command line only: as the
    argument of [--timeout], in seconds. *)
Lemma definition_timeout_on_the_command_line (self : AnsibleService.t)
  (playbook_path inventory_file vars_file : string) (playbook : AnsiblePlaybook.t) :
  AnsiblePlaybook.timeout_minutes playbook <> 0 ->
  AnsibleService._build_ansible_command self playbook_path inventory_file vars_file playbook
  = [AnsibleService.ansible_path self; playbook_path; "-i"; inventory_file;
     "--extra-vars"; "@" +:+ vars_file; "-v"; "--timeout";
     pretty (AnsiblePlaybook.timeout_minutes playbook * 60)].
Proof.
  intros Hne. unfold AnsibleService._build_ansible_command.
  destruct (AnsiblePlaybook.timeout_minutes playbook); [contradiction|reflexivity].
Qed.

Lemma statistics_only_after_process_exit_witness :
  playbooks (AnsibleService.execute_playbook toy_python
               (AnsibleService.__init__ repo_settings) too_slow 0 world1).1
  = playbooks world1.
Proof.
  exact (statistics_only_after_process_exit toy_python
           (AnsibleService.__init__ repo_settings) too_slow 0 approved_execution
           restart_playbook world1 eq_refl eq_refl).
Defined.




(** C6 fails on the two handlers: after a timeout, and after the process
    could not be started, the temporary directory and the two files
    written into it are still there; only the path on which the process
    returned removes them. *)
Theorem temp_files_left_behind_by_the_handlers :
  let self := AnsibleService.__init__ repo_settings in
  let on_timeout := AnsibleService.execute_playbook toy_python self too_slow 0 world1 in
  let on_error := AnsibleService.execute_playbook toy_python self no_binary 0 world1 in
  let on_exit := AnsibleService.execute_playbook toy_python self slow_success 0 world1 in
  (PlaybookExecution.status <$> executions on_timeout.1 !! 0 = Some Timeout /\
   elements (dirs on_timeout.1) = ["/tmp/ansible_k3x9"] /\
   (map fst (map_to_list (files on_timeout.1)))
   ≡ₚ ["/tmp/ansible_k3x9/inventory.ini"; "/tmp/ansible_k3x9/vars.json"]) /\
  (PlaybookExecution.status <$> executions on_error.1 !! 0 = Some Failed /\
   elements (dirs on_error.1) = ["/tmp/ansible_k3x9"] /\
   (map fst (map_to_list (files on_error.1)))
   ≡ₚ ["/tmp/ansible_k3x9/inventory.ini"; "/tmp/ansible_k3x9/vars.json"]) /\
  (PlaybookExecution.status <$> executions on_exit.1 !! 0 = Some Completed /\
   dirs on_exit.1 = ∅ /\ files on_exit.1 = ∅).
Proof.
  cbv zeta. repeat split; try (vm_compute; reflexivity).
  all: vm_compute; apply perm_swap || reflexivity.
Qed.

(** ** The scheduler *)

(** The matcher accepts the instants the expression names: midnight of
    the first of January 2025 for [0 0 1 1 *], and a Saturday for
    [* * * * 6]. *)
Example spec_cron_matches_examples :
  spec_cron_matches "0 0 1 1 *" (Datetime.of_fields 2025 1 1 0) = true /\
  spec_cron_matches "* * * * 6" sample_now = true /\
  spec_cron_matches "0 11 15 6 *" (sample_now + 3600 * 1000000)%Z = true.
Proof. repeat split; vm_compute; reflexivity. Qed.

(** C7 as stated fails: for the expression [0 0 1 1 *] and a morning in
    June the function answers eleven o'clock of the same day, which does
    not match the expression. *)
Lemma cron_expression_is_not_evaluated :
  ~ (forall (utcoffset : Z -> Z) (now t : datetime) (schedule : AutomationSchedule.t),
       AutomationSchedule.schedule_type schedule = "cron" ->
       ScheduleManager.calculate_next_run utcoffset now schedule = Some t ->
       (now < t)%Z /\
       spec_cron_matches (AutomationSchedule.cron_expression schedule) t = true).
Proof.
  intros H.
  destruct (H istanbul sample_now _ new_year_schedule eq_refl eq_refl) as [_ Hmatch].
  vm_compute in Hmatch. discriminate Hmatch.
Qed.

(** C7, amended.  For every schedule of type cron, [calculate_next_run]
    does not look at the cron expression: it returns the instant one
    hour after now, which is strictly after now. *)
Theorem cron_next_run_is_one_hour_later (utcoffset : Z -> Z) (now : datetime)
  (schedule : AutomationSchedule.t) :
  AutomationSchedule.schedule_type schedule = "cron" ->
  ScheduleManager.calculate_next_run utcoffset now schedule
  = Some (now + 3600 * 1000000)%Z /\
  (now < now + 3600 * 1000000)%Z.
Proof.
  intros Htype. unfold ScheduleManager.calculate_next_run. rewrite Htype.
  split; [reflexivity|lia].
Qed.

Lemma cron_next_run_is_one_hour_later_witness :
  ScheduleManager.calculate_next_run istanbul sample_now new_year_schedule
  = Some (sample_now + 3600 * 1000000)%Z.
Proof.
  apply (cron_next_run_is_one_hour_later istanbul sample_now new_year_schedule).
  reflexivity.
Defined.

(** ** Submitting *)

(** The API refuses a submission the validator rejects, and touches
    nothing. *)
Lemma api_execute_invalid_creates_nothing (py : Python) (request : ApiViews.ExecuteRequest)
  (playbook_id : nat) (playbook : AnsiblePlaybook.t) (w : World) :
  playbooks w !! playbook_id = Some playbook ->
  (PlaybookValidator.validate_variables py (ApiViews.variables request)
     (AnsiblePlaybook.required_variables playbook)).1 = false ->
  let res := ApiViews.api_execute_playbook py request playbook_id w in
  res.1 = w /\ ApiViews.success res.2 = false /\
  (ApiViews.status_code res.2 = 400 \/ ApiViews.status_code res.2 = 403).
Proof.
  intros Hplaybook Hinvalid. unfold ApiViews.api_execute_playbook. rewrite Hplaybook.
  destruct (_ && _); [simpl; auto|].
  destruct (PlaybookValidator.validate_variables _ _ _) as [is_valid message].
  simpl in Hinvalid. subst is_valid. simpl. auto.
Qed.

(** A submission that lacks a required variable is rejected by the
    validator whatever the decoder. *)
Lemma validate_variables_missing (py : Python) (d : gmap string json)
  (required_vars : list string) (var : string) :
  var ∈ required_vars -> d !! var = None ->
  (PlaybookValidator.validate_variables py (JObj d) required_vars).1 = false.
Proof.
  intros Hin Hmissing. unfold PlaybookValidator.validate_variables.
  destruct required_vars as [|r rs]; [by apply elem_of_nil in Hin|].
  destruct (filter _ (r :: rs)) as [|m ms] eqn:Hfilter; [|reflexivity].
  assert (Hm : var ∈ filter (fun var => d !! var = None) (r :: rs)).
  { apply list_elem_of_filter. auto. }
  rewrite Hfilter in Hm. by apply elem_of_nil in Hm.
Qed.

(** C3 fails on the form view.  For a definition that requires [region]
    and a submission without it, the validator says no and the API
    answers 400 and leaves the world alone, but [views.execute_playbook]
    never calls the validator: it creates the execution row. *)
Theorem form_view_creates_execution_without_validation :
  (PlaybookValidator.validate_variables toy_python (JStr "{}") ["region"]).1 = false /\
  ApiViews.api_execute_playbook toy_python empty_request 0 world0
  = (world0, ApiViews.error_response 400 "Eksik zorunlu değişkenler: region") /\
  let res := Views.execute_playbook alice (Some empty_form) 0 world0 in
  res.2 = Views.Redirect "otomasyon:execution_detail" 0 /\
  executions res.1 = [new_execution 0 7 "1b9d6bcd" (JStr "{}") (Some []) Pending].
Proof. repeat split; vm_compute; reflexivity. Qed.

(** ** Polling the orchestrator *)





(** What [save()] writes for [elapsed]: the reported value as a float
    when the answer has a truthy one, the stored value otherwise. *)
Lemma copy_job_fields_elapsed (py : Python) (d : gmap string json)
  (e e' : AnsibleJobExecution.t) :
  AnsibleTowerService.copy_job_fields py d e = Some e' ->
  AnsibleJobExecution.elapsed e'
  = match d !! "elapsed" with
    | Some v => if truthy v then AnsibleTowerService.to_float py v
                else AnsibleJobExecution.elapsed e
    | None => AnsibleJobExecution.elapsed e
    end.
Proof.
  unfold AnsibleTowerService.copy_job_fields.
  destruct (AnsibleTowerService.job_timestamp py d "started") as [started|]; [|discriminate].
  destruct (AnsibleTowerService.job_timestamp py d "finished") as [finished|];
    [|discriminate].
  destruct (d !! "elapsed") as [v|].
  - destruct (truthy v).
    + destruct (AnsibleTowerService.to_float py v) as [n|]; [|discriminate].
      intros [= <-]. reflexivity.
    + intros [= <-]. destruct started, finished; reflexivity.
  - intros [= <-]. destruct started, finished; reflexivity.
Qed.

(** What lines 481-494 leave alone, and what they do to [elapsed]. *)
Lemma copy_job_fields_keeps (py : Python) (d : gmap string json)
  (e e' : AnsibleJobExecution.t) :
  AnsibleTowerService.copy_job_fields py d e = Some e' ->
  AnsibleJobExecution.result_stdout e' = AnsibleJobExecution.result_stdout e /\
  AnsibleJobExecution.result_stderr e' = AnsibleJobExecution.result_stderr e /\
  AnsibleJobExecution.tower_job_id e' = AnsibleJobExecution.tower_job_id e /\
  AnsibleJobExecution.status e' = AnsibleJobExecution.status e /\
  (AnsibleJobExecution.elapsed e' = AnsibleJobExecution.elapsed e \/
   exists v n, d !! "elapsed" = Some v /\ truthy v = true /\
               AnsibleTowerService.to_float py v = Some n /\
               AnsibleJobExecution.elapsed e' = Some n).
Proof.
  intros Hcopy. pose proof (copy_job_fields_elapsed _ _ _ _ Hcopy) as Helapsed.
  revert Hcopy Helapsed. unfold AnsibleTowerService.copy_job_fields.
  destruct (AnsibleTowerService.job_timestamp py d "started") as [started|]; [|discriminate].
  destruct (AnsibleTowerService.job_timestamp py d "finished") as [finished|];
    [|discriminate].
  destruct (d !! "elapsed") as [v|] eqn:Hv.
  - destruct (truthy v) eqn:Ht.
    + destruct (AnsibleTowerService.to_float py v) as [n|] eqn:Hn; [|discriminate].
      intros [= <-] Hel.
      destruct started, finished; simpl; repeat split; right; exists v, n; auto.
    + intros [= <-] _. destruct started, finished; simpl; repeat split; auto.
  - intros [= <-] _. destruct started, finished; simpl; repeat split; auto.
Qed.










(** ** The approval gate *)

Lemma may_run_same_key (w0 : World) (a b : PlaybookExecution.t) :
  same_key a b -> may_run w0 b -> may_run w0 a.
Proof.
  intros (Hp & Ha & Hi). unfold may_run, is_scheduled. rewrite Hp, Ha, Hi. auto.
Qed.

Lemma cleared_from_summary (w0 w w' : World) :
  cleared w0 w -> summary w0 w w' -> cleared w0 w'.
Proof.
  intros (Ha & Hq & Hs) (Ha' & Hrows & Hq' & Hs'). split; [|split].
  - intros pid. rewrite Ha'. apply Ha.
  - intros pk Hin. destruct (Hq' pk Hin) as [Hold|Hnew]; [|exact Hnew].
    destruct (Hq pk Hold) as (e & He & Hrun). eauto.
  - intros pk e Hin Hrunning. destruct (Hs' pk e Hin) as [Hold|Hnew]; eauto.
Qed.

Lemma summary_refl (w0 w : World) : summary w0 w w.
Proof. repeat split; eauto. Qed.

Lemma approval_of_insert (w : World) (pk : nat) (p p' : AnsiblePlaybook.t) (q : nat) :
  playbooks w !! pk = Some p ->
  AnsiblePlaybook.requires_approval p' = AnsiblePlaybook.requires_approval p ->
  AnsiblePlaybook.requires_approval <$> <[pk := p']> (playbooks w) !! q = approval_of w q.
Proof.
  intros Hp Hsame. unfold approval_of. destruct (decide (pk = q)) as [<-|Hne].
  - rewrite list_lookup_insert_eq by (eapply lookup_lt_Some; eauto).
    rewrite Hp. simpl. by rewrite Hsame.
  - by rewrite list_lookup_insert_ne.
Qed.

(** What a run does to the database: the row is rewritten with the same
    key, the rows written to the history have that key, the queue and the
    approval flags stay. *)
Lemma execute_playbook_effect (py : Python) (self : AnsibleService.t)
  (env : AnsibleService.RunEnv) (execution_id : nat) (execution : PlaybookExecution.t)
  (w : World) :
  executions w !! execution_id = Some execution ->
  let w' := (AnsibleService.execute_playbook py self env execution_id w).1 in
  (forall playbook_id, approval_of w' playbook_id = approval_of w playbook_id) /\
  queue w' = queue w /\
  (exists e', executions w' = <[execution_id := e']> (executions w) /\
              same_key e' execution) /\
  (forall pk e, (pk, e) ∈ saved w' -> (pk, e) ∈ saved w \/ same_key e execution).
Proof.
  intros Hrow w'. subst w'. unfold AnsibleService.execute_playbook. rewrite Hrow.
  destruct (playbooks w !! PlaybookExecution.playbook execution) as [playbook|] eqn:Hp.
  2: { simpl. repeat split; auto.
       - eexists. split; [reflexivity|]. repeat split.
       - intros pk e [[= -> ->]|Hin]%elem_of_cons; [right; repeat split|left; exact Hin]. }
  set (started := AnsibleService.start_run execution_id execution playbook w).
  assert (Hkey : same_key started.2 execution) by (repeat split).
  assert (Hrows1 : executions started.1 = <[execution_id := started.2]> (executions w))
    by reflexivity.
  assert (Hsaved1 : saved started.1 = (execution_id, started.2) :: saved w) by reflexivity.
  assert (Hq1 : queue started.1 = queue w) by reflexivity.
  assert (Hp1 : playbooks started.1 = playbooks w) by reflexivity.
  pose proof (keeps_database_run_process py self env execution_id started.2 playbook
                started.1) as (Hp2 & Hrows2 & _ & Hq2 & Hsaved2).
  destruct started as [w1 running]. cbn [fst snd] in *.
  destruct (AnsibleService.run_process py self env execution_id running playbook w1)
    as [w2 r]. cbn [fst snd] in *.
  assert (Hend : forall e_final w3,
    executions w3 = <[execution_id := e_final]> (executions w2) ->
    saved w3 = (execution_id, e_final) :: saved w2 ->
    queue w3 = queue w2 ->
    same_key e_final running ->
    (forall q, approval_of w3 q = approval_of w q) ->
    (forall playbook_id, approval_of w3 playbook_id = approval_of w playbook_id) /\
    queue w3 = queue w /\
    (exists e', executions w3 = <[execution_id := e']> (executions w) /\
                same_key e' execution) /\
    (forall pk e, (pk, e) ∈ saved w3 -> (pk, e) ∈ saved w \/ same_key e execution)).
  { intros e_final w3 He Hs Hq Hk Ha.
    assert (Hk' : same_key e_final execution).
    { destruct Hk as (?&?&?), Hkey as (?&?&?). repeat split; congruence. }
    split; [exact Ha|]. split; [congruence|]. split.
    - exists e_final. split; [|exact Hk'].
      rewrite He, Hrows2, Hrows1. apply list_insert_insert_eq.
    - intros pk e. rewrite Hs, Hsaved2, Hsaved1.
      intros [[= -> ->]|[[= -> ->]|Hin]%elem_of_cons]%elem_of_cons; auto. }
  destruct r as [[temp_dir result]|[|msg]].
  - unfold AnsibleService.record_result, AnsibleService._cleanup_temp_files, lift.
    destruct (AnsibleService.rmtree_left env) as [kept|].
    all: destruct (AnsibleService.returncode result =? 0)%Z; cbn [fst snd].
    all: eapply Hend; [reflexivity | reflexivity | reflexivity | repeat split |].
    all: intros q; unfold approval_of at 1; simpl; rewrite Hp2, Hp1.
    all: rewrite (proj1 Hkey); eapply approval_of_insert; [exact Hp|reflexivity].
  - simpl. eapply Hend; [reflexivity|reflexivity|reflexivity|repeat split|].
    intros q. unfold approval_of. simpl. by rewrite Hp2, Hp1.
  - simpl. eapply Hend; [reflexivity|reflexivity|reflexivity|repeat split|].
    intros q. unfold approval_of. simpl. by rewrite Hp2, Hp1.
Qed.

Lemma objects_create_effect (e : PlaybookExecution.t) (w : World) :
  match objects_create e w with
  | (w', Ok pk) =>
    pk = length (executions w) /\ executions w' = executions w ++ [e] /\
    saved w' = (pk, e) :: saved w /\ queue w' = queue w /\
    playbooks w' = playbooks w
  | (w', Raise _) => w' = w
  end.
Proof.
  unfold objects_create. destruct (existsb _ _); [reflexivity|]. simpl. auto.
Qed.

(** A new row, not running, perhaps put on the queue. *)
Lemma summary_create (w0 w w' : World) (e : PlaybookExecution.t) (enqueue : bool) :
  executions w' = executions w ++ [e] ->
  saved w' = (length (executions w), e) :: saved w ->
  queue w' = (if enqueue then queue w ++ [length (executions w)] else queue w) ->
  playbooks w' = playbooks w ->
  PlaybookExecution.status e <> Running ->
  (enqueue = true -> may_run w0 e) ->
  summary w0 w w'.
Proof.
  intros Hrows Hsaved Hqueue Hp Hstatus Hrun. split; [|split; [|split]].
  - intros q. unfold approval_of. by rewrite Hp.
  - intros pk e0 Hpk Hok. exists e0. split; [|exact Hok].
    rewrite Hrows. by apply lookup_app_l_Some.
  - intros pk. rewrite Hqueue. destruct enqueue; [|auto].
    intros [Hin|Hin%list_elem_of_singleton]%elem_of_app; [auto|]. subst pk.
    right. exists e. split; [|auto]. rewrite Hrows. apply list_lookup_middle. reflexivity.
  - intros pk e0. rewrite Hsaved.
    intros [[= -> ->]|Hin]%elem_of_cons; [right; intros; contradiction|auto].
Qed.

(** A row rewritten, not as running, perhaps put on the queue. *)
Lemma summary_update (w0 w w' : World) (pk : nat) (e e' : PlaybookExecution.t)
  (enqueue : bool) :
  executions w !! pk = Some e ->
  executions w' = <[pk := e']> (executions w) ->
  saved w' = (pk, e') :: saved w ->
  queue w' = (if enqueue then queue w ++ [pk] else queue w) ->
  playbooks w' = playbooks w ->
  PlaybookExecution.status e' <> Running ->
  (may_run w0 e -> may_run w0 e') ->
  (enqueue = true -> may_run w0 e') ->
  summary w0 w w'.
Proof.
  intros Hrow Hrows Hsaved Hqueue Hp Hstatus Hkeep Hrun.
  assert (Hlt : pk < length (executions w)) by (eapply lookup_lt_Some; eauto).
  split; [|split; [|split]].
  - intros q. unfold approval_of. by rewrite Hp.
  - intros j e0 Hj Hok. rewrite Hrows. destruct (decide (pk = j)) as [<-|Hne].
    + exists e'. rewrite list_lookup_insert_eq by exact Hlt. split; [reflexivity|].
      apply Hkeep. congruence.
    + exists e0. by rewrite list_lookup_insert_ne.
  - intros j. rewrite Hqueue. destruct enqueue; [|auto].
    intros [Hin|Hin%list_elem_of_singleton]%elem_of_app; [auto|]. subst j.
    right. exists e'. rewrite Hrows, list_lookup_insert_eq by exact Hlt. auto.
  - intros j e0. rewrite Hsaved.
    intros [[= -> ->]|Hin]%elem_of_cons; [right; intros; contradiction|auto].
Qed.

Lemma summary_api_execute (py : Python) (request : ApiViews.ExecuteRequest)
  (playbook_id : nat) (w0 w : World) :
  cleared w0 w ->
  summary w0 w (ApiViews.api_execute_playbook py request playbook_id w).1.
Proof.
  intros (Ha & _ & _). unfold ApiViews.api_execute_playbook.
  destruct (playbooks w !! playbook_id) as [playbook|] eqn:Hp; [|apply summary_refl].
  destruct (_ && _); [apply summary_refl|].
  destruct (PlaybookValidator.validate_variables _ _ _) as [is_valid message].
  destruct is_valid; [|apply summary_refl]. cbn [negb].
  set (e := new_execution _ _ _ _ _ _).
  pose proof (objects_create_effect e w) as Hcreate.
  destruct (objects_create e w) as [w' [pk|err]]; cbn iota in Hcreate;
    [|subst w'; apply summary_refl].
  destruct Hcreate as (-> & Hrows & Hsaved & Hqueue & Hpb).
  destruct (AnsiblePlaybook.requires_approval playbook) eqn:Happroval; cbn [negb fst].
  - apply (summary_create w0 w w' e false);
      [exact Hrows|exact Hsaved|exact Hqueue|exact Hpb| |discriminate].
    subst e; simpl. discriminate.
  - apply (summary_create w0 w _ e true); [exact Hrows|exact Hsaved| | exact Hpb | |].
    + simpl. by rewrite Hqueue.
    + subst e; simpl. discriminate.
    + intros _. left. rewrite <- Ha. unfold approval_of. subst e. simpl.
      rewrite Hp. simpl. by rewrite Happroval.
Qed.

Lemma summary_view_execute (user : User) (post : option Views.PostData)
  (playbook_id : nat) (w0 w : World) :
  summary w0 w (Views.execute_playbook user post playbook_id w).1.
Proof.
  unfold Views.execute_playbook.
  destruct (playbooks w !! playbook_id) as [playbook|]; [|apply summary_refl].
  destruct post as [data|]; [|apply summary_refl].
  set (e := new_execution _ _ _ _ _ _).
  pose proof (objects_create_effect e w) as Hcreate.
  destruct (objects_create e w) as [w' [pk|err]]; cbn iota in Hcreate;
    [|subst w'; apply summary_refl].
  destruct Hcreate as (-> & Hrows & Hsaved & Hqueue & Hpb).
  apply (summary_create w0 w w' e false);
    [exact Hrows|exact Hsaved|exact Hqueue|exact Hpb| |discriminate].
  subst e; simpl. destruct (AnsiblePlaybook.requires_approval playbook); discriminate.
Qed.

Lemma summary_api_approve (user : User) (notes : string) (execution_id : nat)
  (w0 w : World) :
  summary w0 w (ApiViews.api_approve_execution user notes execution_id w).1.
Proof.
  unfold ApiViews.api_approve_execution.
  destruct (executions w !! execution_id) as [e|] eqn:Hrow; [|apply summary_refl].
  destruct (is_staff user); [|apply summary_refl].
  destruct (bool_decide _); [|apply summary_refl]. cbn [negb fst].
  eapply (summary_update w0 w _ execution_id e _ true); try reflexivity; try exact Hrow.
  - simpl. discriminate.
  - intros _. right. left. simpl. eauto.
  - intros _. right. left. simpl. eauto.
Qed.

Lemma summary_api_cancel (user : User) (execution_id : nat) (w0 w : World) :
  summary w0 w (ApiViews.api_cancel_execution user execution_id w).1.
Proof.
  unfold ApiViews.api_cancel_execution.
  destruct (executions w !! execution_id) as [e|] eqn:Hrow; [|apply summary_refl].
  destruct (_ && _); [apply summary_refl|].
  destruct (negb _); [apply summary_refl|]. cbn [fst].
  eapply (summary_update w0 w _ execution_id e _ false); try reflexivity; try exact Hrow.
  - simpl. discriminate.
  - apply may_run_same_key. repeat split.
  - discriminate.
Qed.

Lemma summary_worker (py : Python) (settings : AnsibleService.Settings)
  (env : AnsibleService.RunEnv) (w0 w : World) :
  cleared w0 w ->
  summary w0 w
    match queue w with
    | [] => w
    | execution_id :: rest =>
      Tasks.execute_ansible_playbook py settings env execution_id (set_queue rest w)
    end.
Proof.
  intros (Ha & Hq & Hs).
  destruct (queue w) as [|execution_id rest] eqn:Hqueue; [apply summary_refl|].
  destruct (Hq execution_id) as (execution & Hrow & Hrun);
    [rewrite ?Hqueue; apply list_elem_of_here|].
  assert (Hlt : execution_id < length (executions w)) by (eapply lookup_lt_Some; eauto).
  unfold Tasks.execute_ansible_playbook. cbn [executions set_queue]. rewrite Hrow.
  set (w1 := save_execution execution_id execution (set_queue rest w)).
  assert (Hrow1 : executions w1 !! execution_id = Some execution).
  { subst w1. simpl. by apply list_lookup_insert_eq. }
  destruct (execute_playbook_effect py (AnsibleService.__init__ settings) env execution_id
              execution w1 Hrow1) as (Ha2 & Hq2 & (e' & Hrows2 & Hkey2) & Hs2).
  set (w2 := (AnsibleService.execute_playbook py (AnsibleService.__init__ settings) env
                execution_id w1).1) in *. clearbody w2.
  assert (Hrows : executions w2 = <[execution_id := e']> (executions w)).
  { rewrite Hrows2. subst w1. simpl. apply list_insert_insert_eq. }
  split; [|split; [|split]].
  - intros q. rewrite Ha2. reflexivity.
  - intros pk e Hpk Hok. rewrite Hrows. destruct (decide (execution_id = pk)) as [<-|Hne].
    + exists e'. rewrite list_lookup_insert_eq by exact Hlt. split; [reflexivity|].
      eapply may_run_same_key; eauto.
    + exists e. by rewrite list_lookup_insert_ne.
  - intros pk. rewrite Hq2. subst w1. simpl. rewrite ?Hqueue. intros Hin. left.
    by apply list_elem_of_further.
  - intros pk e Hin. destruct (Hs2 pk e Hin) as [Hold|Hkey].
    + subst w1. simpl in Hold. apply elem_of_cons in Hold as [[= -> ->]|Hold]; auto.
    + right. intros _. eapply may_run_same_key; eauto.
Qed.

Lemma scheduled_id_is_scheduled (schedule_id : nat) (stamp : string) (playbook : nat)
  (variables : json) :
  is_scheduled (new_execution playbook 1
                  ("scheduled_" +:+ pretty schedule_id +:+ "_" +:+ stamp)
                  variables (Some []) Approved) = true.
Proof.
  unfold is_scheduled. apply String.prefix_correct. simpl.
  destruct (pretty schedule_id +:+ "_" +:+ stamp); reflexivity.
Qed.

Lemma summary_run_due_schedule (utcoffset : Z -> Z) (now : datetime) (schedule_id : nat)
  (schedule : AutomationSchedule.t) (w0 w : World) :
  summary w0 w (Tasks.run_due_schedule utcoffset now schedule_id schedule w).1.
Proof.
  unfold Tasks.run_due_schedule.
  set (e := new_execution _ _ _ _ _ _).
  pose proof (objects_create_effect e w) as Hcreate.
  destruct (objects_create e w) as [w' [pk|err]]; cbn iota in Hcreate.
  - destruct Hcreate as (-> & Hrows & Hsaved & Hqueue & Hpb). cbn [fst].
    apply (summary_create w0 w _ e true); simpl;
      [exact Hrows|exact Hsaved|by rewrite Hqueue|exact Hpb|discriminate|].
    intros _. right. right. apply scheduled_id_is_scheduled.
  - subst w'. cbn [fst]. repeat split; eauto.
Qed.

Lemma cleared_beat (utcoffset : Z -> Z) (w0 w : World) :
  cleared w0 w -> cleared w0 (Tasks.process_scheduled_playbooks utcoffset w).1.
Proof.
  unfold Tasks.process_scheduled_playbooks.
  generalize (Tasks.due_schedules (now w) w) as due. generalize (now w) as t.
  generalize 0 as executed_count. intros n t due. revert w n.
  induction due as [|[schedule_id schedule] due IH]; intros w n Hw; [exact Hw|].
  cbn [fold_left].
  pose proof (summary_run_due_schedule utcoffset t schedule_id schedule w0 w) as Hsum.
  destruct (Tasks.run_due_schedule utcoffset t schedule_id schedule w) as [w' [|]];
    apply IH; eapply cleared_from_summary; eauto.
Qed.

Lemma cleared_step (py : Python) (settings : AnsibleService.Settings)
  (utcoffset : Z -> Z) (w0 w : World) (op : System.Op) :
  cleared w0 w -> cleared w0 (System.step py settings utcoffset w op).
Proof.
  intros Hw. destruct op; cbn [System.step].
  - eapply cleared_from_summary; [exact Hw|by apply summary_api_execute].
  - eapply cleared_from_summary; [exact Hw|apply summary_view_execute].
  - eapply cleared_from_summary; [exact Hw|apply summary_api_approve].
  - eapply cleared_from_summary; [exact Hw|apply summary_api_cancel].
  - by apply cleared_beat.
  - eapply cleared_from_summary; [exact Hw|by apply summary_worker].
Qed.

Lemma cleared_run (py : Python) (settings : AnsibleService.Settings)
  (utcoffset : Z -> Z) (w0 w : World) (ops : list System.Op) :
  cleared w0 w -> cleared w0 (System.run py settings utcoffset w ops).
Proof.
  revert w. induction ops as [|op ops IH]; intros w Hw; [exact Hw|].
  apply IH. by apply cleared_step.
Qed.

Lemma cleared_initial (w0 : World) : System.initial w0 -> cleared w0 w0.
Proof.
  intros (_ & Hq & Hs). split; [reflexivity|]. split.
  - intros pk. rewrite Hq. intros Hin. by apply elem_of_nil in Hin.
  - intros pk e. rewrite Hs. intros Hin. by apply elem_of_nil in Hin.
Qed.

(** The identifiers the two submit views hand out have at most eight
    characters, so a submitted execution is never taken for a scheduled
    one. *)
Lemma substring_length_le (n : nat) (s : string) :
  String.length (String.substring 0 n s) <= n.
Proof.
  revert s. induction n as [|n IH]; intros [|c s]; simpl; try lia.
  specialize (IH s). lia.
Qed.

Lemma prefix_length_le (p s : string) :
  String.prefix p s = true -> String.length p <= String.length s.
Proof.
  revert s. induction p as [|c p IH]; intros s H; [simpl; lia|].
  destruct s as [|c' s]; simpl in H; [discriminate|].
  destruct (Ascii.ascii_dec c c'); [|discriminate]. apply IH in H. simpl. lia.
Qed.

Lemma submitted_id_is_not_scheduled (uuid4 : string) (playbook executor : nat)
  (variables : json) (target_hosts : option (list string)) (status : Status) :
  is_scheduled (new_execution playbook executor (String.substring 0 8 uuid4)
                  variables target_hosts status) = false.
Proof.
  unfold is_scheduled. simpl PlaybookExecution.execution_id.
  destruct (String.prefix _ _) eqn:H; [|reflexivity].
  apply prefix_length_le in H. pose proof (substring_length_le 8 uuid4). simpl in H. lia.
Qed.

(** C1 as stated fails: the scheduler creates its executions already
    approved, whatever the definition says, and the worker runs them.
    [restart_playbook] requires approval, nobody approved, and the row is
    written as running. *)
Lemma scheduled_run_needs_no_approval :
  ~ (forall (py : Python) (settings : AnsibleService.Settings) (utcoffset : Z -> Z)
       (w0 : World) (ops : list System.Op) (pk : nat) (e : PlaybookExecution.t),
       System.initial w0 ->
       (pk, e) ∈ saved (System.run py settings utcoffset w0 ops) ->
       PlaybookExecution.status e = Running ->
       approval_of w0 (PlaybookExecution.playbook e) = Some false \/
       is_Some (PlaybookExecution.approved_by e)).
Proof.
  intros H.
  destruct (H toy_python repo_settings istanbul world_scheduled scheduled_run 0
              scheduled_running) as [Hflag|[approver Happrover]].
  - repeat split.
  - vm_compute. apply list_elem_of_further, list_elem_of_here.
  - reflexivity.
  - vm_compute in Hflag. discriminate Hflag.
  - discriminate Happrover.
Qed.

(** [execute_playbook] has no guard: called for any existing row of an
    existing definition, whatever the row's status and approval, it
    writes the row as running and returns it. *)
Lemma execute_playbook_sets_running (py : Python) (self : AnsibleService.t)
  (env : AnsibleService.RunEnv) (execution_id : nat) (execution : PlaybookExecution.t)
  (playbook : AnsiblePlaybook.t) (w : World) :
  executions w !! execution_id = Some execution ->
  playbooks w !! PlaybookExecution.playbook execution = Some playbook ->
  let res := AnsibleService.execute_playbook py self env execution_id w in
  (execution_id,
   PlaybookExecution.set_started_at (Some (clock w))
     (PlaybookExecution.set_status Running execution)) ∈ saved res.1 /\
  exists ex, res.2 = Ok ex.
Proof.
  intros Hrow Hplaybook res. subst res.
  rewrite (execute_playbook_unfold _ _ _ _ _ _ _ Hrow Hplaybook). cbv zeta.
  set (started := AnsibleService.start_run execution_id execution playbook w).
  assert (Hsaved1 : saved started.1
                    = (execution_id,
                       PlaybookExecution.set_started_at (Some (clock w))
                         (PlaybookExecution.set_status Running execution)) :: saved w)
    by reflexivity.
  pose proof (keeps_database_run_process py self env execution_id started.2 playbook
                started.1) as (_ & _ & _ & _ & Hsaved2).
  destruct (AnsibleService.run_process py self env execution_id started.2 playbook started.1)
    as [w2 [[temp_dir result]|[|msg]]]; cbn [fst snd] in Hsaved2.
  - unfold AnsibleService.record_result, AnsibleService._cleanup_temp_files, lift.
    destruct (AnsibleService.rmtree_left env) as [kept|].
    all: destruct (AnsibleService.returncode result =? 0)%Z; cbn [fst snd].
    all: split; [|eexists; reflexivity].
    all: simpl; rewrite Hsaved2, Hsaved1; apply list_elem_of_further, list_elem_of_here.
  - split; [|eexists; reflexivity].
    simpl. rewrite Hsaved2, Hsaved1. apply list_elem_of_further, list_elem_of_here.
  - split; [|eexists; reflexivity].
    simpl. rewrite Hsaved2, Hsaved1. apply list_elem_of_further, list_elem_of_here.
Qed.

(** C1, amended.  Started from a database in which nothing was submitted
    yet, whatever sequence of submissions (API or form), approvals,
    cancellations, scheduler ticks and worker runs follows, an execution
    row is written as running only if its definition does not require
    approval, or its [approved_by] is set, or the scheduler created it
    (the scheduler approves its own executions without an approver); and
    every run on the queue is for such an execution.  That is the whole
    gate: [execute_playbook] itself refuses nothing.  Called for any
    existing row of an existing definition, whatever its status and
    approval, it writes the row as running and returns it; there is no
    state-conflict error. *)
Theorem running_only_when_cleared (py : Python) (settings : AnsibleService.Settings)
  (utcoffset : Z -> Z) (w0 : World) :
  System.initial w0 ->
  (forall (ops : list System.Op) (pk : nat) (e : PlaybookExecution.t),
     (pk, e) ∈ saved (System.run py settings utcoffset w0 ops) ->
     PlaybookExecution.status e = Running ->
     approval_of w0 (PlaybookExecution.playbook e) = Some false \/
     is_Some (PlaybookExecution.approved_by e) \/
     is_scheduled e = true) /\
  (forall (ops : list System.Op) (pk : nat),
     pk ∈ queue (System.run py settings utcoffset w0 ops) ->
     exists e,
       executions (System.run py settings utcoffset w0 ops) !! pk = Some e /\
       (approval_of w0 (PlaybookExecution.playbook e) = Some false \/
        is_Some (PlaybookExecution.approved_by e) \/
        is_scheduled e = true)) /\
  (forall (env : AnsibleService.RunEnv) (execution_id : nat)
     (execution : PlaybookExecution.t) (playbook : AnsiblePlaybook.t) (w : World),
     executions w !! execution_id = Some execution ->
     playbooks w !! PlaybookExecution.playbook execution = Some playbook ->
     let res := AnsibleService.execute_playbook py (AnsibleService.__init__ settings) env
                  execution_id w in
     (execution_id,
      PlaybookExecution.set_started_at (Some (clock w))
        (PlaybookExecution.set_status Running execution)) ∈ saved res.1 /\
     exists ex, res.2 = Ok ex).
Proof.
  intros Hinit. split; [|split].
  - intros ops pk e Hin Hrunning.
    destruct (cleared_run py settings utcoffset w0 w0 ops (cleared_initial w0 Hinit))
      as (_ & _ & Hsaved).
    exact (Hsaved pk e Hin Hrunning).
  - intros ops pk Hin.
    destruct (cleared_run py settings utcoffset w0 w0 ops (cleared_initial w0 Hinit))
      as (_ & Hqueue & _).
    exact (Hqueue pk Hin).
  - intros env execution_id execution playbook w Hrow Hplaybook.
    exact (execute_playbook_sets_running py _ env execution_id execution playbook w
             Hrow Hplaybook).
Qed.

Lemma running_only_when_cleared_witness :
  (approval_of world0 (PlaybookExecution.playbook approved_running) = Some false \/
   is_Some (PlaybookExecution.approved_by approved_running) \/
   is_scheduled approved_running = true) /\
  (0, PlaybookExecution.set_started_at (Some sample_now)
        (PlaybookExecution.set_status Running pending_execution))
  ∈ saved (AnsibleService.execute_playbook toy_python (AnsibleService.__init__ repo_settings)
             slow_success 0 world_pending).1.
Proof.
  destruct (running_only_when_cleared toy_python repo_settings istanbul world0)
    as (Hsaved & _ & Hrun).
  - repeat split.
  - split.
    + apply (Hsaved approved_run 0 approved_running).
      * vm_compute. apply list_elem_of_further, list_elem_of_here.
      * reflexivity.
    + apply (Hrun slow_success 0 pending_execution restart_playbook world_pending
               eq_refl eq_refl).
Defined.

(** * More properties of the code *)

(** ** The validator *)

Lemma validate_dict_accepts (py : Python) (d : gmap string json)
  (required_vars : list string) :
  (PlaybookValidator.validate_variables py (JObj d) required_vars).1 = true <->
  forall var, var ∈ required_vars -> is_Some (d !! var).
Proof.
  unfold PlaybookValidator.validate_variables.
  destruct required_vars as [|r rs].
  { simpl. split; [|reflexivity]. intros _ var Hin. by apply elem_of_nil in Hin. }
  destruct (filter (fun var => d !! var = None) (r :: rs)) as [|m ms] eqn:Hfilter; simpl.
  - split; [|reflexivity]. intros _ var Hin.
    destruct (d !! var) eqn:Hvar; [eauto|].
    assert (Hm : var ∈ filter (fun var => d !! var = None) (r :: rs))
      by (apply list_elem_of_filter; auto).
    rewrite Hfilter in Hm. by apply elem_of_nil in Hm.
  - split; [discriminate|]. intros Hall. exfalso.
    assert (Hm : m ∈ filter (fun var => d !! var = None) (r :: rs))
      by (rewrite Hfilter; apply list_elem_of_here).
    apply list_elem_of_filter in Hm as [Hnone Hin].
    destruct (Hall m Hin) as [v Hv]. congruence.
Qed.

(** X1. For variables given as a dict, [validate_variables] accepts
    exactly when every required variable is a key of the dict, and when
    it rejects, its message lists the missing variables in the order of
    the requirement list. *)
Theorem validate_variables_dict (py : Python) (d : gmap string json)
  (required_vars : list string) :
  let res := PlaybookValidator.validate_variables py (JObj d) required_vars in
  (res.1 = true <-> forall var, var ∈ required_vars -> is_Some (d !! var)) /\
  (res.1 = false ->
   res.2 = "Eksik zorunlu değişkenler: "
           +:+ str_join ", " (filter (fun var => d !! var = None) required_vars)).
Proof.
  split; [apply validate_dict_accepts|].
  unfold PlaybookValidator.validate_variables.
  destruct required_vars as [|r rs]; [discriminate|].
  destruct (filter (fun var => d !! var = None) (r :: rs)); [discriminate|reflexivity].
Qed.

(** X2. When something is required, variables given as a string are
    accepted exactly when the string decodes to a dict that has every
    required variable; a string that does not decode, or decodes to
    something else, is rejected. *)
Theorem validate_variables_string (py : Python) (s : string)
  (required_vars : list string) :
  required_vars <> [] ->
  (PlaybookValidator.validate_variables py (JStr s) required_vars).1 = true <->
  exists d, json_loads py s = Some (JObj d) /\
            forall var, var ∈ required_vars -> is_Some (d !! var).
Proof.
  intros Hreq.
  pose proof (fun d => validate_dict_accepts py d required_vars) as Hdict.
  unfold PlaybookValidator.validate_variables in *.
  destruct required_vars as [|r rs]; [contradiction|].
  destruct (json_loads py s) as [v|] eqn:Hloads.
  - destruct v as [| | | | |d]; simpl;
      try (split; [discriminate|intros (d' & Hd' & _); discriminate]).
    specialize (Hdict d). simpl in Hdict. rewrite Hdict. split.
    + intros Hall. exists d. auto.
    + intros (d' & [= <-] & Hall). exact Hall.
  - simpl. split; [discriminate|intros (d' & Hd' & _); discriminate].
Qed.

Lemma validate_variables_string_witness :
  (PlaybookValidator.validate_variables toy_python (JStr "{}") ["region"]).1 = true <->
  exists d, json_loads toy_python "{}" = Some (JObj d) /\
            forall var, var ∈ ["region"] -> is_Some (d !! var).
Proof.
  apply (validate_variables_string toy_python "{}" ["region"]). discriminate.
Defined.

(** ** The API views *)

(** X3. [api_execute_playbook] on an existing definition succeeds exactly
    when the caller is allowed (the allow list is empty or names the
    caller), the validator accepts the variables and the new
    [execution_id] is not taken.  A refusal changes nothing.  A success
    appends one row, pending when the definition requires approval and
    approved otherwise, returns its key, and queues a run only in the
    second case. *)
Theorem api_execute_playbook_outcome (py : Python) (request : ApiViews.ExecuteRequest)
  (playbook_id : nat) (playbook : AnsiblePlaybook.t) (w : World) :
  playbooks w !! playbook_id = Some playbook ->
  let res := ApiViews.api_execute_playbook py request playbook_id w in
  let pk := length (executions w) in
  let execution :=
    new_execution playbook_id (user_id (ApiViews.user request))
      (String.substring 0 8 (ApiViews.uuid4 request))
      (ApiViews.variables request) (ApiViews.target_hosts request)
      (if AnsiblePlaybook.requires_approval playbook then Pending else Approved) in
  (ApiViews.success res.2 = true <->
   (AnsiblePlaybook.allowed_users playbook = [] \/
    user_id (ApiViews.user request) ∈ AnsiblePlaybook.allowed_users playbook) /\
   (PlaybookValidator.validate_variables py (ApiViews.variables request)
      (AnsiblePlaybook.required_variables playbook)).1 = true /\
   Forall (fun r => PlaybookExecution.execution_id r
                    <> String.substring 0 8 (ApiViews.uuid4 request)) (executions w)) /\
  (ApiViews.success res.2 = false -> res.1 = w) /\
  (ApiViews.success res.2 = true ->
   ApiViews.execution_pk res.2 = Some pk /\
   executions res.1 = executions w ++ [execution] /\
   queue res.1 = (if AnsiblePlaybook.requires_approval playbook
                  then queue w else queue w ++ [pk]) /\
   playbooks res.1 = playbooks w /\ schedules res.1 = schedules w).
Proof.
  intros Hplaybook res pk execution. subst res.
  unfold ApiViews.api_execute_playbook. rewrite Hplaybook.
  destruct (bool_decide (AnsiblePlaybook.allowed_users playbook = [])) eqn:Hempty;
    [apply bool_decide_eq_true in Hempty|apply bool_decide_eq_false in Hempty].
  all: destruct (bool_decide (user_id (ApiViews.user request)
                              ∈ AnsiblePlaybook.allowed_users playbook)) eqn:Hmember;
    [apply bool_decide_eq_true in Hmember|apply bool_decide_eq_false in Hmember].
  all: cbn [negb andb].
  4: { simpl. split; [|split; [reflexivity|discriminate]].
       split; [discriminate|]. intros ([?|?] & _); contradiction. }
  all: destruct (PlaybookValidator.validate_variables py _ _) as [is_valid message];
    cbn [fst]; destruct is_valid; cbn [negb].
  all: try (simpl; split; [|split; [reflexivity|discriminate]];
            split; [discriminate|]; intros (_ & ? & _); discriminate).
  all: fold execution; unfold objects_create.
  all: destruct (existsb _ (executions w)) eqn:Hexists.
  all: try (simpl; split; [|split; [reflexivity|discriminate]];
            split; [discriminate|]; intros (_ & _ & Hfresh);
            apply existsb_exists in Hexists as (r & Hin & Heq);
            apply String.eqb_eq in Heq;
            rewrite Forall_forall in Hfresh; apply list_elem_of_In in Hin;
            destruct (Hfresh r Hin); exact Heq).
  all: assert (Hfresh : Forall (fun r => PlaybookExecution.execution_id r
                 <> String.substring 0 8 (ApiViews.uuid4 request)) (executions w))
    by (apply Forall_forall; intros r Hin Heq;
        apply not_true_iff_false in Hexists; apply Hexists;
        apply existsb_exists; exists r; split;
        [by apply list_elem_of_In|by apply String.eqb_eq]).
  all: unfold create_execution; cbn [fst snd].
  all: destruct (AnsiblePlaybook.requires_approval playbook); cbn [negb fst snd].
  all: split; [split; [intros _|reflexivity]; auto|].
  all: split; [discriminate|]; intros _; repeat split.
Qed.

Lemma api_execute_playbook_outcome_witness :
  (ApiViews.api_execute_playbook toy_python mallory_request 1 world_two).1 = world_two.
Proof.
  apply (api_execute_playbook_outcome toy_python mallory_request 1 ping_playbook world_two
           eq_refl).
  reflexivity.
Defined.

(** X4. [api_approve_execution] on an existing row succeeds exactly when
    the caller is staff and the row is pending.  A refusal changes
    nothing.  A success rewrites the row as approved, with the caller as
    [approved_by], the current time and the notes, and queues one run of
    it. *)
Theorem api_approve_execution_outcome (user : User) (notes : string)
  (execution_id : nat) (execution : PlaybookExecution.t) (w : World) :
  executions w !! execution_id = Some execution ->
  let res := ApiViews.api_approve_execution user notes execution_id w in
  (ApiViews.success res.2 = true <->
   is_staff user = true /\ PlaybookExecution.status execution = Pending) /\
  (ApiViews.success res.2 = false -> res.1 = w) /\
  (ApiViews.success res.2 = true ->
   executions res.1
   = <[execution_id :=
         PlaybookExecution.set_approval_notes notes
           (PlaybookExecution.set_approved_at (Some (clock w))
              (PlaybookExecution.set_approved_by (Some (user_id user))
                 (PlaybookExecution.set_status Approved execution)))]> (executions w) /\
   queue res.1 = queue w ++ [execution_id] /\
   playbooks res.1 = playbooks w /\ schedules res.1 = schedules w).
Proof.
  intros Hrow res. subst res. unfold ApiViews.api_approve_execution. rewrite Hrow.
  destruct (is_staff user); cbn [negb].
  2: { simpl. split; [|split; [reflexivity|discriminate]].
       split; [discriminate|intros [? _]; discriminate]. }
  destruct (bool_decide (PlaybookExecution.status execution = Pending)) eqn:Hstatus;
    [apply bool_decide_eq_true in Hstatus|apply bool_decide_eq_false in Hstatus];
    cbn [negb].
  - simpl. split; [split; auto|]. split; [discriminate|]. intros _. repeat split.
  - simpl. split; [|split; [reflexivity|discriminate]].
    split; [discriminate|intros [_ ?]; contradiction].
Qed.

Lemma api_approve_execution_outcome_witness :
  queue (ApiViews.api_approve_execution admin "ok" 0 world_pending).1 = [0].
Proof.
  apply (api_approve_execution_outcome admin "ok" 0 pending_execution world_pending eq_refl).
  reflexivity.
Defined.

(** X5. An execution is approved, and so queued by an approval, at most
    once: after a successful approval every further approval of the same
    row, by whomever, is refused and changes nothing. *)
Theorem second_approval_is_refused (user1 user2 : User) (notes1 notes2 : string)
  (execution_id : nat) (w : World) :
  let first := ApiViews.api_approve_execution user1 notes1 execution_id w in
  let second := ApiViews.api_approve_execution user2 notes2 execution_id first.1 in
  ApiViews.success first.2 = true ->
  ApiViews.success second.2 = false /\ second.1 = first.1.
Proof.
  intros first second Hok. subst second.
  assert (exists e', executions first.1 !! execution_id = Some e' /\
                     PlaybookExecution.status e' = Approved) as (e' & He' & Hstatus).
  { subst first. unfold ApiViews.api_approve_execution in *.
    destruct (executions w !! execution_id) as [execution|] eqn:Hrow; [|discriminate Hok].
    destruct (is_staff user1); [|discriminate Hok].
    destruct (bool_decide _); [|discriminate Hok]. simpl.
    eexists. split; [apply list_lookup_insert_eq; eapply lookup_lt_Some; eauto|reflexivity]. }
  clearbody first. unfold ApiViews.api_approve_execution. rewrite He', Hstatus.
  destruct (is_staff user2); simpl; auto.
Qed.

Lemma second_approval_is_refused_witness :
  let first := ApiViews.api_approve_execution admin "ok" 0 world_pending in
  ApiViews.success (ApiViews.api_approve_execution admin "again" 0 first.1).2 = false.
Proof.
  apply (second_approval_is_refused admin admin "ok" "again" 0 world_pending). reflexivity.
Defined.

(** X6. [api_cancel_execution] on an existing row succeeds exactly when
    the caller is its executor or staff and the row is pending or
    approved; a running row cannot be cancelled.  A refusal changes
    nothing.  A success rewrites the row as cancelled with the current
    time as [completed_at]; it leaves the queue as it is, so a run that
    was queued for the row stays queued. *)
Theorem api_cancel_execution_outcome (user : User) (execution_id : nat)
  (execution : PlaybookExecution.t) (w : World) :
  executions w !! execution_id = Some execution ->
  let res := ApiViews.api_cancel_execution user execution_id w in
  (ApiViews.success res.2 = true <->
   (PlaybookExecution.executor execution = user_id user \/ is_staff user = true) /\
   (PlaybookExecution.status execution = Pending \/
    PlaybookExecution.status execution = Approved)) /\
  (ApiViews.success res.2 = false -> res.1 = w) /\
  (ApiViews.success res.2 = true ->
   executions res.1
   = <[execution_id :=
         PlaybookExecution.set_completed_at (Some (clock w))
           (PlaybookExecution.set_status Cancelled execution)]> (executions w) /\
   queue res.1 = queue w /\ playbooks res.1 = playbooks w).
Proof.
  intros Hrow res. subst res. unfold ApiViews.api_cancel_execution. rewrite Hrow.
  destruct (bool_decide (PlaybookExecution.executor execution = user_id user)) eqn:Hexec;
    [apply bool_decide_eq_true in Hexec|apply bool_decide_eq_false in Hexec];
    destruct (is_staff user) eqn:Hstaff; cbn [negb andb].
  4: { simpl. split; [|split; [reflexivity|discriminate]].
       split; [discriminate|]. intros [[?|?] _]; [contradiction|discriminate]. }
  all: destruct (PlaybookExecution.status execution) eqn:Hstatus; simpl.
  all: first
    [ split; [split; [intros _; split; auto|reflexivity]|];
      split; [discriminate|]; intros _; repeat split
    | split; [|split; [reflexivity|discriminate]];
      split; [discriminate|]; intros [_ [?|?]]; discriminate ].
Qed.

Lemma api_cancel_execution_outcome_witness :
  PlaybookExecution.status <$>
    executions (ApiViews.api_cancel_execution alice 0 world_pending).1 !! 0
  = Some Cancelled.
Proof.
  pose proof (api_cancel_execution_outcome alice 0 pending_execution world_pending eq_refl)
    as (_ & _ & Heffect).
  destruct (Heffect eq_refl) as (Hrows & _). rewrite Hrows. reflexivity.
Defined.

(** ** More on the local runner *)

(** What [run_process] does to the disk when it returns: it made one new
    directory and wrote the inventory and the variables into it. *)
Lemma run_process_disk (py : Python) (self : AnsibleService.t)
  (env : AnsibleService.RunEnv) (execution_id : nat) (execution : PlaybookExecution.t)
  (playbook : AnsiblePlaybook.t) (w w2 : World) (temp_dir : string)
  (result : AnsibleService.CompletedProcess) :
  AnsibleService.run_process py self env execution_id execution playbook w
  = (w2, Ok (temp_dir, result)) ->
  (temp_dir ∉ dirs w) /\
  dirs w2 = {[temp_dir]} ∪ dirs w /\
  exists inventory variables,
    files w2 = <[AnsibleService.path_join temp_dir "vars.json" := variables]>
                 (<[AnsibleService.path_join temp_dir "inventory.ini" := inventory]>
                    (files w)).
Proof.
  unfold AnsibleService.run_process, bind at 1.
  unfold AnsibleService._create_temp_directory.
  destruct (AnsibleService.mkdtemp_suffix env) as [suffix|]; [|discriminate].
  destruct (bool_decide _) eqn:Hfresh; [discriminate|].
  apply bool_decide_eq_false in Hfresh.
  unfold bind at 1, AnsibleService._create_inventory_file, bind at 1,
    AnsibleService.write_file.
  destruct (AnsibleService.write_error env) as [msg|] eqn:Hwrite; [discriminate|].
  unfold ret at 1. unfold bind at 1, AnsibleService._create_vars_file, bind at 1.
  set (m := if truthy _ then _ else _).
  assert (Hm : forall w0, (m w0).1 = w0).
  { intros w0. subst m. destruct (truthy _); [|reflexivity].
    destruct (PlaybookExecution.variables execution); try reflexivity.
    destruct (json_loads py s); [|reflexivity].
    unfold AnsibleService.dict_update.
    destruct j; try reflexivity; destruct (dict_update_iterable py _ _); reflexivity. }
  match goal with |- context [m ?w0] => specialize (Hm w0); destruct (m w0) as [w1 [vars|e]] end;
    [|discriminate].
  simpl in Hm. subst w1.
  unfold bind at 1, AnsibleService.write_file. rewrite Hwrite.
  unfold ret at 1. unfold bind at 1, AnsibleService._log_info, lift.
  unfold bind, AnsibleService.subprocess_run.
  destruct (AnsibleService.process env) as [msg|d rc out err]; [discriminate|].
  destruct (_ <? _)%Z; [discriminate|].
  unfold ret. intros [= <- <- <-]. simpl. eauto 10.
Qed.

Lemma path_join_prefix (temp_dir name : string) :
  String.prefix (temp_dir +:+ "/") (AnsibleService.path_join temp_dir name) = true.
Proof.
  unfold AnsibleService.path_join. apply String.prefix_correct.
  induction temp_dir as [|c s IH].
  - destruct name; reflexivity.
  - change (String.substring 0 (S (String.length (s +:+ "/")))
              (String c (s +:+ "/" +:+ name)) = String c (s +:+ "/")).
    simpl. by rewrite IH.
Qed.

(** X7. When the process returned, whatever its return code, the row
    ends completed or failed by that code, and if [rmtree] does its work
    the run leaves the disk without its temporary directory: the set of
    directories is as before the run and no file under the directory's
    path remains, while every other file is as before.  If [rmtree]
    raises, that is swallowed: the directory stays and the files outside
    it are as before. *)
Theorem temp_files_released_after_exit (py : Python) (self : AnsibleService.t)
  (env : AnsibleService.RunEnv) (execution_id : nat) (execution : PlaybookExecution.t)
  (playbook : AnsiblePlaybook.t) (w w2 : World) (temp_dir : string)
  (result : AnsibleService.CompletedProcess) :
  executions w !! execution_id = Some execution ->
  playbooks w !! PlaybookExecution.playbook execution = Some playbook ->
  let started := AnsibleService.start_run execution_id execution playbook w in
  AnsibleService.run_process py self env execution_id started.2 playbook started.1
  = (w2, Ok (temp_dir, result)) ->
  let final := (AnsibleService.execute_playbook py self env execution_id w).1 in
  PlaybookExecution.status <$> executions final !! execution_id
  = Some (if (AnsibleService.returncode result =? 0)%Z then Completed else Failed) /\
  (forall path, String.prefix (temp_dir +:+ "/") path = false ->
                files final !! path = files w !! path) /\
  match AnsibleService.rmtree_left env with
  | None =>
    dirs final = dirs w /\
    forall path, String.prefix (temp_dir +:+ "/") path = true -> files final !! path = None
  | Some kept => dirs final = {[temp_dir]} ∪ dirs w
  end.
Proof.
  intros Hrow Hplaybook started Hrun final. subst final.
  assert (Hlt : execution_id < length (executions w)) by (eapply lookup_lt_Some; eauto).
  rewrite (execute_playbook_unfold _ _ _ _ _ _ _ Hrow Hplaybook). fold started.
  cbv zeta. rewrite Hrun.
  pose proof (keeps_database_run_process py self env execution_id started.2 playbook
                started.1) as (_ & Hrows & _).
  rewrite Hrun in Hrows. cbn [fst] in Hrows.
  apply run_process_disk in Hrun as (Hfresh & Hdirs & inventory & variables & Hfiles).
  change (dirs started.1) with (dirs w) in *. change (files started.1) with (files w) in *.
  assert (Hlen : execution_id < length (executions w2)).
  { rewrite Hrows. subst started. simpl. by rewrite length_insert. }
  assert (Hother : forall path, String.prefix (temp_dir +:+ "/") path = false ->
                                files w2 !! path = files w !! path).
  { intros path Hprefix. rewrite Hfiles.
    rewrite !lookup_insert_ne; [reflexivity|..].
    all: intros <-; rewrite path_join_prefix in Hprefix; discriminate. }
  unfold AnsibleService.record_result, AnsibleService._cleanup_temp_files, lift.
  destruct (AnsibleService.rmtree_left env) as [kept|].
  - split; [|split].
    + destruct (AnsibleService.returncode result =? 0)%Z; simpl;
        by rewrite list_lookup_insert_eq.
    + intros path Hprefix. rewrite <- (Hother path Hprefix).
      assert (Hf : forall w3 : World, files w3 = files w2 ->
                filter (fun kv : string * string =>
                          String.prefix (temp_dir +:+ "/") kv.1 = false \/ kv.1 ∈ kept)
                  (files w3) !! path = files w2 !! path).
      { intros w3 ->. destruct (files w2 !! path) as [v|] eqn:Hv.
        - apply map_lookup_filter_Some. split; [exact Hv|]. left. exact Hprefix.
        - apply map_lookup_filter_None. left. exact Hv. }
      destruct (AnsibleService.returncode result =? 0)%Z; simpl; by apply Hf.
    + destruct (AnsibleService.returncode result =? 0)%Z; simpl; exact Hdirs.
  - split; [|split; [|split]].
    + destruct (AnsibleService.returncode result =? 0)%Z; simpl;
        by rewrite list_lookup_insert_eq.
    + intros path Hprefix. rewrite <- (Hother path Hprefix).
      assert (Hf : forall w3 : World, files w3 = files w2 ->
                filter (fun kv : string * string =>
                          String.prefix (temp_dir +:+ "/") kv.1 = false)
                  (files w3) !! path = files w2 !! path).
      { intros w3 ->. destruct (files w2 !! path) as [v|] eqn:Hv.
        - apply map_lookup_filter_Some. split; [exact Hv|]. exact Hprefix.
        - apply map_lookup_filter_None. left. exact Hv. }
      destruct (AnsibleService.returncode result =? 0)%Z; simpl; by apply Hf.
    + assert (Hd : dirs w2 ∖ {[temp_dir]} = dirs w).
      { rewrite Hdirs. apply set_eq. intros x.
        rewrite elem_of_difference, elem_of_union, elem_of_singleton.
        split; [intros [[->|?] ?]; [contradiction|assumption]|].
        intros Hx. split; [auto|]. intros ->. contradiction. }
      destruct (AnsibleService.returncode result =? 0)%Z; simpl; exact Hd.
    + intros path Hprefix.
      assert (Hf : forall w3 : World,
                filter (fun kv : string * string =>
                          String.prefix (temp_dir +:+ "/") kv.1 = false)
                  (files w3) !! path = None).
      { intros w3. apply map_lookup_filter_None. right. intros v _. simpl. congruence. }
      destruct (AnsibleService.returncode result =? 0)%Z; simpl; apply Hf.
Qed.

Lemma temp_files_released_after_exit_witness :
  dirs (AnsibleService.execute_playbook toy_python (AnsibleService.__init__ repo_settings)
          slow_success 0 world1).1 = dirs world1.
Proof.
  eapply (temp_files_released_after_exit toy_python (AnsibleService.__init__ repo_settings)
            slow_success 0 approved_execution restart_playbook world1).
  - reflexivity.
  - reflexivity.
  - vm_compute. reflexivity.
Defined.

(** X8. The variables file holds the definition's defaults overridden
    by the execution's variables: when these are a dict, every key of it
    carries the execution's value and every other key the default; when
    they are a string that does not decode, the string is ignored and
    the file holds the defaults alone. *)
Theorem vars_file_overrides_defaults (py : Python) (env : AnsibleService.RunEnv)
  (temp_dir : string) (execution : PlaybookExecution.t) (playbook : AnsiblePlaybook.t)
  (w : World) :
  AnsibleService.write_error env = None ->
  let defaults := AnsiblePlaybook.default_variables playbook in
  let vars_path := AnsibleService.path_join temp_dir "vars.json" in
  let written (variables : gmap string json) :=
    (set_files (<[vars_path := json_dumps py variables]> (files w)) w, Ok vars_path) in
  (forall d, PlaybookExecution.variables execution = JObj d ->
     exists merged,
       AnsibleService._create_vars_file py env temp_dir execution playbook w
       = written merged /\
       (forall k v, d !! k = Some v -> merged !! k = Some v) /\
       (forall k, d !! k = None -> merged !! k = defaults !! k)) /\
  (forall s, PlaybookExecution.variables execution = JStr s -> json_loads py s = None ->
     AnsibleService._create_vars_file py env temp_dir execution playbook w
     = written defaults).
Proof.
  intros Hwrite defaults vars_path written. split.
  - intros d Hd. exists (dict_merge defaults d). split; [|split].
    + unfold AnsibleService._create_vars_file. rewrite Hd.
      destruct (truthy (JObj d)) eqn:Htruthy.
      * unfold bind, ret, AnsibleService.write_file. rewrite Hwrite. reflexivity.
      * simpl in Htruthy. apply negb_false_iff, bool_decide_eq_true in Htruthy. subst d.
        unfold bind, ret, AnsibleService.write_file. rewrite Hwrite.
        unfold dict_merge. rewrite (left_id_L ∅ (∪)). reflexivity.
    + intros k v Hk. by apply dict_merge_right.
    + intros k Hk. by apply dict_merge_left.
  - intros s Hs Hloads. unfold AnsibleService._create_vars_file. rewrite Hs, Hloads.
    destruct (truthy (JStr s)); unfold bind, ret, AnsibleService.write_file;
      rewrite Hwrite; reflexivity.
Qed.

Lemma vars_file_overrides_defaults_witness :
  exists merged,
    AnsibleService._create_vars_file toy_python slow_success "/tmp/ansible_k3x9"
      (new_execution 1 7 "1b9d6bcd" (JObj {[ "region" := JStr "us" ]}) (Some []) Approved)
      ping_playbook world_two
    = (set_files (<["/tmp/ansible_k3x9/vars.json" := json_dumps toy_python merged]>
                    (files world_two)) world_two,
       Ok "/tmp/ansible_k3x9/vars.json") /\
    merged !! "region" = Some (JStr "us") /\ merged !! "size" = Some (JNum 1).
Proof.
  destruct (vars_file_overrides_defaults toy_python slow_success "/tmp/ansible_k3x9"
              (new_execution 1 7 "1b9d6bcd" (JObj {[ "region" := JStr "us" ]}) (Some [])
                 Approved) ping_playbook world_two eq_refl) as [Hdict _].
  destruct (Hdict _ eq_refl) as (merged & Hfile & Hwin & Hkeep).
  exists merged. split; [exact Hfile|]. split; [by apply Hwin|].
  rewrite Hkeep; reflexivity.
Defined.

(** X9. A run whose process cannot be started ends in the exception
    handler with the cause kept on the row: the row is written failed,
    its [stderr] is the text of the exception, [completed_at] is set, the
    return code is left as it was, and the last line of the log is the
    error with that text. *)
Theorem failure_is_recorded_on_the_row (py : Python) (self : AnsibleService.t)
  (env : AnsibleService.RunEnv) (execution_id : nat) (execution : PlaybookExecution.t)
  (playbook : AnsiblePlaybook.t) (w : World) (msg : string) :
  executions w !! execution_id = Some execution ->
  playbooks w !! PlaybookExecution.playbook execution = Some playbook ->
  AnsibleService.process env = AnsibleService.SpawnError msg ->
  let res := AnsibleService.execute_playbook py self env execution_id w in
  spawned res.1 <> spawned w ->
  exists ex,
    res.2 = Ok ex /\ executions res.1 !! execution_id = Some ex /\
    PlaybookExecution.status ex = Failed /\
    PlaybookExecution.stderr ex = msg /\
    PlaybookExecution.started_at ex = Some (clock w) /\
    PlaybookExecution.completed_at ex = Some (clock w) /\
    PlaybookExecution.return_code ex = PlaybookExecution.return_code execution /\
    last (logs res.1)
    = Some {| AutomationLog.level := "error";
              AutomationLog.message := "Playbook çalıştırma hatası: " +:+ msg;
              AutomationLog.playbook_execution := Some execution_id |}.
Proof.
  intros Hrow Hplaybook Hproc res. subst res.
  assert (Hlt : execution_id < length (executions w)) by (eapply lookup_lt_Some; eauto).
  rewrite (execute_playbook_unfold _ _ _ _ _ _ _ Hrow Hplaybook). cbv zeta.
  set (started := AnsibleService.start_run execution_id execution playbook w).
  pose proof (run_process_outcome py self env execution_id started.2 playbook started.1)
    as Hout.
  pose proof (keeps_database_run_process py self env execution_id started.2 playbook
                started.1) as (_ & Hrows & _).
  destruct (AnsibleService.run_process py self env execution_id started.2 playbook started.1)
    as [w2 r].
  unfold process_outcome in Hout. simpl in Hout, Hrows.
  destruct Hout as [(Hsame & _ & msg' & ->)|(cmd & cwd & Hcall & Hres)].
  - simpl. intros Hne. exfalso. apply Hne. exact Hsame.
  - intros _. rewrite Hproc in Hres. destruct Hres as [-> Hclock].
    eexists. split; [reflexivity|]. simpl. rewrite Hrows.
    rewrite list_lookup_insert_eq by (rewrite length_insert; exact Hlt).
    unfold now. rewrite Hclock. repeat split. apply last_snoc.
Qed.

Lemma failure_is_recorded_on_the_row_witness :
  exists ex,
    (AnsibleService.execute_playbook toy_python (AnsibleService.__init__ repo_settings)
       no_binary 0 world1).2 = Ok ex /\
    PlaybookExecution.status ex = Failed /\
    PlaybookExecution.stderr ex = "No such file or directory".
Proof.
  destruct (failure_is_recorded_on_the_row toy_python (AnsibleService.__init__ repo_settings)
              no_binary 0 approved_execution restart_playbook world1 _
              eq_refl eq_refl eq_refl)
    as (ex & Hex & _ & Hstatus & Hstderr & _).
  - vm_compute. discriminate.
  - exists ex. auto.
Defined.

(** X10. A run touches no row but its own and leaves the queue and the
    schedules alone; on its own row it changes the status, the
    timestamps and the results only: the definition, the executor, the
    [execution_id], the variables, the target hosts and the approval
    fields stay. *)
Theorem run_touches_only_its_row (py : Python) (self : AnsibleService.t)
  (env : AnsibleService.RunEnv) (execution_id : nat) (execution : PlaybookExecution.t)
  (w : World) :
  executions w !! execution_id = Some execution ->
  let final := (AnsibleService.execute_playbook py self env execution_id w).1 in
  queue final = queue w /\ schedules final = schedules w /\
  (forall pk, pk <> execution_id -> executions final !! pk = executions w !! pk) /\
  exists e',
    executions final !! execution_id = Some e' /\
    PlaybookExecution.playbook e' = PlaybookExecution.playbook execution /\
    PlaybookExecution.executor e' = PlaybookExecution.executor execution /\
    PlaybookExecution.execution_id e' = PlaybookExecution.execution_id execution /\
    PlaybookExecution.variables e' = PlaybookExecution.variables execution /\
    PlaybookExecution.target_hosts e' = PlaybookExecution.target_hosts execution /\
    PlaybookExecution.approved_by e' = PlaybookExecution.approved_by execution /\
    PlaybookExecution.approved_at e' = PlaybookExecution.approved_at execution /\
    PlaybookExecution.approval_notes e' = PlaybookExecution.approval_notes execution.
Proof.
  intros Hrow final. subst final.
  assert (Hlt : execution_id < length (executions w)) by (eapply lookup_lt_Some; eauto).
  unfold AnsibleService.execute_playbook. rewrite Hrow.
  destruct (playbooks w !! PlaybookExecution.playbook execution) as [playbook|].
  2: { simpl. repeat split.
       - intros pk Hne. by apply list_lookup_insert_ne.
       - eexists. split; [by apply list_lookup_insert_eq|]. repeat split. }
  set (started := AnsibleService.start_run execution_id execution playbook w).
  pose proof (keeps_database_run_process py self env execution_id started.2 playbook
                started.1) as (_ & Hrows & Hsched & Hq & _).
  change (executions started.1) with (<[execution_id := started.2]> (executions w)) in Hrows.
  change (schedules started.1) with (schedules w) in Hsched.
  change (queue started.1) with (queue w) in Hq.
  destruct started as [w1 running] eqn:Hstarted. cbn [fst snd] in *.
  assert (Hrunning : running
            = PlaybookExecution.set_started_at (Some (clock w))
                (PlaybookExecution.set_status Running execution)).
  { unfold started, AnsibleService.start_run in Hstarted. by injection Hstarted as _ <-. }
  destruct (AnsibleService.run_process py self env execution_id running playbook w1)
    as [w2 r]; cbn [fst snd] in *.
  assert (Hend : forall e_final w3,
    executions w3 = <[execution_id := e_final]> (executions w2) ->
    queue w3 = queue w2 -> schedules w3 = schedules w2 ->
    (PlaybookExecution.playbook e_final = PlaybookExecution.playbook execution /\
     PlaybookExecution.executor e_final = PlaybookExecution.executor execution /\
     PlaybookExecution.execution_id e_final = PlaybookExecution.execution_id execution /\
     PlaybookExecution.variables e_final = PlaybookExecution.variables execution /\
     PlaybookExecution.target_hosts e_final = PlaybookExecution.target_hosts execution /\
     PlaybookExecution.approved_by e_final = PlaybookExecution.approved_by execution /\
     PlaybookExecution.approved_at e_final = PlaybookExecution.approved_at execution /\
     PlaybookExecution.approval_notes e_final
     = PlaybookExecution.approval_notes execution) ->
    queue w3 = queue w /\ schedules w3 = schedules w /\
    (forall pk, pk <> execution_id -> executions w3 !! pk = executions w !! pk) /\
    exists e',
      executions w3 !! execution_id = Some e' /\
      PlaybookExecution.playbook e' = PlaybookExecution.playbook execution /\
      PlaybookExecution.executor e' = PlaybookExecution.executor execution /\
      PlaybookExecution.execution_id e' = PlaybookExecution.execution_id execution /\
      PlaybookExecution.variables e' = PlaybookExecution.variables execution /\
      PlaybookExecution.target_hosts e' = PlaybookExecution.target_hosts execution /\
      PlaybookExecution.approved_by e' = PlaybookExecution.approved_by execution /\
      PlaybookExecution.approved_at e' = PlaybookExecution.approved_at execution /\
      PlaybookExecution.approval_notes e' = PlaybookExecution.approval_notes execution).
  { intros e_final w3 He Hq3 Hs3 Hsame. split; [congruence|]. split; [congruence|].
    rewrite He, Hrows. split.
    - intros pk Hne. by rewrite !list_lookup_insert_ne.
    - exists e_final. split; [|exact Hsame].
      apply list_lookup_insert_eq. by rewrite length_insert. }
  destruct r as [[temp_dir result]|[|msg]].
  - unfold AnsibleService.record_result, AnsibleService._cleanup_temp_files, lift.
    destruct (AnsibleService.rmtree_left env) as [kept|].
    all: destruct (AnsibleService.returncode result =? 0)%Z; cbn [fst snd].
    all: eapply Hend; [reflexivity|reflexivity|reflexivity|subst running; repeat split].
  - eapply Hend; [reflexivity|reflexivity|reflexivity|subst running; repeat split].
  - eapply Hend; [reflexivity|reflexivity|reflexivity|subst running; repeat split].
Qed.

Lemma run_touches_only_its_row_witness :
  queue (AnsibleService.execute_playbook toy_python (AnsibleService.__init__ repo_settings)
           slow_success 0 world1).1 = queue world1.
Proof.
  apply (run_touches_only_its_row toy_python (AnsibleService.__init__ repo_settings)
           slow_success 0 approved_execution world1).
  reflexivity.
Defined.

Lemma logs_for_ret {A} (execution_id : nat) (a : A) : logs_for execution_id (ret a).
Proof. intros w. exists []. split; [by rewrite app_nil_r|constructor]. Qed.

Lemma logs_for_raise {A} (execution_id : nat) (e : exn) :
  logs_for execution_id (@raise A e).
Proof. intros w. exists []. split; [by rewrite app_nil_r|constructor]. Qed.

Lemma logs_for_same {A} (execution_id : nat) (m : M A) :
  (forall w, logs (m w).1 = logs w) -> logs_for execution_id m.
Proof.
  intros H w. exists []. split; [by rewrite app_nil_r, H|constructor].
Qed.

Lemma logs_for_bind {A B} (execution_id : nat) (m : M A) (k : A -> M B) :
  logs_for execution_id m -> (forall a, logs_for execution_id (k a)) ->
  logs_for execution_id (bind m k).
Proof.
  intros Hm Hk w. unfold bind. destruct (Hm w) as (new1 & Hlogs1 & Hall1).
  destruct (m w) as [w' [a|e]]; simpl in *; [|eauto].
  destruct (Hk a w') as (new2 & Hlogs2 & Hall2).
  exists (new1 ++ new2). split; [by rewrite Hlogs2, Hlogs1, app_assoc|].
  by apply Forall_app.
Qed.

Lemma logs_for_log_info (execution_id : nat) (msg : string) :
  logs_for execution_id (AnsibleService._log_info msg (Some execution_id)).
Proof. intros w. eexists [_]. split; [reflexivity|]. by repeat constructor. Qed.

Lemma logs_for_run_process (py : Python) (self : AnsibleService.t)
  (env : AnsibleService.RunEnv) (execution_id : nat) (execution : PlaybookExecution.t)
  (playbook : AnsiblePlaybook.t) :
  logs_for execution_id
    (AnsibleService.run_process py self env execution_id execution playbook).
Proof.
  unfold AnsibleService.run_process.
  apply logs_for_bind.
  { apply logs_for_same. intros w. unfold AnsibleService._create_temp_directory.
    destruct (AnsibleService.mkdtemp_suffix env); [|reflexivity].
    destruct (bool_decide _); reflexivity. }
  intros temp_dir. apply logs_for_bind.
  { apply logs_for_same. intros w.
    unfold AnsibleService._create_inventory_file, bind, AnsibleService.write_file.
    destruct (AnsibleService.write_error env); reflexivity. }
  intros inventory_file. apply logs_for_bind.
  { unfold AnsibleService._create_vars_file. apply logs_for_bind.
    - apply logs_for_same. intros w. destruct (truthy _); [|reflexivity].
      destruct (PlaybookExecution.variables execution); try reflexivity.
      destruct (json_loads py s); [|reflexivity]. unfold AnsibleService.dict_update.
      destruct j; try reflexivity; destruct (dict_update_iterable py _ _); reflexivity.
    - intros variables. apply logs_for_same. intros w.
      unfold bind, AnsibleService.write_file.
      destruct (AnsibleService.write_error env); reflexivity. }
  intros vars_file. apply logs_for_bind; [apply logs_for_log_info|intros _].
  apply logs_for_bind; [|intros result; apply logs_for_ret].
  apply logs_for_same. intros w. unfold AnsibleService.subprocess_run.
  destruct (AnsibleService.process env); [reflexivity|]. destruct (_ <? _)%Z; reflexivity.
Qed.

(** X11. A run only appends to the log, and what it appends is attached
    to its execution: first the line that the run started, with the name
    of the definition, and at the end one closing line, which is an info
    line exactly when the run ended completed. *)
Theorem run_log_is_attached_to_the_execution (py : Python) (self : AnsibleService.t)
  (env : AnsibleService.RunEnv) (execution_id : nat) (execution : PlaybookExecution.t)
  (playbook : AnsiblePlaybook.t) (w : World) :
  executions w !! execution_id = Some execution ->
  playbooks w !! PlaybookExecution.playbook execution = Some playbook ->
  let res := AnsibleService.execute_playbook py self env execution_id w in
  exists middle closing ex,
    res.2 = Ok ex /\
    logs res.1
    = logs w
      ++ [{| AutomationLog.level := "info";
             AutomationLog.message :=
               "Playbook çalıştırma başlatıldı: " +:+ AnsiblePlaybook.name playbook;
             AutomationLog.playbook_execution := Some execution_id |}]
      ++ middle ++ [closing] /\
    Forall (fun l => AutomationLog.playbook_execution l = Some execution_id)
      (middle ++ [closing]) /\
    (AutomationLog.level closing = "info" <-> PlaybookExecution.status ex = Completed).
Proof.
  intros Hrow Hplaybook res. subst res.
  rewrite (execute_playbook_unfold _ _ _ _ _ _ _ Hrow Hplaybook). cbv zeta.
  set (started := AnsibleService.start_run execution_id execution playbook w).
  destruct (logs_for_run_process py self env execution_id started.2 playbook started.1)
    as (middle & Hlogs & Hall).
  change (logs started.1) with
    (logs w ++ [{| AutomationLog.level := "info";
                   AutomationLog.message :=
                     "Playbook çalıştırma başlatıldı: " +:+ AnsiblePlaybook.name playbook;
                   AutomationLog.playbook_execution := Some execution_id |}]) in Hlogs.
  destruct (AnsibleService.run_process py self env execution_id started.2 playbook started.1)
    as [w2 [[temp_dir result]|[|msg]]]; cbn [fst snd] in Hlogs.
  - unfold AnsibleService.record_result, AnsibleService._cleanup_temp_files, lift.
    destruct (AnsibleService.rmtree_left env) as [kept|].
    all: destruct (AnsibleService.returncode result =? 0)%Z; cbn [fst snd].
    all: eexists middle, _, _; split; [reflexivity|].
    all: split; [simpl; rewrite Hlogs, <- !app_assoc; reflexivity|].
    all: split; [apply Forall_app; split; [exact Hall|by repeat constructor]|].
    all: simpl; split; first [discriminate|reflexivity|auto].
  - eexists middle, _, _. split; [reflexivity|].
    split; [simpl; rewrite Hlogs, <- !app_assoc; reflexivity|].
    split; [apply Forall_app; split; [exact Hall|by repeat constructor]|].
    simpl. split; discriminate.
  - eexists middle, _, _. split; [reflexivity|].
    split; [simpl; rewrite Hlogs, <- !app_assoc; reflexivity|].
    split; [apply Forall_app; split; [exact Hall|by repeat constructor]|].
    simpl. split; discriminate.
Qed.

Lemma run_log_is_attached_to_the_execution_witness :
  let res := AnsibleService.execute_playbook toy_python
               (AnsibleService.__init__ repo_settings) too_slow 0 world1 in
  exists middle closing ex,
    res.2 = Ok ex /\
    logs res.1
    = logs world1
      ++ [{| AutomationLog.level := "info";
             AutomationLog.message := "Playbook çalıştırma başlatıldı: restart";
             AutomationLog.playbook_execution := Some 0 |}]
      ++ middle ++ [closing] /\
    Forall (fun l => AutomationLog.playbook_execution l = Some 0) (middle ++ [closing]) /\
    (AutomationLog.level closing = "info" <-> PlaybookExecution.status ex = Completed).
Proof.
  exact (run_log_is_attached_to_the_execution toy_python
           (AnsibleService.__init__ repo_settings) too_slow 0 approved_execution
           restart_playbook world1 eq_refl eq_refl).
Defined.

(** ** More on the scheduler *)

Lemma replace_hm_split (t h m : Z) :
  (0 <= h < 24)%Z -> (0 <= m < 60)%Z ->
  let r := Datetime.replace_hm t h m in
  Datetime.toordinal r = Datetime.toordinal t /\
  Datetime.time_of_day r = (h * Datetime.us_per_hour + m * Datetime.us_per_minute)%Z /\
  Datetime.hour r = h /\ Datetime.minute r = m /\ Datetime.second r = 0%Z /\
  (r - t = h * Datetime.us_per_hour + m * Datetime.us_per_minute - Datetime.time_of_day t)%Z.
Proof.
  intros Hh Hm r. subst r.
  unfold Datetime.replace_hm, Datetime.toordinal, Datetime.time_of_day, Datetime.hour,
    Datetime.minute, Datetime.second, Datetime.time_of_day.
  change Datetime.us_per_day with 86400000000%Z.
  change Datetime.us_per_hour with 3600000000%Z.
  change Datetime.us_per_minute with 60000000%Z.
  change Datetime.us_per_second with 1000000%Z.
  set (q := (t / 86400000000)%Z).
  replace ((q + 1 - 1) * 86400000000 + h * 3600000000 + m * 60000000)%Z
    with ((h * 3600000000 + m * 60000000) + q * 86400000000)%Z by lia.
  rewrite Z.div_add, Z.mod_add by lia.
  assert (Hx : (0 <= h * 3600000000 + m * 60000000 < 86400000000)%Z) by lia.
  rewrite Z.div_small, Z.mod_small by exact Hx.
  assert (Hhour : ((h * 3600000000 + m * 60000000) / 3600000000 = h)%Z).
  { replace (h * 3600000000 + m * 60000000)%Z with (m * 60000000 + h * 3600000000)%Z by lia.
    rewrite Z.div_add by lia. rewrite Z.div_small by lia. lia. }
  assert (Hrem : ((h * 3600000000 + m * 60000000) mod 3600000000 = m * 60000000)%Z).
  { replace (h * 3600000000 + m * 60000000)%Z with (m * 60000000 + h * 3600000000)%Z by lia.
    rewrite Z.mod_add by lia. apply Z.mod_small. lia. }
  assert (Hmin : ((m * 60000000) / 60000000 = m)%Z) by (apply Z.div_mul; lia).
  assert (Hsec : (((h * 3600000000 + m * 60000000) mod 60000000) / 1000000 = 0)%Z).
  { replace (h * 3600000000 + m * 60000000)%Z with (0 + (h * 60 + m) * 60000000)%Z by lia.
    rewrite Z.mod_add by lia. reflexivity. }
  rewrite Hhour, Hrem, Hmin, Hsec.
  pose proof (Z.div_mod t 86400000000 ltac:(lia)) as Hdm. fold q in Hdm.
  repeat split; lia.
Qed.

(** X12. For a daily schedule whose time is in range, and now in the
    years 1 to 9998, the next run is
    the next instant strictly after now that falls on that hour and
    minute, second zero: it is after now, at most a day after now, and
    its clock reads the scheduled hour and minute. *)
Theorem daily_next_run (utcoffset : Z -> Z) (now : datetime)
  (schedule : AutomationSchedule.t) :
  AutomationSchedule.schedule_type schedule = "daily" ->
  valid_time (AutomationSchedule.scheduled_time schedule) ->
  in_years now ->
  exists next_run,
    ScheduleManager.calculate_next_run utcoffset now schedule = Some next_run /\
    (now < next_run <= now + Datetime.us_per_day)%Z /\
    Datetime.hour next_run = Datetime.t_hour (AutomationSchedule.scheduled_time schedule) /\
    Datetime.minute next_run
    = Datetime.t_minute (AutomationSchedule.scheduled_time schedule) /\
    Datetime.second next_run = 0%Z.
Proof.
  intros Htype (Hh & Hm & _) _. unfold ScheduleManager.calculate_next_run. rewrite Htype.
  cbn [String.eqb Ascii.eqb Bool.eqb].
  set (h := Datetime.t_hour _) in *. set (m := Datetime.t_minute _) in *.
  destruct (replace_hm_split now h m Hh Hm) as (Hord & Htod & Hhour & Hmin & Hsec & Hdiff).
  pose proof (Z.mod_pos_bound now Datetime.us_per_day ltac:(reflexivity)) as Hbound.
  fold (Datetime.time_of_day now) in Hbound.
  change Datetime.us_per_day with 86400000000%Z in *.
  change Datetime.us_per_hour with 3600000000%Z in *.
  change Datetime.us_per_minute with 60000000%Z in *.
  destruct (Datetime.replace_hm now h m <=? now)%Z eqn:Hle.
  - apply Z.leb_le in Hle. eexists. split; [reflexivity|].
    unfold Datetime.timedelta_days. change Datetime.us_per_day with 86400000000%Z.
    split; [lia|].
    unfold Datetime.hour, Datetime.minute, Datetime.second, Datetime.time_of_day in *.
    change Datetime.us_per_day with 86400000000%Z in *.
    replace (Datetime.replace_hm now h m + 1 * 86400000000)%Z
      with (Datetime.replace_hm now h m + 1 * 86400000000)%Z by lia.
    rewrite Z.mod_add by lia. auto.
  - apply Z.leb_gt in Hle. eexists. split; [reflexivity|]. split; [lia|]. auto.
Qed.

Lemma daily_next_run_witness :
  exists next_run,
    ScheduleManager.calculate_next_run istanbul sample_now daily_schedule = Some next_run /\
    (sample_now < next_run <= sample_now + Datetime.us_per_day)%Z /\
    Datetime.hour next_run = 9%Z /\ Datetime.minute next_run = 0%Z /\
    Datetime.second next_run = 0%Z.
Proof.
  apply (daily_next_run istanbul sample_now daily_schedule eq_refl).
  - unfold valid_time. simpl. lia.
  - vm_compute. split; [discriminate|reflexivity].
Defined.

(** X13. For a weekly schedule whose time is in range, and now in the
    years 1 to 9998, the next run is a
    Monday at the scheduled hour and minute, on a later day than now and
    at most seven days later: on a Monday the function answers the
    Monday of the week after, even before the scheduled time. *)
Theorem weekly_next_run (utcoffset : Z -> Z) (now : datetime)
  (schedule : AutomationSchedule.t) :
  AutomationSchedule.schedule_type schedule = "weekly" ->
  valid_time (AutomationSchedule.scheduled_time schedule) ->
  in_years now ->
  exists next_run,
    ScheduleManager.calculate_next_run utcoffset now schedule = Some next_run /\
    Datetime.weekday next_run = 0%Z /\
    (1 <= Datetime.toordinal next_run - Datetime.toordinal now <= 7)%Z /\
    (now < next_run)%Z /\
    Datetime.hour next_run = Datetime.t_hour (AutomationSchedule.scheduled_time schedule) /\
    Datetime.minute next_run
    = Datetime.t_minute (AutomationSchedule.scheduled_time schedule).
Proof.
  intros Htype (Hh & Hm & _) _. unfold ScheduleManager.calculate_next_run. rewrite Htype.
  cbn [String.eqb Ascii.eqb Bool.eqb].
  set (h := Datetime.t_hour _) in *. set (m := Datetime.t_minute _) in *.
  set (days_ahead := if (0 - Datetime.weekday now <=? 0)%Z
                     then (0 - Datetime.weekday now + 7)%Z
                     else (0 - Datetime.weekday now)%Z).
  assert (Hwd : (0 <= Datetime.weekday now < 7)%Z)
    by (unfold Datetime.weekday; apply Z.mod_pos_bound; lia).
  assert (Hdays : days_ahead = (7 - Datetime.weekday now)%Z).
  { subst days_ahead. destruct (_ <=? _)%Z eqn:Hle; [lia|]. apply Z.leb_gt in Hle. lia. }
  set (moved := (now + Datetime.timedelta_days days_ahead)%Z).
  assert (Hmoved : Datetime.toordinal moved = (Datetime.toordinal now + days_ahead)%Z).
  { subst moved. unfold Datetime.toordinal, Datetime.timedelta_days.
    rewrite Z.div_add by (change Datetime.us_per_day with 86400000000%Z; lia). lia. }
  destruct (replace_hm_split moved h m Hh Hm) as (Hord & Htod & Hhour & Hmin & _ & _).
  exists (Datetime.replace_hm moved h m). split; [reflexivity|].
  assert (Hgap : (Datetime.toordinal (Datetime.replace_hm moved h m)
                  - Datetime.toordinal now = days_ahead)%Z) by lia.
  split; [|split; [lia|split; [|auto]]].
  - unfold Datetime.weekday in *. rewrite Hord, Hmoved, Hdays.
    replace (Datetime.toordinal now + (7 - (Datetime.toordinal now + 6) mod 7) + 6)%Z
      with ((Datetime.toordinal now + 6) - (Datetime.toordinal now + 6) mod 7 + 1 * 7)%Z
      by lia.
    rewrite Z.mod_add by lia.
    rewrite Zminus_mod, Z.mod_mod, Z.sub_diag by lia. reflexivity.
  - assert (Hord1 : (Datetime.toordinal now + 1
                     <= Datetime.toordinal (Datetime.replace_hm moved h m))%Z) by lia.
    unfold Datetime.toordinal in Hord1.
    pose proof (Z.div_mod now Datetime.us_per_day ltac:(discriminate)) as Hn.
    pose proof (Z.mod_pos_bound now Datetime.us_per_day ltac:(reflexivity)) as Hnb.
    pose proof (Z.div_mod (Datetime.replace_hm moved h m) Datetime.us_per_day
                  ltac:(discriminate)) as Hr.
    pose proof (Z.mod_pos_bound (Datetime.replace_hm moved h m) Datetime.us_per_day
                  ltac:(reflexivity)) as Hrb.
    change Datetime.us_per_day with 86400000000%Z in *. lia.
Qed.

Lemma weekly_next_run_witness :
  exists next_run,
    ScheduleManager.calculate_next_run istanbul sample_now weekly_schedule = Some next_run /\
    Datetime.weekday next_run = 0%Z /\
    (1 <= Datetime.toordinal next_run - Datetime.toordinal sample_now <= 7)%Z /\
    (sample_now < next_run)%Z /\
    Datetime.hour next_run = 9%Z /\ Datetime.minute next_run = 0%Z.
Proof.
  apply (weekly_next_run istanbul sample_now weekly_schedule eq_refl).
  - unfold valid_time. simpl. lia.
  - vm_compute. split; [discriminate|reflexivity].
Defined.

Lemma check_from_spec (n : nat) (r : Z) :
  check_from n r = true ->
  forall k, (r <= k < r + Z.of_nat n)%Z -> month_check k = true.
Proof.
  revert r. induction n as [|n IH]; simpl; intros r H k Hk; [lia|].
  apply andb_true_iff in H as [Hn Hrest].
  destruct (decide (k = r)) as [->|Hne]; [exact Hn|]. apply (IH (r + 1)%Z); [exact Hrest|lia].
Qed.

Lemma month_check_cycle (r : Z) :
  (0 <= r < Datetime.DI400Y)%Z -> month_check r = true.
Proof.
  intros Hr.
  assert (Hall : check_from (Z.to_nat Datetime.DI400Y) 0 = true) by (vm_compute; reflexivity).
  apply (check_from_spec _ _ Hall). unfold Datetime.DI400Y in *. lia.
Qed.

Lemma days_before_year_shift (y q : Z) :
  Datetime.days_before_year (y + 400 * q)
  = (Datetime.days_before_year y + Datetime.DI400Y * q)%Z.
Proof.
  unfold Datetime.days_before_year, Datetime.DI400Y. cbv zeta.
  replace (y + 400 * q - 1)%Z with (y - 1 + q * 400)%Z by lia.
  rewrite (Z.div_add (y - 1) q 400) by lia.
  replace (y - 1 + q * 400)%Z with (y - 1 + (100 * q) * 4)%Z at 2 by lia.
  rewrite (Z.div_add (y - 1) (100 * q) 4) by lia.
  replace (y - 1 + q * 400)%Z with (y - 1 + (4 * q) * 100)%Z at 2 by lia.
  rewrite (Z.div_add (y - 1) (4 * q) 100) by lia.
  lia.
Qed.

Lemma is_leap_shift (y q : Z) :
  Datetime.is_leap (y + 400 * q) = Datetime.is_leap y.
Proof.
  unfold Datetime.is_leap.
  replace (y + 400 * q)%Z with (y + (100 * q) * 4)%Z at 1 by lia.
  replace (y + 400 * q)%Z with (y + (4 * q) * 100)%Z at 1 by lia.
  replace (y + 400 * q)%Z with (y + q * 400)%Z by lia.
  rewrite !Z.mod_add by lia. reflexivity.
Qed.

Lemma ymd2ord_shift (y m d q : Z) :
  Datetime.ymd2ord (y + 400 * q) m d = (Datetime.ymd2ord y m d + Datetime.DI400Y * q)%Z.
Proof.
  unfold Datetime.ymd2ord, Datetime.days_before_month.
  rewrite days_before_year_shift, is_leap_shift. lia.
Qed.

Lemma ord2ymd_shift (k q : Z) :
  Datetime.ord2ymd (k + Datetime.DI400Y * q)
  = Datetime.mk_date (Datetime.d_year (Datetime.ord2ymd k) + 400 * q)
      (Datetime.d_month (Datetime.ord2ymd k)) (Datetime.d_day (Datetime.ord2ymd k)).
Proof.
  unfold Datetime.ord2ymd. cbv zeta.
  replace (k + Datetime.DI400Y * q - 1)%Z with (k - 1 + q * Datetime.DI400Y)%Z by lia.
  rewrite Z.div_add, Z.mod_add by (unfold Datetime.DI400Y; lia).
  destruct (_ || _); [simpl; f_equal; lia|].
  destruct (_ <? _)%Z; simpl; f_equal; lia.
Qed.

Lemma first_of_next_month_shift (d : Datetime.date) (q : Z) :
  first_of_next_month
    (Datetime.mk_date (Datetime.d_year d + 400 * q) (Datetime.d_month d) (Datetime.d_day d))
  = (first_of_next_month d + Datetime.DI400Y * q)%Z.
Proof.
  unfold first_of_next_month. simpl.
  destruct (Datetime.d_month d =? 12)%Z.
  - replace (Datetime.d_year d + 400 * q + 1)%Z with (Datetime.d_year d + 1 + 400 * q)%Z
      by lia.
    apply ymd2ord_shift.
  - apply ymd2ord_shift.
Qed.

Lemma month_check_true (r : Z) :
  month_check r = true ->
  let d := Datetime.ord2ymd (r + 1) in
  (1 <= Datetime.d_month d <= 12)%Z /\
  (r + 1 < first_of_next_month d <= r + 32)%Z /\
  Datetime.d_day (Datetime.ord2ymd (first_of_next_month d)) = 1%Z.
Proof.
  unfold month_check. cbv zeta. intros Hcheck.
  repeat (apply andb_true_iff in Hcheck as [Hcheck ?]). lia.
Qed.

Lemma next_month_facts_in_cycle (r q : Z) :
  (0 <= r < Datetime.DI400Y)%Z ->
  let n := (r + 1 + Datetime.DI400Y * q)%Z in
  let d := Datetime.ord2ymd n in
  let next := first_of_next_month d in
  (1 <= Datetime.d_month d <= 12)%Z /\ (n < next <= n + 31)%Z /\
  Datetime.d_day (Datetime.ord2ymd next) = 1%Z.
Proof.
  intros Hr. cbv zeta.
  rewrite ord2ymd_shift, first_of_next_month_shift, ord2ymd_shift.
  destruct (month_check_true r (month_check_cycle r Hr)) as (Hmonth & Hnext & Hday).
  revert Hmonth Hnext Hday.
  generalize (Datetime.ord2ymd (first_of_next_month (Datetime.ord2ymd (r + 1)))).
  generalize (first_of_next_month (Datetime.ord2ymd (r + 1))).
  generalize (Datetime.ord2ymd (r + 1)).
  generalize (Datetime.DI400Y * q)%Z.
  intros shift d next d' Hmonth Hnext Hday. simpl. lia.
Qed.

(** The calendar facts the monthly branch rests on, for every day. *)
Lemma next_month_facts (n : Z) :
  let d := Datetime.ord2ymd n in
  let next := first_of_next_month d in
  (1 <= Datetime.d_month d <= 12)%Z /\ (n < next <= n + 31)%Z /\
  Datetime.d_day (Datetime.ord2ymd next) = 1%Z.
Proof.
  pose proof (Z.div_mod (n - 1) Datetime.DI400Y ltac:(discriminate)) as Hn.
  pose proof (Z.mod_pos_bound (n - 1) Datetime.DI400Y ltac:(reflexivity)) as Hr.
  pose proof (next_month_facts_in_cycle _ ((n - 1) / Datetime.DI400Y) Hr) as Hfacts.
  replace ((n - 1) mod Datetime.DI400Y + 1
           + Datetime.DI400Y * ((n - 1) / Datetime.DI400Y))%Z with n in Hfacts by lia.
  exact Hfacts.
Qed.

Lemma toordinal_of_fields (y m d tod : Z) :
  (0 <= tod < Datetime.us_per_day)%Z ->
  Datetime.toordinal (Datetime.of_fields y m d tod) = Datetime.ymd2ord y m d /\
  Datetime.time_of_day (Datetime.of_fields y m d tod) = tod.
Proof.
  intros Htod. unfold Datetime.toordinal, Datetime.time_of_day, Datetime.of_fields.
  replace ((Datetime.ymd2ord y m d - 1) * Datetime.us_per_day + tod)%Z
    with (tod + (Datetime.ymd2ord y m d - 1) * Datetime.us_per_day)%Z by lia.
  rewrite Z.div_add, Z.mod_add by discriminate.
  rewrite Z.div_small, Z.mod_small by exact Htod. lia.
Qed.

Lemma later_day_is_later (a b : Z) :
  (Datetime.toordinal a < Datetime.toordinal b)%Z -> (a < b)%Z.
Proof.
  unfold Datetime.toordinal. intros H.
  pose proof (Z.div_mod a Datetime.us_per_day ltac:(discriminate)).
  pose proof (Z.mod_pos_bound a Datetime.us_per_day ltac:(reflexivity)).
  pose proof (Z.div_mod b Datetime.us_per_day ltac:(discriminate)).
  pose proof (Z.mod_pos_bound b Datetime.us_per_day ltac:(reflexivity)).
  change Datetime.us_per_day with 86400000000%Z in *. lia.
Qed.

(** X14. For a monthly schedule whose time is in range and has no
    seconds, and now in the years 1 to 9998, the next run is a first of a
    month at the scheduled hour and minute, second zero, strictly after
    now and at most 31 days after today.  Its day is today exactly when
    today is a first and the scheduled time is still ahead, and otherwise
    the first of the next month (January of the next year after a
    December). *)
Theorem monthly_next_run (utcoffset : Z -> Z) (now : datetime)
  (schedule : AutomationSchedule.t) :
  AutomationSchedule.schedule_type schedule = "monthly" ->
  valid_time (AutomationSchedule.scheduled_time schedule) ->
  Datetime.t_second (AutomationSchedule.scheduled_time schedule) = 0%Z ->
  Datetime.t_microsecond (AutomationSchedule.scheduled_time schedule) = 0%Z ->
  in_years now ->
  exists next_run,
    ScheduleManager.calculate_next_run utcoffset now schedule = Some next_run /\
    (now < next_run)%Z /\
    Datetime.day next_run = 1%Z /\
    Datetime.hour next_run = Datetime.t_hour (AutomationSchedule.scheduled_time schedule) /\
    Datetime.minute next_run
    = Datetime.t_minute (AutomationSchedule.scheduled_time schedule) /\
    (0 <= Datetime.toordinal next_run - Datetime.toordinal now <= 31)%Z /\
    Datetime.toordinal next_run
    = (if (Datetime.day now =? 1)%Z
          && (Datetime.time_of_day now
              <? Datetime.time_us (AutomationSchedule.scheduled_time schedule))%Z
       then Datetime.toordinal now
       else first_of_next_month (Datetime.ord2ymd (Datetime.toordinal now))) /\
    Datetime.time_of_day next_run
    = (Datetime.t_hour (AutomationSchedule.scheduled_time schedule) * Datetime.us_per_hour
       + Datetime.t_minute (AutomationSchedule.scheduled_time schedule)
         * Datetime.us_per_minute)%Z.
Proof.
  intros Htype (Hh & Hm & _) Hsec Hus _. unfold ScheduleManager.calculate_next_run.
  rewrite Htype. cbn [String.eqb Ascii.eqb Bool.eqb].
  set (st := AutomationSchedule.scheduled_time schedule) in *.
  set (h := Datetime.t_hour st) in *. set (m := Datetime.t_minute st) in *.
  assert (Htod : (0 <= Datetime.time_of_day now < Datetime.us_per_day)%Z)
    by (apply Z.mod_pos_bound; reflexivity).
  destruct ((Datetime.day now =? 1)%Z && (Datetime.time_of_day now <? Datetime.time_us st)%Z)
    eqn:Hfirst.
  - apply andb_true_iff in Hfirst as [Hday Hbefore].
    apply Z.eqb_eq in Hday. apply Z.ltb_lt in Hbefore.
    destruct (replace_hm_split now h m Hh Hm) as (Hord & Htime & Hhour & Hmin & _ & Hdiff).
    eexists. split; [reflexivity|].
    unfold Datetime.time_us in Hbefore. fold h m in Hbefore. rewrite Hsec, Hus in Hbefore.
    split; [lia|]. split; [unfold Datetime.day in *; by rewrite Hord|].
    split; [exact Hhour|]. split; [exact Hmin|]. split; [lia|].
    split; [exact Hord|exact Htime].
  - clear Hfirst.
    destruct (next_month_facts (Datetime.toordinal now)) as (Hmonth & Hnext & Hone).
    set (next_month :=
           if (Datetime.month now =? 12)%Z
           then Datetime.replace_ymd now (Datetime.year now + 1) 1 1
           else Datetime.replace_ymd now (Datetime.year now) (Datetime.month now + 1) 1).
    assert (Hnm : Datetime.toordinal next_month
                  = first_of_next_month (Datetime.ord2ymd (Datetime.toordinal now))).
    { subst next_month. unfold first_of_next_month, Datetime.month, Datetime.year,
        Datetime.replace_ymd.
      destruct (_ =? 12)%Z; apply toordinal_of_fields; exact Htod. }
    destruct (replace_hm_split next_month h m Hh Hm)
      as (Hord & Htime & Hhour & Hmin & _ & _).
    exists (Datetime.replace_hm next_month h m). split; [reflexivity|].
    split; [apply later_day_is_later; lia|].
    split; [unfold Datetime.day; rewrite Hord, Hnm; exact Hone|].
    split; [exact Hhour|]. split; [exact Hmin|]. split; [lia|].
    split; [congruence|exact Htime].
Qed.

Lemma monthly_next_run_witness :
  exists next_run,
    ScheduleManager.calculate_next_run istanbul sample_now monthly_schedule = Some next_run /\
    (sample_now < next_run)%Z /\ Datetime.day next_run = 1%Z.
Proof.
  destruct (monthly_next_run istanbul sample_now monthly_schedule eq_refl)
    as (next_run & Hnext & Hafter & Hday & _); try reflexivity.
  - unfold valid_time. simpl. lia.
  - vm_compute. split; [discriminate|reflexivity].
  - exists next_run. auto.
Defined.

(** ** The scheduler tick *)

Lemma run_due_schedule_effect (utcoffset : Z -> Z) (now : datetime) (schedule_id : nat)
  (schedule : AutomationSchedule.t) (w : World) :
  let r := Tasks.run_due_schedule utcoffset now schedule_id schedule w in
  playbooks r.1 = playbooks w /\ clock r.1 = clock w /\
  if r.2 then
    exists e,
      executions r.1 = executions w ++ [e] /\
      PlaybookExecution.status e = Approved /\ PlaybookExecution.executor e = 1 /\
      PlaybookExecution.approved_by e = None /\
      PlaybookExecution.playbook e = AutomationSchedule.playbook schedule /\
      queue r.1 = queue w ++ [length (executions w)] /\
      schedules r.1
      = <[schedule_id :=
            AutomationSchedule.set_next_run
              (ScheduleManager.calculate_next_run utcoffset (clock w) schedule)
              (AutomationSchedule.set_run_count (AutomationSchedule.run_count schedule + 1)
                 (AutomationSchedule.set_last_run (Some now) schedule))]> (schedules w)
  else
    executions r.1 = executions w /\ queue r.1 = queue w /\ schedules r.1 = schedules w.
Proof.
  unfold Tasks.run_due_schedule. cbv zeta.
  set (e := new_execution _ _ _ _ _ _).
  pose proof (objects_create_effect e w) as Hcreate.
  unfold objects_create in *.
  destruct (existsb _ _); [simpl; auto|].
  cbn [create_execution]. cbn -[ScheduleManager.calculate_next_run].
  split; [reflexivity|]. split; [reflexivity|].
  exists e. repeat (split; [reflexivity|]).
  destruct schedule; reflexivity.
Qed.

Lemma tick_fold (utcoffset : Z -> Z) (t : datetime)
  (due : list (nat * AutomationSchedule.t)) (w : World) (n : nat) :
  let r :=
    fold_left
      (fun '(w, executed_count) '(schedule_id, schedule) =>
         match Tasks.run_due_schedule utcoffset t schedule_id schedule w with
         | (w, true) => (w, S executed_count)
         | (w, false) => (w, executed_count)
         end) due (w, n) in
  exists news,
    executions r.1 = executions w ++ news /\
    r.2 = n + length news /\ length news <= length due /\
    queue r.1 = queue w ++ seq (length (executions w)) (length news) /\
    Forall (fun e => PlaybookExecution.status e = Approved /\
                     PlaybookExecution.executor e = 1 /\
                     PlaybookExecution.approved_by e = None) news /\
    playbooks r.1 = playbooks w.
Proof.
  revert w n. induction due as [|[schedule_id schedule] due IH]; intros w n.
  - exists []. simpl. rewrite !app_nil_r. repeat split; auto with lia.
  - cbn [fold_left].
    pose proof (run_due_schedule_effect utcoffset t schedule_id schedule w) as Hone.
    cbv zeta in Hone.
    destruct (Tasks.run_due_schedule utcoffset t schedule_id schedule w) as [w1 [|]];
      cbn [fst snd] in Hone.
    + destruct Hone as (Hp & _ & e & Hrows & Hst & Hex & Hby & _ & Hq & _).
      destruct (IH w1 (S n)) as (news & Hrows' & Hn & Hlen & Hq' & Hall & Hp').
      exists (e :: news). cbv zeta.
      rewrite Hrows', Hrows, <- app_assoc. split; [reflexivity|].
      rewrite Hn. cbn [length]. split; [lia|]. split; [lia|].
      rewrite Hq', Hq, Hrows, length_app, <- app_assoc. cbn [length seq app].
      split; [by rewrite Nat.add_1_r|]. split; [by constructor|]. congruence.
    + destruct Hone as (Hp & _ & Hrows & Hq & _).
      destruct (IH w1 n) as (news & Hrows' & Hn & Hlen & Hq' & Hall & Hp').
      exists news. cbv zeta. rewrite Hrows', Hq', Hrows, Hq, Hn.
      split; [reflexivity|]. split; [reflexivity|]. split; [cbn [length]; lia|].
      split; [reflexivity|]. split; [exact Hall|]. congruence.
Qed.

(** X15. One tick of [process_scheduled_playbooks] only appends
    execution rows: as many as the count it returns, at most one for
    each due schedule; each new row is approved without an approver, is
    executed as user 1, and its key is put on the queue, in order. *)
Theorem tick_counts_what_it_queues (utcoffset : Z -> Z) (w : World) :
  let r := Tasks.process_scheduled_playbooks utcoffset w in
  exists news,
    executions r.1 = executions w ++ news /\
    length news = r.2 /\
    r.2 <= length (Tasks.due_schedules (now w) w) /\
    queue r.1 = queue w ++ seq (length (executions w)) r.2 /\
    Forall (fun e => PlaybookExecution.status e = Approved /\
                     PlaybookExecution.executor e = 1 /\
                     PlaybookExecution.approved_by e = None) news.
Proof.
  unfold Tasks.process_scheduled_playbooks. cbv zeta.
  destruct (tick_fold utcoffset (now w) (Tasks.due_schedules (now w) w) w 0)
    as (news & Hrows & Hn & Hlen & Hq & Hall & _).
  cbv zeta in Hn, Hrows, Hq.
  exists news. rewrite Hn, Hrows, Hq. simpl. auto.
Qed.

(** What [calculate_next_run] returns lies in the future. *)
Lemma next_run_is_later (utcoffset : Z -> Z) (now next_run : datetime)
  (schedule : AutomationSchedule.t) :
  valid_time (AutomationSchedule.scheduled_time schedule) ->
  (AutomationSchedule.schedule_type schedule = "monthly" ->
   Datetime.t_second (AutomationSchedule.scheduled_time schedule) = 0%Z /\
   Datetime.t_microsecond (AutomationSchedule.scheduled_time schedule) = 0%Z) ->
  ScheduleManager.calculate_next_run utcoffset now schedule = Some next_run ->
  (now < next_run)%Z.
Proof.
  intros (Hh & Hm & _) Hmonthly. unfold ScheduleManager.calculate_next_run. cbv zeta.
  set (st := AutomationSchedule.scheduled_time schedule) in *.
  set (h := Datetime.t_hour st) in *. set (m := Datetime.t_minute st) in *.
  assert (Htod : (0 <= Datetime.time_of_day now < Datetime.us_per_day)%Z)
    by (apply Z.mod_pos_bound; reflexivity).
  destruct (String.eqb _ "once").
  { destruct (AutomationSchedule.scheduled_date schedule); [|discriminate].
    destruct (_ <? _)%Z eqn:Hlt; [|discriminate].
    intros [= <-]. by apply Z.ltb_lt. }
  destruct (String.eqb _ "daily").
  { destruct (replace_hm_split now h m Hh Hm) as (_ & _ & _ & _ & _ & Hdiff).
    unfold Datetime.timedelta_days.
    change Datetime.us_per_day with 86400000000%Z in *.
    change Datetime.us_per_hour with 3600000000%Z in *.
    change Datetime.us_per_minute with 60000000%Z in *.
    destruct (_ <=? _)%Z eqn:Hle; intros [= <-]; [lia|]. by apply Z.leb_gt in Hle. }
  destruct (String.eqb _ "weekly").
  { intros [= <-]. apply later_day_is_later.
    match goal with |- context [Datetime.replace_hm ?x h m] => set (moved := x) end.
    destruct (replace_hm_split moved h m Hh Hm) as (-> & _).
    subst moved. unfold Datetime.toordinal, Datetime.timedelta_days.
    rewrite Z.div_add by discriminate.
    pose proof (Z.mod_pos_bound (Datetime.toordinal now + 6) 7 ltac:(reflexivity)).
    unfold Datetime.weekday. unfold Datetime.toordinal in *.
    destruct (_ <=? 0)%Z eqn:Hle; [|apply Z.leb_gt in Hle]; lia. }
  destruct (String.eqb _ "monthly") eqn:Htype.
  { apply String.eqb_eq in Htype. destruct (Hmonthly Htype) as [Hsec Hus].
    destruct (_ && _) eqn:Hfirst; intros [= <-].
    - apply andb_true_iff in Hfirst as [_ Hbefore]. apply Z.ltb_lt in Hbefore.
      destruct (replace_hm_split now h m Hh Hm) as (_ & _ & _ & _ & _ & Hdiff).
      unfold Datetime.time_us in Hbefore. fold h m in Hbefore.
      rewrite Hsec, Hus in Hbefore. lia.
    - destruct (next_month_facts (Datetime.toordinal now)) as (_ & Hnext & _).
      apply later_day_is_later.
      match goal with |- context [Datetime.replace_hm ?x h m] => set (moved := x) end.
      destruct (replace_hm_split moved h m Hh Hm) as (-> & _).
      assert (Hnm : Datetime.toordinal moved
                    = first_of_next_month (Datetime.ord2ymd (Datetime.toordinal now))).
      { subst moved. unfold first_of_next_month, Datetime.month, Datetime.year,
          Datetime.replace_ymd.
        destruct (_ =? 12)%Z; apply toordinal_of_fields; exact Htod. }
      cbv zeta in Hnext. lia. }
  destruct (String.eqb _ "cron"); [|discriminate].
  intros [= <-]. unfold Datetime.timedelta_hours. change Datetime.us_per_hour with 3600000000%Z.
  lia.
Qed.

(** X16. A schedule that fired is written back with [last_run] set to
    the time of the tick and [run_count] increased by one, and it is not
    due any more at the clock's time: its next run is later, or there is
    none.  No other schedule is written.  The schedule's time is in range
    and, for a monthly schedule, has no seconds; the clock is in the
    years 1 to 9998. *)
Theorem fired_schedule_is_not_due_again (utcoffset : Z -> Z) (now : datetime)
  (schedule_id : nat) (schedule : AutomationSchedule.t) (w w' : World) :
  Tasks.run_due_schedule utcoffset now schedule_id schedule w = (w', true) ->
  schedule_id < length (schedules w) ->
  valid_time (AutomationSchedule.scheduled_time schedule) ->
  (AutomationSchedule.schedule_type schedule = "monthly" ->
   Datetime.t_second (AutomationSchedule.scheduled_time schedule) = 0%Z /\
   Datetime.t_microsecond (AutomationSchedule.scheduled_time schedule) = 0%Z) ->
  in_years (clock w) ->
  exists schedule',
    schedules w' !! schedule_id = Some schedule' /\
    AutomationSchedule.last_run schedule' = Some now /\
    AutomationSchedule.run_count schedule' = AutomationSchedule.run_count schedule + 1 /\
    Tasks.is_due (clock w') schedule' = false /\
    forall other, other <> schedule_id -> schedules w' !! other = schedules w !! other.
Proof.
  intros Hrun Hin Htime Hmonthly _.
  pose proof (run_due_schedule_effect utcoffset now schedule_id schedule w) as Heff.
  cbv zeta in Heff. rewrite Hrun in Heff. cbn [fst snd] in Heff.
  destruct Heff as (_ & Hclock & _ & _ & _ & _ & _ & _ & _ & Hs).
  eexists. rewrite Hs. split; [by apply list_lookup_insert_eq|].
  split; [reflexivity|]. split; [reflexivity|]. split.
  - unfold Tasks.is_due. cbn [AutomationSchedule.next_run AutomationSchedule.set_next_run].
    destruct (ScheduleManager.calculate_next_run utcoffset (clock w) schedule)
      as [next_run|] eqn:Hnext; [|by rewrite andb_false_r].
    apply next_run_is_later in Hnext; [|exact Htime|exact Hmonthly].
    rewrite Hclock. apply andb_false_iff. right. apply Z.leb_gt. exact Hnext.
  - intros other Hother. by apply list_lookup_insert_ne.
Qed.

Lemma fired_schedule_is_not_due_again_witness :
  exists schedule',
    schedules (Tasks.run_due_schedule istanbul sample_now 0 daily_schedule
                 (set_schedules [daily_schedule] world0)).1 !! 0 = Some schedule' /\
    AutomationSchedule.run_count schedule' = 1 /\
    Tasks.is_due sample_now schedule' = false.
Proof.
  destruct (fired_schedule_is_not_due_again istanbul sample_now 0 daily_schedule
              (set_schedules [daily_schedule] world0) _ eq_refl)
    as (schedule' & Hrow & _ & Hcount & Hdue & _).
  - simpl. lia.
  - unfold valid_time. simpl. lia.
  - intros [=].
  - vm_compute. split; [discriminate|reflexivity].
  - exists schedule'. auto.
Defined.

(** X17. On the first of a month, from the scheduled hour and minute up
    to the scheduled time with its seconds, the next run of a monthly
    schedule is the scheduled hour and minute of that same day: it is not
    later than now. *)
Theorem monthly_seconds_are_dropped (utcoffset : Z -> Z) (now : datetime)
  (schedule : AutomationSchedule.t) :
  let scheduled_time := AutomationSchedule.scheduled_time schedule in
  AutomationSchedule.schedule_type schedule = "monthly" ->
  valid_time scheduled_time ->
  in_years now ->
  Datetime.day now = 1%Z ->
  (Datetime.t_hour scheduled_time * Datetime.us_per_hour
   + Datetime.t_minute scheduled_time * Datetime.us_per_minute
   <= Datetime.time_of_day now < Datetime.time_us scheduled_time)%Z ->
  exists next_run,
    ScheduleManager.calculate_next_run utcoffset now schedule = Some next_run /\
    (next_run <= now)%Z /\ Datetime.toordinal next_run = Datetime.toordinal now /\
    Datetime.hour next_run = Datetime.t_hour scheduled_time /\
    Datetime.minute next_run = Datetime.t_minute scheduled_time /\
    Datetime.time_of_day next_run
    = (Datetime.t_hour scheduled_time * Datetime.us_per_hour
       + Datetime.t_minute scheduled_time * Datetime.us_per_minute)%Z.
Proof.
  intros st Htype (Hh & Hm & _) _ Hday [Hfrom Hbefore].
  unfold ScheduleManager.calculate_next_run.
  rewrite Htype. cbn [String.eqb Ascii.eqb Bool.eqb]. fold st.
  rewrite Hday, Z.eqb_refl. apply Z.ltb_lt in Hbefore. rewrite Hbefore. cbn [andb].
  destruct (replace_hm_split now _ _ Hh Hm) as (Hord & Htime & Hhour & Hmin & _ & Hdiff).
  eexists. split; [reflexivity|]. split; [lia|]. split; [exact Hord|].
  split; [exact Hhour|]. split; [exact Hmin|exact Htime].
Qed.

Lemma monthly_seconds_are_dropped_witness :
  exists next_run,
    ScheduleManager.calculate_next_run istanbul first_of_june monthly_schedule_with_seconds
    = Some next_run /\
    (next_run <= first_of_june)%Z.
Proof.
  destruct (monthly_seconds_are_dropped istanbul first_of_june
              monthly_schedule_with_seconds eq_refl)
    as (next_run & Hnext & Hle & _).
  - unfold valid_time. simpl. lia.
  - vm_compute. split; [discriminate|reflexivity].
  - reflexivity.
  - vm_compute. split; [discriminate|reflexivity].
  - exists next_run. auto.
Defined.

(** ** The remote adapter *)

Lemma same_launch_refl (e : AnsibleJobExecution.t) : same_launch e e.
Proof. unfold same_launch. auto 12. Qed.

Lemma same_launch_trans (e1 e2 e3 : AnsibleJobExecution.t) :
  same_launch e1 e2 -> same_launch e2 e3 -> same_launch e1 e3.
Proof. unfold same_launch. intros H1 H2. intuition congruence. Qed.

Lemma copy_job_fields_same_launch (py : Python) (d : gmap string json)
  (e e' : AnsibleJobExecution.t) :
  AnsibleTowerService.copy_job_fields py d e = Some e' -> same_launch e e'.
Proof.
  unfold AnsibleTowerService.copy_job_fields.
  destruct (AnsibleTowerService.job_timestamp py d "started") as [started|]; [|discriminate].
  destruct (AnsibleTowerService.job_timestamp py d "finished") as [finished|];
    [|discriminate].
  destruct (d !! "elapsed") as [v|].
  - destruct (truthy v).
    + destruct (AnsibleTowerService.to_float py v); [|discriminate]. intros [= <-].
      destruct started, finished; unfold same_launch; simpl; auto 12.
    + intros [= <-]. destruct started, finished; unfold same_launch; simpl; auto 12.
  - intros [= <-]. destruct started, finished; unfold same_launch; simpl; auto 12.
Qed.

(** [_fetch_job_output] writes at most the row it was called for, and of
    it only the two output columns. *)
Lemma fetch_job_output_effect (self : AnsibleTowerService.t)
  (tower : AnsibleTowerService.Tower) (pk : nat) (e : AnsibleJobExecution.t)
  (w : TowerWorld) :
  let r := AnsibleTowerService._fetch_job_output self tower pk e w in
  job_templates r.1 = job_templates w /\ job_logs r.1 = job_logs w /\
  (job_executions r.1 = job_executions w \/
   exists e', job_executions r.1 = <[pk := e']> (job_executions w) /\ same_launch e e').
Proof.
  unfold AnsibleTowerService._fetch_job_output.
  destruct (AnsibleTowerService.has_tower_job_id e) as [tower_job_id|]; [|simpl; auto].
  destruct (AnsibleTowerService._get_session self); cbn [negb]; [|simpl; auto].
  destruct (AnsibleTowerService.get_stdout tower tower_job_id) as [?|stdout_code text];
    [simpl; auto|].
  set (e1 := if stdout_code =? 200 then _ else e).
  assert (H1 : same_launch e e1)
    by (subst e1; destruct (_ =? _); unfold same_launch; simpl; auto 12).
  clearbody e1.
  destruct (AnsibleTowerService.get_job_events tower tower_job_id)
    as [?|events_code events_data]; [simpl; auto|].
  destruct (events_code =? 200); [|simpl; eauto 10].
  destruct events_data as [| | | | |d]; try (simpl; auto; fail).
  destruct (AnsibleTowerService.events_stderr _) as [[|l ls]|]; simpl; eauto 10.
Qed.

(** A poll either returns [True] after writing the polled row, or leaves
    the tables as they were. *)
Lemma update_job_status_effect (py : Python) (self : AnsibleTowerService.t)
  (tower : AnsibleTowerService.Tower) (pk : nat) (e : AnsibleJobExecution.t)
  (w : TowerWorld) :
  let r := AnsibleTowerService.update_job_status py self tower pk e w in
  job_templates r.1 = job_templates w /\
  match r.2 with
  | Ok true =>
    exists e', job_executions r.1 = <[pk := e']> (job_executions w) /\ same_launch e e'
  | _ => job_executions r.1 = job_executions w /\ job_logs r.1 = job_logs w
  end.
Proof.
  unfold AnsibleTowerService.update_job_status, AnsibleTowerService.get_job_status.
  destruct (AnsibleTowerService.has_tower_job_id e) as [tower_job_id|]; [|simpl; auto].
  destruct (AnsibleTowerService._get_session self); cbn [negb]; [|simpl; auto].
  set (w1 := AnsibleTowerService.send "GET" _ None w).
  assert (Hrows : job_executions w1 = job_executions w) by reflexivity.
  assert (Hlogs : job_logs w1 = job_logs w) by reflexivity.
  assert (Ht : job_templates w1 = job_templates w) by reflexivity.
  clearbody w1.
  destruct (AnsibleTowerService.get_job tower tower_job_id) as [msg|code job_data];
    [simpl; auto|].
  destruct (AnsibleTowerService.is_http_error code); [simpl; auto|].
  destruct (truthy job_data); cbn [negb]; [|simpl; auto].
  destruct job_data as [| | | | |d]; try (simpl; auto; fail).
  set (new_status := match d !! "status" with
                     | Some (JStr name) => _ | Some (JArr _) | Some (JObj _) => None
                     | _ => _ end).
  destruct new_status as [new_status|]; [|simpl; auto].
  destruct (AnsibleTowerService.copy_job_fields py d _) as [e1|] eqn:Hcopy; [|simpl; auto].
  apply copy_job_fields_same_launch in Hcopy.
  assert (H1 : same_launch e e1).
  { eapply same_launch_trans; [|exact Hcopy]. unfold same_launch; simpl; auto 12. }
  set (w2 := if bool_decide _ then _ else _).
  assert (Hrows2 : job_executions w2 = <[pk := e1]> (job_executions w)).
  { subst w2. destruct (bool_decide _); simpl; by rewrite Hrows. }
  assert (Ht2 : job_templates w2 = job_templates w).
  { subst w2. destruct (bool_decide _); simpl; by rewrite Ht. }
  clearbody w2.
  destruct (_ && _); cbn [fst snd]; [|eauto].
  destruct (fetch_job_output_effect self tower pk e1 w2) as (Ht3 & _ & Hrows3).
  cbv zeta in Ht3, Hrows3. split; [congruence|].
  destruct Hrows3 as [->|(e2 & -> & H2)]; [eauto|].
  exists e2. rewrite Hrows2, list_insert_insert_eq. split; [reflexivity|].
  eapply same_launch_trans; eauto.
Qed.

(** X19. A poll that does not return [True], because the job has no id,
    the orchestrator did not answer or answered with an error status or
    with something that cannot be stored, or because there are no
    credentials, leaves the job rows, the job log and the templates as
    they were. *)
Theorem failed_poll_changes_nothing (py : Python) (self : AnsibleTowerService.t)
  (tower : AnsibleTowerService.Tower) (pk : nat) (job_execution : AnsibleJobExecution.t)
  (w w' : TowerWorld) (res : result bool) :
  AnsibleTowerService.update_job_status py self tower pk job_execution w = (w', res) ->
  res <> Ok true ->
  job_executions w' = job_executions w /\ job_logs w' = job_logs w /\
  job_templates w' = job_templates w.
Proof.
  intros Hrun Hres.
  pose proof (update_job_status_effect py self tower pk job_execution w) as Heff.
  cbv zeta in Heff. rewrite Hrun in Heff. cbn [fst snd] in Heff.
  destruct Heff as [Ht Heff]. destruct res as [[|]|exc]; [done|..]; tauto.
Qed.

Lemma failed_poll_changes_nothing_witness :
  job_executions
    (AnsibleTowerService.update_job_status toy_python tower_service tower_down 0
       waiting_job tower_world1).1 = job_executions tower_world1.
Proof.
  eapply (failed_poll_changes_nothing toy_python tower_service tower_down 0 waiting_job
            tower_world1 _ (Ok false)).
  - reflexivity.
  - discriminate.
Defined.

(** X20. Whatever the orchestrator answers, a poll of a row writes no
    other row and no template, and of the polled row it leaves the
    template, the user, the job id, the execution id and everything the
    job was launched with as they were. *)
Theorem poll_keeps_the_launch (py : Python) (self : AnsibleTowerService.t)
  (tower : AnsibleTowerService.Tower) (pk : nat) (job_execution : AnsibleJobExecution.t)
  (w : TowerWorld) :
  job_executions w !! pk = Some job_execution ->
  let r := AnsibleTowerService.refresh_job_status py self tower pk w in
  job_templates r.1 = job_templates w /\
  length (job_executions r.1) = length (job_executions w) /\
  (forall other, other <> pk -> job_executions r.1 !! other = job_executions w !! other) /\
  exists job_execution',
    job_executions r.1 !! pk = Some job_execution' /\
    same_launch job_execution job_execution'.
Proof.
  intros Hrow. unfold AnsibleTowerService.refresh_job_status. rewrite Hrow.
  assert (Hlt : pk < length (job_executions w)) by (eapply lookup_lt_Some; eauto).
  pose proof (update_job_status_effect py self tower pk job_execution w) as Heff.
  cbv zeta in *.
  destruct (AnsibleTowerService.update_job_status py self tower pk job_execution w)
    as [w' res]. cbn [fst snd] in *.
  destruct Heff as [Ht Heff]. split; [exact Ht|].
  assert (Hsame : job_executions w' = job_executions w ->
    length (job_executions w') = length (job_executions w) /\
    (forall other, other <> pk -> job_executions w' !! other = job_executions w !! other) /\
    exists job_execution',
      job_executions w' !! pk = Some job_execution' /\
      same_launch job_execution job_execution').
  { intros ->. split; [reflexivity|]. split; [reflexivity|].
    exists job_execution. split; [exact Hrow|apply same_launch_refl]. }
  destruct res as [[|]|exc]; [|apply Hsame, Heff..].
  destruct Heff as (e' & -> & He'). rewrite length_insert. split; [reflexivity|].
  split; [intros other Hother; by apply list_lookup_insert_ne|].
  exists e'. split; [by apply list_lookup_insert_eq|exact He'].
Qed.

Lemma poll_keeps_the_launch_witness :
  exists job_execution',
    job_executions
      (AnsibleTowerService.refresh_job_status toy_python tower_service (tower_done "done")
         0 tower_world1).1 !! 0 = Some job_execution' /\
    AnsibleJobExecution.tower_job_id job_execution' = Some 501%Z.
Proof.
  destruct (poll_keeps_the_launch toy_python tower_service (tower_done "done") 0
              waiting_job tower_world1 eq_refl)
    as (_ & _ & _ & job_execution' & Hrow & Hsame).
  exists job_execution'. split; [exact Hrow|]. apply Hsame.
Defined.

(** X21. When the orchestrator reports a job as pending, waiting, running
    or canceled, the poll sends the status request and nothing else: the
    output is not requested, and the stored output stays as it was. *)
Theorem unfinished_job_output_is_not_fetched (py : Python) (self : AnsibleTowerService.t)
  (tower : AnsibleTowerService.Tower) (pk : nat) (job_execution : AnsibleJobExecution.t)
  (tower_job_id : Z) (w : TowerWorld) (code : nat) (d : gmap string json) (name : string) :
  job_executions w !! pk = Some job_execution ->
  AnsibleTowerService.has_tower_job_id job_execution = Some tower_job_id ->
  AnsibleTowerService._get_session self = true ->
  AnsibleTowerService.get_job tower tower_job_id
  = AnsibleTowerService.Response code (JObj d) ->
  d !! "status" = Some (JStr name) ->
  AnsibleTowerService.status_mapping name ∈ [JobPending; JobWaiting; JobRunning; JobCanceled] ->
  let r := AnsibleTowerService.refresh_job_status py self tower pk w in
  requests r.1
  = requests w ++ [{| http_method := "GET";
                      http_url := AnsibleTowerService.job_url self tower_job_id "/";
                      http_json := None |}] /\
  exists job_execution',
    job_executions r.1 !! pk = Some job_execution' /\
    AnsibleJobExecution.result_stdout job_execution'
    = AnsibleJobExecution.result_stdout job_execution /\
    AnsibleJobExecution.result_stderr job_execution'
    = AnsibleJobExecution.result_stderr job_execution /\
    (r.2 = Ok true ->
     AnsibleJobExecution.status job_execution' = AnsibleTowerService.status_mapping name).
Proof.
  intros Hrow Hid Hsession Hjob Hstatus Hname.
  assert (Hlt : pk < length (job_executions w)) by (eapply lookup_lt_Some; eauto).
  unfold AnsibleTowerService.refresh_job_status. rewrite Hrow.
  unfold AnsibleTowerService.update_job_status, AnsibleTowerService.get_job_status.
  rewrite Hid, Hsession, Hjob. cbn [negb].
  set (w1 := AnsibleTowerService.send "GET" _ None w).
  assert (Hkeep : requests w1
            = requests w ++ [{| http_method := "GET";
                                http_url := AnsibleTowerService.job_url self tower_job_id "/";
                                http_json := None |}] /\
          exists job_execution',
            job_executions w1 !! pk = Some job_execution' /\
            AnsibleJobExecution.result_stdout job_execution'
            = AnsibleJobExecution.result_stdout job_execution /\
            AnsibleJobExecution.result_stderr job_execution'
            = AnsibleJobExecution.result_stderr job_execution /\
            (@Ok bool false = Ok true ->
             AnsibleJobExecution.status job_execution'
             = AnsibleTowerService.status_mapping name)).
  { split; [reflexivity|]. exists job_execution. split; [exact Hrow|]. by repeat split. }
  destruct (AnsibleTowerService.is_http_error code); [exact Hkeep|].
  destruct (truthy (JObj d)); cbn [negb]; [|exact Hkeep].
  rewrite Hstatus.
  destruct (AnsibleTowerService.copy_job_fields py d _) as [e1|] eqn:Hcopy; [|exact Hkeep].
  apply copy_job_fields_keeps in Hcopy. simpl in Hcopy.
  destruct Hcopy as (Hso & Hse & _ & Hst & _).
  assert (Hterminal : bool_decide (AnsibleTowerService.status_mapping name
                                   ∈ [JobSuccessful; JobFailed; JobError]) = false).
  { apply bool_decide_eq_false. intros Hin.
    destruct (AnsibleTowerService.status_mapping name);
      repeat (apply elem_of_cons in Hin as [Hin|Hin]; [discriminate|]);
      repeat (apply elem_of_cons in Hname as [Hname|Hname]; [discriminate|]);
      first [by apply elem_of_nil in Hin | by apply elem_of_nil in Hname]. }
  rewrite Hterminal. clear Hterminal. cbn [andb fst snd].
  destruct (bool_decide (AnsibleJobExecution.status job_execution = _)); simpl.
  all: split; [reflexivity|]; exists e1.
  all: split; [by apply list_lookup_insert_eq|auto].
Qed.

Lemma unfinished_job_output_is_not_fetched_witness :
  length (requests
            (AnsibleTowerService.refresh_job_status toy_python tower_service tower_busy
               0 tower_world1).1)
  = S (length (requests tower_world1)).
Proof.
  destruct (unfinished_job_output_is_not_fetched toy_python tower_service tower_busy 0
              waiting_job 501 tower_world1 200 {[ "status" := JStr "running" ]} "running"
              eq_refl eq_refl eq_refl eq_refl eq_refl) as [Hreq _].
  - vm_compute. apply list_elem_of_In. simpl. auto.
  - rewrite Hreq, length_app. simpl. lia.
Defined.

(** X22. A cancellation of a row with credentials returns [True] exactly
    when the row has a job id, is pending, waiting or running, and the
    orchestrator answered the request without an error status.  Then the
    row is canceled and finished at the time of the call, and keeps what
    it was launched with; otherwise no row and no log line is written.
    Nothing is sent for a row that is not running. *)
Theorem cancel_job_outcome (self : AnsibleTowerService.t)
  (post_cancel : Z -> AnsibleTowerService.HttpResult unit) (pk : nat)
  (job_execution : AnsibleJobExecution.t) (w : TowerWorld) :
  AnsibleTowerService._get_session self = true ->
  let r := AnsibleTowerCancel.cancel_job self post_cancel pk job_execution w in
  (r.2 = Ok true <->
   exists tower_job_id code,
     AnsibleTowerService.has_tower_job_id job_execution = Some tower_job_id /\
     AnsibleJobExecutionProperties.is_running job_execution = true /\
     post_cancel tower_job_id = AnsibleTowerService.Response code tt /\
     AnsibleTowerService.is_http_error code = false) /\
  (r.2 = Ok true ->
   exists job_execution',
     job_executions r.1 = <[pk := job_execution']> (job_executions w) /\
     AnsibleJobExecution.status job_execution' = JobCanceled /\
     AnsibleJobExecution.finished_at job_execution' = Some (tower_clock w) /\
     same_launch job_execution job_execution') /\
  (r.2 <> Ok true -> job_executions r.1 = job_executions w /\ job_logs r.1 = job_logs w) /\
  (AnsibleJobExecutionProperties.is_running job_execution = false ->
   requests r.1 = requests w).
Proof.
  intros Hsession. unfold AnsibleTowerCancel.cancel_job. rewrite Hsession. cbn [negb].
  destruct (AnsibleTowerService.has_tower_job_id job_execution) as [tower_job_id|].
  2:{ simpl. split; [split; [discriminate|intros (? & ? & [=] & _)]|].
      split; [discriminate|]. auto. }
  destruct (AnsibleJobExecutionProperties.is_running job_execution); cbn [negb].
  2:{ simpl. split; [split; [discriminate|intros (? & ? & _ & [=] & _)]|].
      split; [discriminate|]. auto. }
  destruct (post_cancel tower_job_id) as [msg|code []] eqn:Hpost.
  { simpl. split; [split; [discriminate|intros (? & ? & [= <-] & _ & Hp & _); congruence]|].
    split; [discriminate|]. split; [auto|discriminate]. }
  destruct (AnsibleTowerService.is_http_error code) eqn:Hcode.
  { simpl. split; [split; [discriminate|]|].
    - intros (? & ? & [= <-] & _ & Hp & Hc). congruence.
    - split; [discriminate|]. split; [auto|discriminate]. }
  simpl. split; [split; [intros _; exists tower_job_id, code; auto|reflexivity]|].
  split; [|split; [congruence|discriminate]].
  intros _. eexists. split; [reflexivity|]. simpl. split; [reflexivity|].
  split; [reflexivity|]. unfold same_launch. simpl. auto 12.
Qed.

Lemma cancel_job_outcome_witness :
  exists job_execution',
    job_executions
      (AnsibleTowerCancel.cancel_job tower_service cancel_accepted 0 waiting_job
         tower_world1).1 = [job_execution'] /\
    AnsibleJobExecution.status job_execution' = JobCanceled.
Proof.
  destruct (cancel_job_outcome tower_service cancel_accepted 0 waiting_job tower_world1
              eq_refl) as (_ & Hdone & _).
  destruct (Hdone eq_refl) as (job_execution' & Hrows & Hstatus & _).
  exists job_execution'. split; [exact Hrows|exact Hstatus].
Defined.

(** X23. After a cancellation that returned [True], a second cancellation
    of the row returns [False] without a request, whatever the
    orchestrator would answer. *)
Theorem second_cancel_is_refused (self : AnsibleTowerService.t)
  (post_cancel post_cancel' : Z -> AnsibleTowerService.HttpResult unit) (pk : nat)
  (job_execution : AnsibleJobExecution.t) (w w' : TowerWorld) :
  job_executions w !! pk = Some job_execution ->
  AnsibleTowerCancel.cancel_job self post_cancel pk job_execution w = (w', Ok true) ->
  exists job_execution',
    job_executions w' !! pk = Some job_execution' /\
    AnsibleTowerCancel.cancel_job self post_cancel' pk job_execution' w' = (w', Ok false).
Proof.
  intros Hrow. assert (Hlt : pk < length (job_executions w))
    by (eapply lookup_lt_Some; eauto).
  unfold AnsibleTowerCancel.cancel_job at 1.
  destruct (AnsibleTowerService.has_tower_job_id job_execution) as [tower_job_id|] eqn:Hid;
    [|discriminate].
  destruct (negb (AnsibleJobExecutionProperties.is_running job_execution)); [discriminate|].
  destruct (negb (AnsibleTowerService._get_session self)); [discriminate|].
  destruct (post_cancel tower_job_id) as [msg|code u]; [discriminate|].
  destruct (AnsibleTowerService.is_http_error code); [discriminate|].
  intros [= <-]. eexists. split.
  { simpl. apply list_lookup_insert_eq. exact Hlt. }
  unfold AnsibleTowerCancel.cancel_job.
  replace (AnsibleTowerService.has_tower_job_id _) with (Some tower_job_id)
    by (rewrite <- Hid; reflexivity).
  reflexivity.
Qed.

Lemma second_cancel_is_refused_witness :
  exists job_execution' w',
    job_executions w' !! 0 = Some job_execution' /\
    AnsibleTowerCancel.cancel_job tower_service cancel_accepted 0 job_execution' w'
    = (w', Ok false).
Proof.
  destruct (second_cancel_is_refused tower_service cancel_accepted cancel_accepted 0
              waiting_job tower_world1 _ eq_refl eq_refl)
    as (job_execution' & Hrow & Hagain).
  eauto.
Defined.

(** X24. Every job row is in exactly one of the three classes
    [is_running], [is_successful] and [is_failed]. *)
Theorem job_status_classes_partition (job_execution : AnsibleJobExecution.t) :
  let running := AnsibleJobExecutionProperties.is_running job_execution in
  let successful := AnsibleJobExecutionProperties.is_successful job_execution in
  let failed := AnsibleJobExecutionProperties.is_failed job_execution in
  (running = true /\ successful = false /\ failed = false) \/
  (running = false /\ successful = true /\ failed = false) \/
  (running = false /\ successful = false /\ failed = true).
Proof.
  unfold AnsibleJobExecutionProperties.is_running,
    AnsibleJobExecutionProperties.is_successful, AnsibleJobExecutionProperties.is_failed.
  destruct (AnsibleJobExecution.status job_execution); vm_compute; auto.
Qed.

(** X25. Without a token and without a username and password, a launch
    of an existing template, a poll and a cancellation of a running row
    with a job id raise, and leave everything as it was: nothing is sent,
    no row is created or written. *)
Theorem no_credentials_no_request (py : Python) (self : AnsibleTowerService.t)
  (tower : AnsibleTowerService.Tower)
  (post_cancel : Z -> AnsibleTowerService.HttpResult unit) (w : TowerWorld) :
  AnsibleTowerService._get_session self = false ->
  let exc := Exception "Token veya username/password gerekli" in
  (forall job_template_pk user survey_answers extra_vars kwargs uuid4,
     is_Some (job_templates w !! job_template_pk) ->
     AnsibleTowerService.launch_job_template self job_template_pk user survey_answers
       extra_vars kwargs uuid4 w = (w, Raise exc)) /\
  (forall pk job_execution,
     is_Some (AnsibleTowerService.has_tower_job_id job_execution) ->
     AnsibleTowerService.update_job_status py self tower pk job_execution w
     = (w, Raise exc) /\
     (AnsibleJobExecutionProperties.is_running job_execution = true ->
      AnsibleTowerCancel.cancel_job self post_cancel pk job_execution w = (w, Raise exc))).
Proof.
  intros Hsession exc. split.
  - intros job_template_pk user survey_answers extra_vars kwargs uuid4 [t Ht].
    unfold AnsibleTowerService.launch_job_template. rewrite Ht, Hsession. reflexivity.
  - intros pk job_execution [tower_job_id Hid]. split.
    + unfold AnsibleTowerService.update_job_status, AnsibleTowerService.get_job_status.
      rewrite Hid, Hsession. reflexivity.
    + intros Hrunning. unfold AnsibleTowerCancel.cancel_job.
      rewrite Hid, Hrunning, Hsession. reflexivity.
Qed.

Lemma no_credentials_no_request_witness :
  AnsibleTowerService.launch_job_template anonymous_service 0 alice None
    None no_kwargs "c0ffee" tower_world0
  = (tower_world0, Raise (Exception "Token veya username/password gerekli")).
Proof.
  destruct (no_credentials_no_request toy_python anonymous_service (tower_done "")
              cancel_accepted tower_world0 eq_refl) as [Hlaunch _].
  apply Hlaunch. by eexists.
Defined.
